(** * GRU-model: the training / evaluation driver [main0.py]

    A shallow embedding of the driver script: the name dispatch
    ([get_dataset], [get_model]), one training pass ([train]), one evaluation
    pass ([test]) and the orchestration in [main] (train/validation split,
    epoch loop with best-model tracking, the two CSV reports).

    Python floats are IEEE-754 binary64 numbers, which are Rocq's primitive
    floats: comparisons, [np.sqrt] and the product [len * 0.9] are the
    primitive operations, so that [nan], rounding and the sentinel [1000]
    behave as they do in the script.  The model architectures, the dataset
    readers, the optimiser, the loss and the numeric value of the scikit-learn
    metrics are collaborators of the script that live outside [main0.py]; they
    are the fields of the class [Backend] below.  Console output ([print],
    the [tqdm] progress bar and its running loss) is not modelled. *)

From Stdlib Require Import ZArith List String Ascii Bool Lia Floats Uint63.
From Stdlib Require Import Permutation DecimalString.
Import ListNotations.

Local Open Scope Z_scope.

(** ** Python values: exceptions, results, numbers *)

Module Py.

(** The exceptions the script and the library calls it makes can raise. *)
Inductive exn : Type :=
| ValueError (msg : string)
| NameError (name : string)
| RuntimeError (msg : string)
| OverflowError (msg : string)
| AssertionError.

(** A computation either returns or raises. *)
Inductive result (A : Type) : Type :=
| Ok (a : A)
| Raise (e : exn).

Arguments Ok {A} a.
Arguments Raise {A} e.

Definition is_ok {A} (r : result A) : bool :=
  match r with Ok _ => true | Raise _ => false end.

Definition rbind {A B} (r : result A) (k : A -> result B) : result B :=
  match r with Ok a => k a | Raise e => Raise e end.

(** [float(z)] for a Python int: the nearest double, ties to even;
    [OverflowError] when the int is too large for a double. *)
Definition float_of_int (z : Z) : result float :=
  match binary_normalize prec emax z 0 false with
  | S754_infinity _ => Raise (OverflowError "int too large to convert to float")
  | x => Ok (SF2Prim x)
  end.

(** [int(x)] for a Python float: truncation toward zero. *)
Definition int_of_float (x : float) : result Z :=
  match Prim2SF x with
  | S754_zero _ => Ok 0
  | S754_finite s m e => Ok (cond_Zopp s (Z.shiftl (Zpos m) e))
  | S754_infinity _ => Raise (OverflowError "cannot convert float infinity to integer")
  | S754_nan => Raise (ValueError "cannot convert float NaN to integer")
  end.

(** [n * x] for an int [n] and a float [x]: the int is converted first. *)
Definition int_mul_float (n : Z) (x : float) : result float :=
  rbind (float_of_int n) (fun nf => Ok (nf * x)%float).

(** [range(n)]: empty when [n <= 0]. *)
Definition range (n : Z) : list Z := map Z.of_nat (seq 0 (Z.to_nat n)).

(** [str(z)] for an int. *)
Definition str (z : Z) : string := NilZero.string_of_int (Z.to_int z).

(** [s[start:-back]] for [0 <= start] and [0 < back]. *)
Definition slice (s : string) (start back : nat) : string :=
  substring start (String.length s - back - start) s.

(** A row of the epoch table mixes an int (the epoch index) with floats. *)
Inductive num : Type :=
| Int (z : Z)
| Float (f : float).

End Py.
Import Py.

(** The literal [0.9] of the script: the double nearest to nine tenths,
    [8106479329266893 * 2^-53]. *)
Definition nine_tenths : float := 0x1.ccccccccccccdp-1%float.

(** The literal [1000] that initialises [best], compared as a double. *)
Definition sentinel : float := 1000%float.

(** ** The order and the rounding of doubles, on their specification *)

(** The order of [SFcompare], read off a key: sign class, then exponent,
    then mantissa; [nan] has no key. *)
Definition key (x : spec_float) : option (Z * Z * Z) :=
  match x with
  | S754_nan => None
  | S754_infinity true => Some (-2, 0, 0)
  | S754_infinity false => Some (2, 0, 0)
  | S754_zero _ => Some (0, 0, 0)
  | S754_finite true m e => Some (-1, - e, Zneg m)
  | S754_finite false m e => Some (1, e, Zpos m)
  end.

Definition below (a b : Z * Z * Z) : Prop :=
  fst (fst a) < fst (fst b)
  \/ (fst (fst a) = fst (fst b)
      /\ (snd (fst a) < snd (fst b) \/ (snd (fst a) = snd (fst b) /\ snd a < snd b))).

Definition lex (a b : Z * Z * Z) : comparison :=
  match fst (fst a) ?= fst (fst b) with
  | Eq => match snd (fst a) ?= snd (fst b) with
          | Eq => snd a ?= snd b
          | c => c
          end
  | c => c
  end.

(** The mantissa of [nine_tenths] and the weight of its exponent:
    [10 * C09 = 9 * P53 + 2]. *)
Definition C09 : Z := 8106479329266893.
Definition P53 : Z := 9007199254740992.

(** The least size [N] at which [int(N * 0.9)] is not the floor of nine
    tenths of [N]. *)
Definition first_miss : Z := 1250999896491811.

(** ** The collaborators of the script *)

(** The dataset readers [get_dataset] chooses from. *)
Inductive dataset_class : Type :=
| MovieLens1MDataset
| MovieLens20MDataset
| CriteoDataset
| AvazuDataset
| FuxTower.

(** The model classes [get_model] chooses from; the hyperparameters that
    [get_model] fixes are part of the class, except the two that vary. *)
Inductive model_class : Type :=
| DeepNeuralNetwork
| RecurrentNeuralNetwork (feature_dims : Z)
| LogisticRegressionModel
| FactorizationMachineModel
| HighOrderFactorizationMachineModel
| FieldAwareFactorizationMachineModel
| FactorizationSupportedNeuralNetworkModel
| WideAndDeepModel
| ProductNeuralNetworkModel (method : string)
| DeepCrossNetworkModel
| NeuralFactorizationMachineModel
| NeuralCollaborativeFiltering
| FieldAwareNeuralFactorizationMachineModel
| DeepFactorizationMachineModel
| ExtremeDeepFactorizationMachineModel
| AttentionalFactorizationMachineModel
| AutomaticFeatureInteractionModel
| AdaptiveFactorizationNetwork.

(** Everything [main0.py] imports and calls as a black box.  [forward] is
    [model(fields)], its first argument the module's training flag;
    [backward] adds the gradient of the batch loss to the stored gradients;
    [optimizer_step] is [optimizer.step()]; the three [*_value] functions are
    the numbers scikit-learn computes once its input checks have passed. *)
Class Backend : Type := {
  fields : Type;
  weights : Type;
  gradients : Type;
  optim : Type;
  torch_device : string -> bool;
  read_dataset : dataset_class -> string -> result (list Z * list (fields * float));
  randperm : nat -> list nat;
  construct : model_class -> list Z -> weights;
  no_gradients : gradients;
  Adam : weights -> float -> float -> optim;
  forward : bool -> weights -> list fields -> list float;
  SmoothL1Loss : list float -> list float -> float;
  zero_grad : gradients -> gradients;
  backward : weights -> list fields -> list float -> gradients -> gradients;
  optimizer_step : optim -> weights -> gradients -> optim * weights;
  mae_value : list float -> list float -> float;
  r2_value : list float -> list float -> float;
  mse_value : list float -> list float -> float
}.

Section Driver.

Context {B : Backend}.

(** ** Datasets and [get_dataset] *)

Definition example : Type := (fields * float)%type.

Record dataset : Type := {
  ds_class : dataset_class;
  field_dims : list Z;
  examples : list example
}.

(** [len(dataset)]. *)
Definition len {A} (l : list A) : Z := Z.of_nat (List.length l).

Definition open_dataset (c : dataset_class) (path : string) : result dataset :=
  rbind (read_dataset c path)
    (fun r => Ok {| ds_class := c; field_dims := fst r; examples := snd r |}).

Definition get_dataset (name path : string) : result dataset :=
  if (name =? "movielens1M")%string then open_dataset MovieLens1MDataset path
  else if (name =? "movielens20M")%string then open_dataset MovieLens20MDataset path
  else if (name =? "criteo")%string then open_dataset CriteoDataset path
  else if (name =? "avazu")%string then open_dataset AvazuDataset path
  else if (name =? "fuxtower")%string then open_dataset FuxTower path
  else Raise (ValueError ("unknown dataset name: " ++ name)%string).

(** The names with a branch in [get_dataset]. *)
Definition dataset_names : list string :=
  ["movielens1M"; "movielens20M"; "criteo"; "avazu"; "fuxtower"]%string.

(** ** [get_model] *)

Definition is_movielens (c : dataset_class) : bool :=
  match c with
  | MovieLens20MDataset | MovieLens1MDataset => true
  | _ => false
  end.

(** [feature_dim] is the module-level global the ['rnn'] branch reads; it is
    bound by the [__main__] block, and unbound for any other caller. *)
Definition get_model (feature_dim : option Z) (name : string) (ds : dataset)
  : result weights :=
  let field_dims := field_dims ds in
  if (name =? "dnn")%string then Ok (construct DeepNeuralNetwork field_dims)
  else if (name =? "rnn")%string then
    match feature_dim with
    | Some d => Ok (construct (RecurrentNeuralNetwork d) field_dims)
    | None => Raise (NameError "feature_dim")
    end
  else if (name =? "lr")%string then Ok (construct LogisticRegressionModel field_dims)
  else if (name =? "fm")%string then Ok (construct FactorizationMachineModel field_dims)
  else if (name =? "hofm")%string then
    Ok (construct HighOrderFactorizationMachineModel field_dims)
  else if (name =? "ffm")%string then
    Ok (construct FieldAwareFactorizationMachineModel field_dims)
  else if (name =? "fnn")%string then
    Ok (construct FactorizationSupportedNeuralNetworkModel field_dims)
  else if (name =? "wd")%string then Ok (construct WideAndDeepModel field_dims)
  else if (name =? "ipnn")%string then
    Ok (construct (ProductNeuralNetworkModel "inner") field_dims)
  else if (name =? "opnn")%string then
    Ok (construct (ProductNeuralNetworkModel "outer") field_dims)
  else if (name =? "dcn")%string then Ok (construct DeepCrossNetworkModel field_dims)
  else if (name =? "nfm")%string then
    Ok (construct NeuralFactorizationMachineModel field_dims)
  else if (name =? "ncf")%string then
    if is_movielens (ds_class ds)
    then Ok (construct NeuralCollaborativeFiltering field_dims)
    else Raise AssertionError
  else if (name =? "fnfm")%string then
    Ok (construct FieldAwareNeuralFactorizationMachineModel field_dims)
  else if (name =? "dfm")%string then
    Ok (construct DeepFactorizationMachineModel field_dims)
  else if (name =? "xdfm")%string then
    Ok (construct ExtremeDeepFactorizationMachineModel field_dims)
  else if (name =? "afm")%string then
    Ok (construct AttentionalFactorizationMachineModel field_dims)
  else if (name =? "afi")%string then
    Ok (construct AutomaticFeatureInteractionModel field_dims)
  else if (name =? "afn")%string then
    Ok (construct AdaptiveFactorizationNetwork field_dims)
  else Raise (ValueError ("unknown model name: " ++ name)%string).

(** The names with a branch in [get_model]. *)
Definition model_names : list string :=
  ["dnn"; "rnn"; "lr"; "fm"; "hofm"; "ffm"; "fnn"; "wd"; "ipnn"; "opnn"; "dcn";
   "nfm"; "ncf"; "fnfm"; "dfm"; "xdfm"; "afm"; "afi"; "afn"]%string.

Definition known (names : list string) (name : string) : bool :=
  existsb (String.eqb name) names.

(** ** The train/validation split and the data loaders *)

(** [int(len(dataset_train) * 0.9)]: a double product, then truncation. *)
Definition train_length_of (n : Z) : result Z :=
  rbind (int_mul_float n nine_tenths) int_of_float.

(** [Subset(dataset, indices)], read in index order. *)
Definition subset {A} (ds : list A) (indices : list nat) : list A :=
  flat_map (fun i => match nth_error ds i with Some x => [x] | None => [] end) indices.

(** [torch.utils.data.random_split(dataset, (l1, l2))]: one draw of
    [randperm], cut into consecutive runs of the two lengths. *)
Definition random_split {A} (ds : list A) (l1 l2 : Z) : result (list A * list A) :=
  if negb (l1 + l2 =? len ds)
  then Raise (ValueError "Sum of input lengths does not equal the length of the input dataset!")
  else
    let indices := randperm (Z.to_nat (l1 + l2)) in
    Ok (subset ds (firstn (Z.to_nat l1) indices),
        subset ds (firstn (Z.to_nat l2) (skipn (Z.to_nat l1) indices))).

(** A batch as the loop receives it: the fields and the targets of its
    examples, in order. *)
Definition batch : Type := (list fields * list float)%type.

Definition collate (b : list example) : batch := (map fst b, map snd b).

(** The batch sampler: examples are taken in order, a batch is emitted when
    it is full, and the last, shorter one is kept ([drop_last] is off). *)
Fixpoint batch_sampler {A} (size : nat) (l : list A) (cur : list A) : list (list A) :=
  match l with
  | [] => match cur with [] => [] | _ => [cur] end
  | x :: l' =>
      let cur' := (cur ++ [x])%list in
      if (List.length cur' =? size)%nat
      then cur' :: batch_sampler size l' []
      else batch_sampler size l' cur'
  end.

(** [DataLoader(dataset, batch_size=batch_size, num_workers=8)]: the batches
    one pass over the loader yields; every pass yields the same ones. *)
Definition DataLoader (ds : list example) (batch_size : Z) : result (list batch) :=
  if batch_size <=? 0
  then Raise (ValueError "batch_size should be a positive integer value")
  else Ok (map collate (batch_sampler (Z.to_nat batch_size) ds [])).

(** ** The machine: model, optimiser, disk and an event log *)

(** What the script does to its collaborators, in the order it does it. *)
Inductive event : Type :=
| ModeTrain
| ModeEval
| Forward (x : list fields)
| Loss (y target : list float)
| ZeroGrad
| Backward
| Step
| Save.

(** A CSV file as [to_csv] writes it: the header line, the column of row
    labels when the index is written, and the data rows. *)
Record csv : Type := {
  csv_header : list string;
  csv_index : option (list Z);
  csv_rows : list (list float)
}.

(** The files of the run: the checkpoint at [save_path] and the reports. *)
Record disk : Type := {
  checkpoint : option weights;
  tables : list (string * csv)
}.

Record machine : Type := {
  params : weights;
  grads : gradients;
  opt_state : optim;
  training : bool;
  storage : disk;
  log : list event
}.

Definition emit (e : event) (m : machine) : machine :=
  {| params := params m; grads := grads m; opt_state := opt_state m;
     training := training m; storage := storage m; log := (log m ++ [e])%list |}.

Definition set_training (b : bool) (m : machine) : machine :=
  {| params := params m; grads := grads m; opt_state := opt_state m;
     training := b; storage := storage m; log := log m |}.

Definition set_grads (g : gradients) (m : machine) : machine :=
  {| params := params m; grads := g; opt_state := opt_state m;
     training := training m; storage := storage m; log := log m |}.

Definition set_optimised (r : optim * weights) (m : machine) : machine :=
  {| params := snd r; grads := grads m; opt_state := fst r;
     training := training m; storage := storage m; log := log m |}.

Definition set_storage (d : disk) (m : machine) : machine :=
  {| params := params m; grads := grads m; opt_state := opt_state m;
     training := training m; storage := d; log := log m |}.

(** Programs over the machine that may raise. *)
Definition prog (A : Type) : Type := machine -> result A * machine.

Definition ret {A} (a : A) : prog A := fun m => (Ok a, m).

Definition bind {A C} (p : prog A) (k : A -> prog C) : prog C :=
  fun m => match p m with
           | (Ok a, m') => k a m'
           | (Raise e, m') => (Raise e, m')
           end.

Definition lift {A} (r : result A) : prog A := fun m => (r, m).

Definition act (e : event) (f : machine -> machine) : prog unit :=
  fun m => (Ok tt, emit e (f m)).

Notation "x <- p ;; k" := (bind p (fun x => k))
  (at level 61, p at next level, right associativity).
Notation "p ;;; k" := (bind p (fun _ => k))
  (at level 61, right associativity).

(** [for x in l: acc = body(x, acc)]. *)
Fixpoint for_each {A S} (l : list A) (body : A -> S -> prog S) (acc : S) : prog S :=
  match l with
  | [] => ret acc
  | x :: l' => acc' <- body x acc ;; for_each l' body acc'
  end.

(** The collaborator calls of the two passes. *)
Definition model_train : prog unit := act ModeTrain (set_training true).
Definition model_eval : prog unit := act ModeEval (set_training false).
Definition model_call (x : list fields) : prog (list float) :=
  fun m => (Ok (forward (training m) (params m) x), emit (Forward x) m).
Definition criterion (y target : list float) : prog float :=
  fun m => (Ok (SmoothL1Loss y target), emit (Loss y target) m).
Definition model_zero_grad : prog unit :=
  act ZeroGrad (fun m => set_grads (zero_grad (grads m)) m).
Definition loss_backward (x : list fields) (target : list float) : prog unit :=
  act Backward (fun m => set_grads (backward (params m) x target (grads m)) m).
Definition optimizer_step_call : prog unit :=
  act Step (fun m => set_optimised (optimizer_step (opt_state m) (params m) (grads m)) m).
Definition torch_save : prog unit :=
  act Save (fun m => set_storage {| checkpoint := Some (params m);
                                    tables := tables (storage m) |} m).

(** ** Metrics *)

(** [np.hstack(np.array(l))] on the flat list the passes build: numpy has
    nothing to concatenate when the list is empty. *)
Definition np_hstack (l : list float) : result (list float) :=
  match l with
  | [] => Raise (ValueError "need at least one array to concatenate")
  | _ => Ok l
  end.

Definition is_finite (x : float) : bool := negb (is_nan x || is_infinity x).

(** scikit-learn's input checks, shared by the three metrics: equal numbers
    of samples, at least one sample, no [nan] and no infinity. *)
Definition check_reg_targets (y_true y_pred : list float) : result unit :=
  if negb (List.length y_true =? List.length y_pred)%nat
  then Raise (ValueError "Found input variables with inconsistent numbers of samples")
  else if (List.length y_true =? 0)%nat
  then Raise (ValueError "Found array with 0 sample(s) while a minimum of 1 is required")
  else if negb (forallb is_finite y_true && forallb is_finite y_pred)
  then Raise (ValueError "Input contains NaN, infinity or a value too large")
  else Ok tt.

Definition mean_absolute_error (y_true y_pred : list float) : result float :=
  rbind (check_reg_targets y_true y_pred) (fun _ => Ok (mae_value y_true y_pred)).

Definition r2_score (y_true y_pred : list float) : result float :=
  rbind (check_reg_targets y_true y_pred) (fun _ => Ok (r2_value y_true y_pred)).

Definition mean_squared_error (y_true y_pred : list float) : result float :=
  rbind (check_reg_targets y_true y_pred) (fun _ => Ok (mse_value y_true y_pred)).

(** What [train] and [test] return. *)
Record evaluation : Type := {
  mae_of : float;
  r2_of : float;
  mse_of : float;
  targets_of : list float;
  predicts_of : list float
}.

(** The last three statements of [train] and of [test]: flatten the two
    lists and build the returned tuple, left to right. *)
Definition score (targets predicts : list float) : result evaluation :=
  rbind (np_hstack targets) (fun targets =>
  rbind (np_hstack predicts) (fun predicts =>
  rbind (mean_absolute_error targets predicts) (fun mae =>
  rbind (r2_score targets predicts) (fun r2 =>
  rbind (mean_squared_error targets predicts) (fun mse =>
  Ok {| mae_of := mae; r2_of := r2; mse_of := mse;
        targets_of := targets; predicts_of := predicts |}))))).

(** ** [train] and [test] *)

(** The two lists a pass extends batch after batch. *)
Definition collected : Type := (list float * list float)%type.

Definition extend (acc : collected) (target y : list float) : collected :=
  ((fst acc ++ target)%list, (snd acc ++ y)%list).

(** The body of the loop of [train]. *)
Definition train_batch (b : batch) (acc : collected) : prog collected :=
  y <- model_call (fst b) ;;
  _ <- criterion y (snd b) ;;
  model_zero_grad ;;;
  loss_backward (fst b) (snd b) ;;;
  optimizer_step_call ;;;
  ret (extend acc (snd b) y).

Definition train (data_loader : list batch) : prog evaluation :=
  model_train ;;;
  acc <- for_each data_loader train_batch ([], []) ;;
  lift (score (fst acc) (snd acc)).

(** The body of the loop of [test]. *)
Definition test_batch (b : batch) (acc : collected) : prog collected :=
  y <- model_call (fst b) ;;
  ret (extend acc (snd b) y).

Definition test (data_loader : list batch) : prog evaluation :=
  model_eval ;;;
  acc <- for_each data_loader test_batch ([], []) ;;
  lift (score (fst acc) (snd acc)).

(** ** The local variables of [main] and the best-model tracking *)

(** [best_test] starts as the int [0] and later holds an array. *)
Inductive best_test_value : Type :=
| Zero
| Predictions (p : list float).

(** The variables the epoch loop reads after its first statement;
    [None] is a name not bound yet. *)
Record locals : Type := {
  mae : list (list num);
  best : float;
  best_test : best_test_value;
  best_mae : float;
  best_train_mae : option float;
  best_epoch : option Z;
  targets_test : option (list float)
}.

Definition initial_locals : locals :=
  {| mae := []; best := sentinel; best_test := Zero; best_mae := 0%float;
     best_train_mae := None; best_epoch := None; targets_test := None |}.

(** The row [e] of one epoch. *)
Definition epoch_row (epoch_i : Z) (tr va te : evaluation) : list num :=
  [Int epoch_i;
   Float (mae_of tr); Float (mae_of va); Float (mae_of te);
   Float (r2_of tr); Float (r2_of va); Float (r2_of te);
   Float (PrimFloat.sqrt (mse_of tr)); Float (PrimFloat.sqrt (mse_of va));
   Float (PrimFloat.sqrt (mse_of te))].

(** The variables once [targets_test] is bound and the row is appended. *)
Definition record_epoch (epoch_i : Z) (tr va te : evaluation) (v : locals) : locals :=
  {| mae := (mae v ++ [epoch_row epoch_i tr va te])%list; best := best v;
     best_test := best_test v; best_mae := best_mae v;
     best_train_mae := best_train_mae v; best_epoch := best_epoch v;
     targets_test := Some (targets_of te) |}.

(** The assignments of the [if mae_val<best:] block. *)
Definition new_best (epoch_i : Z) (tr va te : evaluation) (v : locals) : locals :=
  {| mae := mae v; best := mae_of va; best_test := Predictions (predicts_of te);
     best_mae := mae_of te; best_train_mae := Some (mae_of tr);
     best_epoch := Some epoch_i; targets_test := targets_test v |}.

(** The [if mae_val<best:] block that ends the loop body.  The flag it
    returns says which branch ran; the script itself keeps no such value. *)
Definition observe (epoch_i : Z) (tr va te : evaluation) (v : locals)
  : prog (bool * locals) :=
  if (mae_of va <? best v)%float
  then torch_save ;;; ret (true, new_best epoch_i tr va te v)
  else ret (false, v).

(** ** [EarlyStopper]

    The class the script defines and [main] never instantiates (its
    construction is commented out): a patience counter around the same
    strict comparison, starting from the sentinel 100. *)

Record EarlyStopper : Type := {
  num_trials : Z;
  trial_counter : Z;
  best_rmse : float
}.

(** [EarlyStopper(num_trials, save_path)]. *)
Definition EarlyStopper_init (num_trials : Z) : EarlyStopper :=
  {| num_trials := num_trials; trial_counter := 0; best_rmse := 100%float |}.

(** [early_stopper.is_continuable(model, rmse)]: the answer and the stopper
    it leaves. *)
Definition is_continuable (self : EarlyStopper) (rmse : float)
  : prog (bool * EarlyStopper) :=
  if (rmse <? best_rmse self)%float
  then torch_save ;;;
       ret (true, {| num_trials := num_trials self; trial_counter := 0;
                     best_rmse := rmse |})
  else if trial_counter self + 1 <? num_trials self
  then ret (true, {| num_trials := num_trials self;
                     trial_counter := trial_counter self + 1;
                     best_rmse := best_rmse self |})
  else ret (false, self).

(** ** The epoch loop *)

(** One iteration of [for epoch_i in range(epoch)]. *)
Definition epoch_body (train_dl valid_dl test_dl : list batch)
  (epoch_i : Z) (v : locals) : prog locals :=
  _ <- train train_dl ;;
  tr <- test train_dl ;;
  va <- test valid_dl ;;
  te <- test test_dl ;;
  r <- observe epoch_i tr va te (record_epoch epoch_i tr va te v) ;;
  ret (snd r).

Definition epoch_loop (train_dl valid_dl test_dl : list batch) (epoch : Z)
  : prog locals :=
  for_each (range epoch) (epoch_body train_dl valid_dl test_dl) initial_locals.

(** ** The two reports *)

(** A pandas frame: its number of columns and its rows, labelled [0, 1, ...]. *)
Record frame : Type := {
  width : nat;
  body : list (list float)
}.

(** Reading a local variable. *)
Definition name_lookup {A} (name : string) (x : option A) : result A :=
  match x with
  | Some a => Ok a
  | None => Raise (NameError name)
  end.

Fixpoint mapM {A C} (f : A -> result C) (l : list A) : result (list C) :=
  match l with
  | [] => Ok []
  | x :: l' => rbind (f x) (fun y => rbind (mapM f l') (fun ys => Ok (y :: ys)))
  end.

Definition num_to_float (x : num) : result float :=
  match x with
  | Int z => float_of_int z
  | Float f => Ok f
  end.

(** [np.array(mae)]: a list of rows of numbers becomes an array of doubles. *)
Definition np_array (rows : list (list num)) : result (list (list float)) :=
  mapM (mapM num_to_float) rows.

(** [pd.DataFrame(a)] for a one-dimensional array: one column. *)
Definition DataFrame_1d (a : list float) : frame :=
  {| width := 1; body := map (fun x => [x]) a |}.

(** [pd.DataFrame(a)] for a two-dimensional array. *)
Definition DataFrame_2d (a : list (list float)) : frame :=
  {| width := match a with [] => 0 | r :: _ => List.length r end; body := a |}.

(** [pd.DataFrame(best_test)]: pandas refuses a bare scalar. *)
Definition DataFrame_best (b : best_test_value) : result (list float) :=
  match b with
  | Zero => Raise (ValueError "DataFrame constructor not properly called!")
  | Predictions p => Ok p
  end.

(** [df[name] = column]: the new column is aligned on the row labels of
    [df]; a label the column lacks gets [nan], surplus values are dropped. *)
Definition set_column (df : frame) (column : list float) : frame :=
  {| width := S (width df);
     body := map (fun ir => (snd ir ++ [nth (fst ir) column nan])%list)
               (combine (seq 0 (List.length (body df))) (body df)) |}.

(** [df.to_csv(path, index=index, header=header)]; the script passes
    [index=None], which pandas reads as false. *)
Definition to_csv (path : string) (index : bool) (header : list string) (df : frame)
  : prog unit :=
  if negb (List.length header =? width df)%nat
  then lift (Raise (ValueError "Writing cols but got aliases"))
  else fun m =>
    let file := {| csv_header := header;
                   csv_index := if index then Some (range (len (body df))) else None;
                   csv_rows := body df |} in
    (Ok tt, set_storage {| checkpoint := checkpoint (storage m);
                           tables := (path, file) :: tables (storage m) |} m).

Definition prediction_header : list string := ["ground_truth"; "prediction"]%string.

Definition epoch_header : list string :=
  ["epoch"; "mae_train"; "mae_val"; "mae_test"; "r2_train"; "r2_val"; "r2_test";
   "rmse_train"; "rmse_val"; "rmse_test"]%string.

Definition prediction_path (dataset_path_train : string) (best_epoch : Z) : string :=
  ("results_" ++ slice dataset_path_train 77 10 ++ "_epoch=" ++ str best_epoch
   ++ "_lr=0.01_dropout=0.2_hidensize=256liu_GRU-5.csv")%string.

Definition epoch_path (dataset_path_train : string) : string :=
  ("mae_" ++ slice dataset_path_train 77 10
   ++ "_epoch=60_lr=0.01_dropout=0.2_hidensize=256liu_GRU-5.csv")%string.

(** The statements of [main] after the loop. *)
Definition write_reports (dataset_path_train : string) (v : locals) : prog unit :=
  targets <- lift (name_lookup "targets_test" (targets_test v)) ;;
  prediction <- lift (DataFrame_best (best_test v)) ;;
  let df := set_column (DataFrame_1d targets) prediction in
  best_epoch <- lift (name_lookup "best_epoch" (best_epoch v)) ;;
  to_csv (prediction_path dataset_path_train best_epoch) false prediction_header df ;;;
  table <- lift (np_array (mae v)) ;;
  to_csv (epoch_path dataset_path_train) false epoch_header (DataFrame_2d table).

(** ** [main] *)

Record args : Type := {
  dataset_name : string;
  dataset_path_train : string;
  dataset_path_test : string;
  model_name : string;
  epoch : Z;
  learning_rate : float;
  batch_size : Z;
  weight_decay : float;
  device : string;
  save_dir : string
}.

(** What [main] has built when the loop starts. *)
Record setup : Type := {
  train_data_loader : list batch;
  valid_data_loader : list batch;
  test_data_loader : list batch;
  model : weights;
  optimizer : optim
}.

(** The statements of [main] before the loop. *)
Definition prepare (feature_dim : option Z) (a : args) : result setup :=
  if negb (torch_device (device a))
  then Raise (RuntimeError "Invalid device string")
  else
  rbind (get_dataset (dataset_name a) (dataset_path_train a)) (fun dataset_train =>
  rbind (get_dataset (dataset_name a) (dataset_path_test a)) (fun dataset_test =>
  rbind (train_length_of (len (examples dataset_train))) (fun train_length =>
  let valid_length := len (examples dataset_train) - train_length in
  rbind (random_split (examples dataset_train) train_length valid_length) (fun parts =>
  rbind (DataLoader (fst parts) (batch_size a)) (fun train_dl =>
  rbind (DataLoader (snd parts) (batch_size a)) (fun valid_dl =>
  rbind (DataLoader (examples dataset_test) (batch_size a)) (fun test_dl =>
  rbind (get_model feature_dim (model_name a) dataset_train) (fun model =>
  Ok {| train_data_loader := train_dl; valid_data_loader := valid_dl;
        test_data_loader := test_dl; model := model;
        optimizer := Adam model (learning_rate a) (weight_decay a) |})))))))).

(** The machine when the loop starts: a fresh module is in training mode. *)
Definition boot (s : setup) (d : disk) : machine :=
  {| params := model s; grads := no_gradients; opt_state := optimizer s;
     training := true; storage := d; log := [] |}.

(** How a call of [main] ends: returned or raised, the files it leaves and
    what it did to the model on the way. *)
Record outcome : Type := {
  returned : result unit;
  disk_after : disk;
  events : list event
}.

Definition run (s : setup) (a : args) : prog unit :=
  v <- epoch_loop (train_data_loader s) (valid_data_loader s) (test_data_loader s)
         (epoch a) ;;
  write_reports (dataset_path_train a) v.

Definition main (feature_dim : option Z) (a : args) (d : disk) : outcome :=
  match prepare feature_dim a with
  | Raise e => {| returned := Raise e; disk_after := d; events := [] |}
  | Ok s =>
      let r := run s a (boot s d) in
      {| returned := fst r; disk_after := storage (snd r); events := log (snd r) |}
  end.

(** ** What the passes compute, as functions of the model

    The reference the theorems below compare the script with: the model,
    its gradients and the optimiser as one value, the effect of one batch
    and of one pass on it, and the evaluations of a given model. *)

Definition learner : Type := (weights * gradients * optim)%type.

Definition learner_of (m : machine) : learner := (params m, grads m, opt_state m).

Definition weights_of (l : learner) : weights := fst (fst l).

(** One batch of training: gradients cleared, then the gradient of this
    batch, then one optimiser step with it. *)
Definition learn (l : learner) (b : batch) : learner :=
  let g := backward (weights_of l) (fst b) (snd b) (zero_grad (snd (fst l))) in
  let r := optimizer_step (snd l) (weights_of l) g in
  (snd r, g, fst r).

Definition fit (dl : list batch) (l : learner) : learner := fold_left learn dl l.

(** The collaborator calls of one training pass, batch after batch. *)
Fixpoint fit_events (dl : list batch) (l : learner) : list event :=
  match dl with
  | [] => []
  | b :: dl' =>
      [Forward (fst b); Loss (forward true (weights_of l) (fst b)) (snd b);
       ZeroGrad; Backward; Step] ++ fit_events dl' (learn l b)
  end.

(** The predictions a training pass collects: each batch is predicted by
    the model the earlier batches left. *)
Fixpoint fit_predictions (dl : list batch) (l : learner) : list float :=
  match dl with
  | [] => []
  | b :: dl' => forward true (weights_of l) (fst b) ++ fit_predictions dl' (learn l b)
  end.

Definition targets (dl : list batch) : list float := flat_map snd dl.

Definition predictions (w : weights) (dl : list batch) : list float :=
  flat_map (fun b => forward false w (fst b)) dl.

(** The evaluation of a model on a loader. *)
Definition evaluate (w : weights) (dl : list batch) : result evaluation :=
  score (targets dl) (predictions w dl).

(** The machine with a new learner and mode and a longer log. *)
Definition install (l : learner) (mode : bool) (es : list event) (m : machine) : machine :=
  {| params := weights_of l; grads := snd (fst l); opt_state := snd l;
     training := mode; storage := storage m; log := log m ++ es |}.

Definition is_save (e : event) : bool :=
  match e with Save => true | _ => false end.

Definition is_step (e : event) : bool :=
  match e with Step => true | _ => false end.

(** How many times the log says the checkpoint was written. *)
Definition saves (es : list event) : nat := List.length (filter is_save es).

(** The learner after [i] training passes of the run set up as [s]. *)
Definition trained (s : setup) (i : nat) : learner :=
  Nat.iter i (fit (train_data_loader s)) (model s, no_gradients, optimizer s).

(** The model epoch [j] evaluates: the one its own training pass leaves. *)
Definition model_at (s : setup) (j : nat) : weights := weights_of (trained s (S j)).

(** The three evaluations of epoch [j], when all of them succeed. *)
Definition evaluations (s : setup) (j : nat)
  : result (evaluation * evaluation * evaluation) :=
  rbind (evaluate (model_at s j) (train_data_loader s)) (fun tr =>
  rbind (evaluate (model_at s j) (valid_data_loader s)) (fun va =>
  rbind (evaluate (model_at s j) (test_data_loader s)) (fun te =>
  Ok (tr, va, te)))).

(** The validation MAE of epoch [j]; [nan] stands in when the evaluation
    raised, so that no comparison with it holds. *)
Definition mae_val (s : setup) (j : nat) : float :=
  match evaluate (model_at s j) (valid_data_loader s) with
  | Ok va => mae_of va
  | Raise _ => nan
  end.

(** Feeding the tracker the evaluations of consecutive epochs, from epoch
    [epoch_i] on: the flags [observe] returns and the variables it leaves. *)
Fixpoint observe_all (epoch_i : Z) (es : list (evaluation * evaluation * evaluation))
  (v : locals) : prog (list bool * locals) :=
  match es with
  | [] => ret ([], v)
  | (tr, va, te) :: es' =>
      r <- observe epoch_i tr va te v ;;
      rs <- observe_all (epoch_i + 1) es' (snd r) ;;
      ret (fst r :: fst rs, snd rs)
  end.

(** An evaluation with the given MAE and everything else as in [e]. *)
Definition with_mae (x : float) (e : evaluation) : evaluation :=
  {| mae_of := x; r2_of := r2_of e; mse_of := mse_of e;
     targets_of := targets_of e; predicts_of := predicts_of e |}.

(** The collaborator calls of the four passes of one epoch. *)
Definition pass_events (dl_tr dl_va dl_te : list batch) (l : learner) : list event :=
  (ModeTrain :: fit_events dl_tr l)
  ++ (ModeEval :: map (fun b => Forward (fst b)) dl_tr)
  ++ (ModeEval :: map (fun b => Forward (fst b)) dl_va)
  ++ (ModeEval :: map (fun b => Forward (fst b)) dl_te).

(** The machine an epoch leaves when its four passes are over: the learner
    is the one the training pass built and the disk is untouched. *)
Definition after_passes (dl_tr dl_va dl_te : list batch) (m : machine) : machine :=
  install (fit dl_tr (learner_of m)) false (pass_events dl_tr dl_va dl_te (learner_of m)) m.

(** *** What holds after [i] epochs of a run set up as [s] on disk [d] *)

(** The epoch table: one row per epoch, built from that epoch's evaluations. *)
Definition logged (s : setup) (i : nat) (v : locals) : Prop :=
  List.length (mae v) = i /\
  forall j, (j < i)%nat ->
    exists tr va te, evaluations s j = Ok (tr, va, te)
      /\ nth_error (mae v) j = Some (epoch_row (Z.of_nat j) tr va te).

(** The tracker: nothing was below the sentinel and nothing was saved, or
    the best epoch is the first one that no epoch is below. *)
Definition tracked (s : setup) (d : disk) (i : nat) (v : locals) (m : machine) : Prop :=
  match best_epoch v with
  | None =>
      best v = sentinel /\ best_test v = Zero
      /\ checkpoint (storage m) = checkpoint d /\ saves (log m) = O
      /\ forall j, (j < i)%nat -> (mae_val s j <? sentinel)%float = false
  | Some k =>
      exists kn, k = Z.of_nat kn /\ (kn < i)%nat
      /\ best v = mae_val s kn
      /\ (mae_val s kn <? sentinel)%float = true
      /\ best_test v = Predictions (predictions (model_at s kn) (test_data_loader s))
      /\ checkpoint (storage m) = Some (model_at s kn)
      /\ (forall j, (j < i)%nat -> (mae_val s j <? mae_val s kn)%float = false)
      /\ (forall j, (j < kn)%nat -> (mae_val s j <=? mae_val s kn)%float = false)
  end.

(** The epoch loop of the run set up as [s]. *)
Definition loop_of (s : setup) (n : Z) : prog locals :=
  epoch_loop (train_data_loader s) (valid_data_loader s) (test_data_loader s) n.

Definition loop_inv (s : setup) (d : disk) (i : nat) (v : locals) (m : machine) : Prop :=
  learner_of m = trained s i
  /\ tables (storage m) = tables d
  /\ logged s i v
  /\ ((0 < i)%nat -> targets_test v = Some (targets (test_data_loader s)))
  /\ tracked s d i v m.

End Driver.

Arguments dataset {B}.
Arguments machine {B}.
Arguments disk {B}.
Arguments event {B}.
Arguments setup {B}.
Arguments outcome {B}.

(** ** A small backend to run the script on

    One field per example, which is also its target; the model predicts the
    field plus an offset read from a schedule at the number of optimiser
    steps taken so far, so that every split has mean absolute error equal to
    the scheduled offset.  Gradients count the [backward] calls since the
    last [zero_grad], and a step advances the model by that count. *)

Module Toy.

Definition total (l : list float) : float := fold_right PrimFloat.add 0%float l.

Definition mean (l : list float) : float :=
  (total l / SF2Prim (binary_normalize prec emax (Z.of_nat (List.length l)) 0 false))%float.

Definition errors (y_true y_pred : list float) : list float :=
  map (fun tp => (fst tp - snd tp)%float) (combine y_true y_pred).

Definition abs_error (y_true y_pred : list float) : float :=
  mean (map abs (errors y_true y_pred)).

Definition squared_error (y_true y_pred : list float) : float :=
  mean (map (fun d => d * d)%float (errors y_true y_pred)).

Definition determination (y_true y_pred : list float) : float :=
  let centre := mean y_true in
  (1 - total (map (fun d => d * d) (errors y_true y_pred))
       / total (map (fun t => (t - centre) * (t - centre)) y_true))%float.

Definition rows (first count : nat) : list (float * float) :=
  map (fun i => let x := SF2Prim (binary_normalize prec emax (Z.of_nat i) 0 false) in (x, x))
      (seq first count).

Definition read_csv (c : dataset_class) (path : string)
  : result (list Z * list (float * float)) :=
  if (path =? "train.csv")%string then Ok ([1], rows 1 10)
  else if (path =? "test.csv")%string then Ok ([1], rows 11 3)
  else if (path =? "empty.csv")%string then Ok ([1], [])
  else Raise (RuntimeError "no such file").

Definition backend (schedule : list float) : Backend :=
  {| fields := float;
     weights := nat;
     gradients := nat;
     optim := unit;
     torch_device := fun s => (s =? "cpu")%string;
     read_dataset := read_csv;
     randperm := fun n => rev (seq 0 n);
     construct := fun _ _ => O;
     no_gradients := O;
     Adam := fun _ _ _ => tt;
     forward := fun _ w xs => map (fun x => x + nth w schedule 0)%float xs;
     SmoothL1Loss := abs_error;
     zero_grad := fun _ => O;
     backward := fun _ _ _ g => S g;
     optimizer_step := fun o w g => (o, (w + g)%nat);
     mae_value := abs_error;
     r2_value := determination;
     mse_value := squared_error |}.

Definition arguments (test_path : string) (epochs : Z) : args :=
  {| dataset_name := "fuxtower"; dataset_path_train := "train.csv";
     dataset_path_test := test_path; model_name := "rnn"; epoch := epochs;
     learning_rate := 0.0078125%float; batch_size := 4; weight_decay := 0%float;
     device := "cpu"; save_dir := "chkpt" |}.

Definition empty_disk {B : Backend} : disk := {| checkpoint := None; tables := [] |}.

(** Offsets [5, 3, 4, 2] for the models reached after one to four epochs of
    three batches each. *)
Definition falling : list float :=
  [9; 9; 9; 5; 9; 9; 3; 9; 9; 4; 9; 9; 2]%float.

(** Every offset is well above the sentinel. *)
Definition poor : list float := [2000; 2000; 2000; 2000; 1500; 1500; 1500]%float.

(** Arguments whose dataset name has no branch in [get_dataset]. *)
Definition misnamed : args :=
  {| dataset_name := "cifar"; dataset_path_train := "train.csv";
     dataset_path_test := "test.csv"; model_name := "rnn"; epoch := 4;
     learning_rate := 0.0078125%float; batch_size := 4; weight_decay := 0%float;
     device := "cpu"; save_dir := "chkpt" |}.

Definition falling_backend : Backend := backend falling.
Definition poor_backend : Backend := backend poor.

Definition no_setup {B : Backend} (w : weights) (o : optim) : setup :=
  {| train_data_loader := []; valid_data_loader := []; test_data_loader := [];
     model := w; optimizer := o |}.

(** What [prepare] builds for the three runs used below. *)
Definition falling_setup : @setup falling_backend :=
  Eval vm_compute in
    match @prepare falling_backend (Some 31) (arguments "test.csv" 4) with
    | Ok s => s
    | Raise _ => @no_setup falling_backend O tt
    end.

Definition poor_setup : @setup poor_backend :=
  Eval vm_compute in
    match @prepare poor_backend (Some 31) (arguments "test.csv" 2) with
    | Ok s => s
    | Raise _ => @no_setup poor_backend O tt
    end.

Definition untested_setup : @setup falling_backend :=
  Eval vm_compute in
    match @prepare falling_backend (Some 31) (arguments "empty.csv" 2) with
    | Ok s => s
    | Raise _ => @no_setup falling_backend O tt
    end.

(** The four runs of the examples: their arguments and feature dimension. *)
Definition four_epochs : args := arguments "test.csv" 4.
Definition two_epochs : args := arguments "test.csv" 2.
Definition no_test_data : args := arguments "empty.csv" 2.
Definition feature_dim : option Z := Some 31.

(** The dataset object the reader returns for a list of examples. *)
Definition file_of {B : Backend} (ex : list example) : dataset :=
  {| ds_class := FuxTower; field_dims := [1]; examples := ex |}.

End Toy.

(** ** Further parts of the script: counting, the stopper in use, the
    [__main__] block *)

Section Usage.

Context {B : Backend}.

(** How many optimiser steps the log holds. *)
Definition steps (es : list event) : nat := List.length (filter is_step es).

(** Successive calls [early_stopper.is_continuable(model, rmse)], one per
    value of the list, with the answers they give and the stopper they
    leave. *)
Fixpoint is_continuable_all (rmses : list float) (self : EarlyStopper)
  : prog (list bool * EarlyStopper) :=
  match rmses with
  | [] => ret ([], self)
  | rmse :: rest =>
      bind (is_continuable self rmse) (fun r =>
      bind (is_continuable_all rest (snd r)) (fun rs =>
      ret (fst r :: fst rs, snd rs)))
  end.

(** The mode the module is in after the events of a log, from the mode it
    was in before them: [model.train()] and [model.eval()] set it. *)
Fixpoint mode_after (es : list event) (mode : bool) : bool :=
  match es with
  | [] => mode
  | ModeTrain :: es' => mode_after es' true
  | ModeEval :: es' => mode_after es' false
  | _ :: es' => mode_after es' mode
  end.

(** The mode the module is in at each [torch.save] of a log, in order. *)
Fixpoint modes_at_save (es : list event) (mode : bool) : list bool :=
  match es with
  | [] => []
  | ModeTrain :: es' => modes_at_save es' true
  | ModeEval :: es' => modes_at_save es' false
  | Save :: es' => mode :: modes_at_save es' mode
  | _ :: es' => modes_at_save es' mode
  end.

(** The examples of batch [i] of a loader over [ds]: the [size] that follow
    the first [i * size]. *)
Definition window {A} (size i : nat) (ds : list A) : list A :=
  firstn size (skipn (i * size) ds).

End Usage.

(** The block under [if __name__ == '__main__']: the loop over sites and
    years, the table that binds the global [feature_dim], the argument
    parser and the call of [main]. *)

Module Script.

(** [np.arange(start, stop, 1)] on ints. *)
Definition arange (start stop : Z) : list Z :=
  map (fun i => start + Z.of_nat i) (seq 0 (Z.to_nat (stop - start))).

Definition site_name : list string := ["CRP-Ref"]%string.

Definition years : list Z := arange 2018 2019.

(** [year == y1 or year == y2 or ...]. *)
Definition among (year : Z) (ys : list Z) : bool := existsb (Z.eqb year) ys.

(** The test that guards [continue]. *)
Definition skipped (site : string) (year : Z) : bool :=
  ((site =? "AGR-Pr")%string && among year [2019; 2011])
  || ((site =? "CRP-C")%string && (year =? 2009)).

(** The value the [if]/[elif] chain binds [feature_dim] to; [None] for an
    iteration that is skipped, which binds nothing and calls nothing. *)
Definition feature_dim (site : string) (year : Z) : option Z :=
  if skipped site year then None
  else if ((site =? "CRP-Ref")%string && (year =? 2009))
          || ((site =? "CRP-C")%string && among year [2011; 2019])
          || ((site =? "CRP-Sw")%string && among year [2012; 2017; 2018; 2019])
          || ((site =? "AGR-C")%string && among year [2009; 2014; 2019])
          || ((site =? "CRP-Pr")%string
              && among year [2010; 2011; 2012; 2013; 2014; 2019])
  then Some 26
  else if (site =? "CRP-Ref")%string && among year [2010; 2011; 2017]
  then Some 30
  else if (site =? "CRP-Ref")%string && (year =? 2014)
  then Some 29
  else if (site =? "CRP-Ref")%string
          && among year [2012; 2013; 2015; 2016; 2018; 2019; 2020]
  then Some 31
  else if ((site =? "CRP-Sw")%string
           && among year [2010; 2011; 2016; 2017; 2018; 2019])
          || ((site =? "AGR-C")%string && among year [2018; 2020])
          || ((site =? "CRP-Pr")%string && among year [2018; 2017])
          || ((site =? "AGR-Pr")%string && (year =? 2017))
  then Some 25
  else Some 27.

(** The directory the two default paths start with. *)
Definition data_dir : string :=
  "Data/Fux tower_all/Fux tower/filter_all_parameters/3-7_5days/seperate_season/"%string.

Definition default_path_train (site : string) (year : Z) : string :=
  (data_dir ++ site ++ "-" ++ str year ++ "-5-day_3-7_grow_train.csv")%string.

Definition default_path_test (site : string) (year : Z) : string :=
  (data_dir ++ site ++ "-" ++ str year ++ "-5-day_3-7_grow_test.csv")%string.

(** The options of the command line, each absent or already converted to
    the type the parser declares for it. *)
Record command_line : Type := {
  opt_dataset_name : option string;
  opt_dataset_path_train : option string;
  opt_dataset_path_test : option string;
  opt_model_name : option string;
  opt_epoch : option Z;
  opt_learning_rate : option float;
  opt_batch_size : option Z;
  opt_weight_decay : option float;
  opt_device : option string;
  opt_save_dir : option string
}.

Definition no_options : command_line :=
  {| opt_dataset_name := None; opt_dataset_path_train := None;
     opt_dataset_path_test := None; opt_model_name := None; opt_epoch := None;
     opt_learning_rate := None; opt_batch_size := None; opt_weight_decay := None;
     opt_device := None; opt_save_dir := None |}.

Definition or_default {A} (given : option A) (default : A) : A :=
  match given with
  | Some x => x
  | None => default
  end.

(** [parser.parse_args()] with the defaults of the [add_argument] calls;
    the literals [0.01] and [1e-6] are the doubles nearest to them. *)
Definition parse_args (site : string) (year : Z) (cl : command_line) : args :=
  {| dataset_name := or_default (opt_dataset_name cl) "fuxtower"%string;
     dataset_path_train :=
       or_default (opt_dataset_path_train cl) (default_path_train site year);
     dataset_path_test :=
       or_default (opt_dataset_path_test cl) (default_path_test site year);
     model_name := or_default (opt_model_name cl) "rnn"%string;
     epoch := or_default (opt_epoch cl) 60;
     learning_rate := or_default (opt_learning_rate cl) 0x1.47ae147ae147bp-7%float;
     batch_size := or_default (opt_batch_size cl) 100;
     weight_decay := or_default (opt_weight_decay cl) 0x1.0c6f7a0b5ed8dp-20%float;
     device := or_default (opt_device cl) "cuda:0"%string;
     save_dir := or_default (opt_save_dir cl) "chkpt"%string |}.

Section Calls.

Context {B : Backend}.

(** The body of the two loops over the pairs of a site and a year, in the
    order the loops visit them: a skipped pair calls nothing, any other
    binds [feature_dim] and calls [main] on the disk the calls before it
    left; an exception of [main] ends the script. *)
Fixpoint calls (pairs : list (string * Z)) (cl : command_line) (d : disk)
  : list outcome :=
  match pairs with
  | [] => []
  | (site, year) :: rest =>
      match feature_dim site year with
      | None => calls rest cl d
      | Some fd =>
          let o := main (Some fd) (parse_args site year cl) d in
          o :: match returned o with
               | Ok _ => calls rest cl (disk_after o)
               | Raise _ => []
               end
      end
  end.

Definition script (cl : command_line) (d : disk) : list outcome :=
  calls (list_prod site_name years) cl d.

End Calls.

End Script.

(** ** More runs of the small backend *)

Module Cases.

(** The reader of the small backend, with one more file: a training file of
    a single example. *)
Definition read_more (c : dataset_class) (path : string)
  : result (list Z * list (float * float)) :=
  if (path =? "one.csv")%string then Ok ([1], Toy.rows 1 1)
  else Toy.read_csv c path.

Definition backend : Backend :=
  {| fields := float;
     weights := nat;
     gradients := nat;
     optim := unit;
     torch_device := @torch_device Toy.falling_backend;
     read_dataset := read_more;
     randperm := @randperm Toy.falling_backend;
     construct := @construct Toy.falling_backend;
     no_gradients := @no_gradients Toy.falling_backend;
     Adam := @Adam Toy.falling_backend;
     forward := @forward Toy.falling_backend;
     SmoothL1Loss := @SmoothL1Loss Toy.falling_backend;
     zero_grad := @zero_grad Toy.falling_backend;
     backward := @backward Toy.falling_backend;
     optimizer_step := @optimizer_step Toy.falling_backend;
     mae_value := @mae_value Toy.falling_backend;
     r2_value := @r2_value Toy.falling_backend;
     mse_value := @mse_value Toy.falling_backend |}.

Definition arguments (train_path model : string) (epochs size : Z) : args :=
  {| dataset_name := "fuxtower"; dataset_path_train := train_path;
     dataset_path_test := "test.csv"; model_name := model; epoch := epochs;
     learning_rate := 0.0078125%float; batch_size := size; weight_decay := 0%float;
     device := "cpu"; save_dir := "chkpt" |}.

(** One training example, two epochs. *)
Definition lone_example : args := arguments "one.csv" "rnn" 2 4.

(** The usual files with a batch size of zero. *)
Definition no_batch : args := arguments "train.csv" "rnn" 2 0.

(** The usual files and no epoch at all. *)
Definition no_epoch : args := arguments "train.csv" "rnn" 0 4.

(** The usual files and the model that wants a MovieLens dataset. *)
Definition wants_movielens : args := arguments "train.csv" "ncf" 2 4.

Definition lone_setup : @setup backend :=
  Eval vm_compute in
    match @prepare backend (Some 31) lone_example with
    | Ok s => s
    | Raise _ => @Toy.no_setup backend O tt
    end.

(** A stopper with a patience of three trials. *)
Definition three_trials : EarlyStopper := EarlyStopper_init 3.

(** Offsets of a model that does well in its first epoch and predicts
    [nan] once the second one is over. *)
Definition diverging : list float := [9; 9; 9; 5; 9; 9; nan]%float.

Definition diverging_backend : Backend := Toy.backend diverging.

Definition diverging_setup : @setup diverging_backend :=
  Eval vm_compute in
    match @prepare diverging_backend (Some 31) Toy.four_epochs with
    | Ok s => s
    | Raise _ => @Toy.no_setup diverging_backend O tt
    end.

(** The run of four epochs, tested on its validation split instead of the
    test file. *)
Definition other_test_setup : @setup Toy.falling_backend :=
  {| train_data_loader := train_data_loader Toy.falling_setup;
     valid_data_loader := valid_data_loader Toy.falling_setup;
     test_data_loader := valid_data_loader Toy.falling_setup;
     model := model Toy.falling_setup;
     optimizer := optimizer Toy.falling_setup |}.

End Cases.

(** * Properties *)

(** ** Doubles: the order of the comparisons *)

Section FloatOrder.

Lemma SFcompare_key (x y : spec_float) :
  SFcompare x y =
  match key x, key y with
  | Some a, Some b => Some (lex a b)
  | _, _ => None
  end.
Proof.
  destruct x as [sx|sx| |sx mx ex], y as [sy|sy| |sy my ey];
    try destruct sx; try destruct sy; try reflexivity.
  unfold lex; simpl. rewrite Z.compare_opp, (Z.compare_antisym ex ey).
  destruct (ex ?= ey); reflexivity.
Qed.

Lemma lex_Lt (a b : Z * Z * Z) : lex a b = Lt <-> below a b.
Proof.
  unfold lex, below. destruct a as [[a1 a2] a3], b as [[b1 b2] b3]; simpl.
  destruct (Z.compare_spec a1 b1); destruct (Z.compare_spec a2 b2);
    destruct (Z.compare_spec a3 b3); split; intros; try discriminate; try lia; auto.
Qed.

Lemma lex_Eq (a b : Z * Z * Z) : lex a b = Eq <-> a = b.
Proof.
  unfold lex. destruct a as [[a1 a2] a3], b as [[b1 b2] b3]; simpl.
  destruct (Z.compare_spec a1 b1); destruct (Z.compare_spec a2 b2);
    destruct (Z.compare_spec a3 b3); split; intros E; try discriminate;
    try (inversion E; lia); subst; auto.
Qed.

Lemma ltb_below (x y : float) :
  (x <? y)%float = true <->
  exists a b, key (Prim2SF x) = Some a /\ key (Prim2SF y) = Some b /\ below a b.
Proof.
  rewrite FloatAxioms.ltb_spec. unfold SFltb. rewrite SFcompare_key.
  destruct (key (Prim2SF x)) as [a|], (key (Prim2SF y)) as [b|].
  - split.
    + intros E. exists a, b. repeat split. apply lex_Lt.
      destruct (lex a b); congruence.
    + intros (a' & b' & Ea & Eb & Hl). inversion Ea; inversion Eb; subst.
      apply lex_Lt in Hl. now rewrite Hl.
  - split; [discriminate|]. intros (a' & b' & _ & Eb & _). discriminate.
  - split; [discriminate|]. intros (a' & b' & Ea & _ & _). discriminate.
  - split; [discriminate|]. intros (a' & b' & Ea & _ & _). discriminate.
Qed.

Lemma leb_below (x y : float) :
  (x <=? y)%float = true <->
  exists a b, key (Prim2SF x) = Some a /\ key (Prim2SF y) = Some b /\ (below a b \/ a = b).
Proof.
  rewrite FloatAxioms.leb_spec. unfold SFleb. rewrite SFcompare_key.
  destruct (key (Prim2SF x)) as [a|], (key (Prim2SF y)) as [b|].
  - split.
    + intros E. exists a, b. repeat split.
      destruct (lex a b) eqn:El; try discriminate.
      * right. now apply lex_Eq.
      * left. now apply lex_Lt.
    + intros (a' & b' & Ea & Eb & Hl). inversion Ea; inversion Eb; subst.
      destruct Hl as [Hl|Hl].
      * apply lex_Lt in Hl. now rewrite Hl.
      * apply lex_Eq in Hl. now rewrite Hl.
  - split; [discriminate|]. intros (a' & b' & _ & Eb & _). discriminate.
  - split; [discriminate|]. intros (a' & b' & Ea & _ & _). discriminate.
  - split; [discriminate|]. intros (a' & b' & Ea & _ & _). discriminate.
Qed.

Lemma below_trans (a b c : Z * Z * Z) : below a b -> below b c -> below a c.
Proof. unfold below. lia. Qed.

Lemma below_irrefl (a : Z * Z * Z) : ~ below a a.
Proof. unfold below. lia. Qed.

Lemma ltb_irrefl (x : float) : (x <? x)%float = false.
Proof.
  destruct (x <? x)%float eqn:E; [|reflexivity].
  apply ltb_below in E. destruct E as (a & b & Ea & Eb & Hl).
  rewrite Ea in Eb. inversion Eb; subst. now apply below_irrefl in Hl.
Qed.

Lemma ltb_trans (x y z : float) :
  (x <? y)%float = true -> (y <? z)%float = true -> (x <? z)%float = true.
Proof.
  rewrite !ltb_below. intros (a & b & Ea & Eb & H1) (b' & c & Eb' & Ec & H2).
  rewrite Eb in Eb'. inversion Eb'; subst. exists a, c. eauto using below_trans.
Qed.

Lemma leb_ltb_trans (x y z : float) :
  (x <=? y)%float = true -> (y <? z)%float = true -> (x <? z)%float = true.
Proof.
  rewrite leb_below, !ltb_below.
  intros (a & b & Ea & Eb & H1) (b' & c & Eb' & Ec & H2).
  rewrite Eb in Eb'. inversion Eb'; subst. exists a, c. repeat split; auto.
  destruct H1 as [H1|H1]; [eauto using below_trans | now subst].
Qed.

Lemma leb_not_ltb (x y : float) : (x <=? y)%float = true -> (y <? x)%float = false.
Proof.
  intros H. destruct (y <? x)%float eqn:E; [|reflexivity].
  pose proof (leb_ltb_trans _ _ _ H E) as C. now rewrite ltb_irrefl in C.
Qed.

End FloatOrder.

(** ** Doubles: rounding a product to 53 bits *)

Section Rounding.

Lemma digits2_pos_bounds (p : positive) :
  2 ^ (Zpos (digits2_pos p) - 1) <= Zpos p < 2 ^ Zpos (digits2_pos p).
Proof.
  induction p as [p IH|p IH|]; cbn [digits2_pos].
  - rewrite Pos2Z.inj_succ.
    replace (Z.succ (Zpos (digits2_pos p)) - 1) with (Z.succ (Zpos (digits2_pos p) - 1)) by lia.
    rewrite !Z.pow_succ_r by lia. lia.
  - rewrite Pos2Z.inj_succ.
    replace (Z.succ (Zpos (digits2_pos p)) - 1) with (Z.succ (Zpos (digits2_pos p) - 1)) by lia.
    rewrite !Z.pow_succ_r by lia. lia.
  - simpl. lia.
Qed.

Lemma digits2_pos_unique (p : positive) (D : Z) :
  2 ^ (D - 1) <= Zpos p < 2 ^ D -> Zpos (digits2_pos p) = D.
Proof.
  intros [H1 H2]. pose proof (digits2_pos_bounds p) as [H3 H4].
  assert (0 < D).
  { destruct (Z_lt_le_dec 0 D); auto.
    assert (2 ^ D <= 1); [|lia].
    destruct (Z.eq_dec D 0) as [->|]; [simpl; lia|].
    rewrite Z.pow_neg_r by lia. lia. }
  assert (Zpos (digits2_pos p) - 1 < D).
  { apply (Z.pow_lt_mono_r_iff 2); lia. }
  assert (D - 1 < Zpos (digits2_pos p)).
  { apply (Z.pow_lt_mono_r_iff 2); lia. }
  lia.
Qed.

(** A positive below [2^k] has at most [k] bits; one from [2^k] on has more. *)
Lemma digits2_pos_le (p : positive) (k : Z) :
  0 <= k -> Zpos p < 2 ^ k -> Zpos (digits2_pos p) <= k.
Proof.
  intros Hk Hp. pose proof (digits2_pos_bounds p) as [Hb _].
  destruct (Z_le_gt_dec (Zpos (digits2_pos p)) k) as [|Hgt]; [assumption|].
  assert (2 ^ k <= 2 ^ (Zpos (digits2_pos p) - 1)) by (apply Z.pow_le_mono_r; lia).
  lia.
Qed.

Lemma digits2_pos_gt (p : positive) (k : Z) :
  2 ^ k <= Zpos p -> k < Zpos (digits2_pos p).
Proof.
  intros Hp. pose proof (digits2_pos_bounds p) as [_ Hb].
  destruct (Z_lt_le_dec k (Zpos (digits2_pos p))) as [|Hle]; [assumption|].
  assert (2 ^ Zpos (digits2_pos p) <= 2 ^ k) by (apply Z.pow_le_mono_r; lia).
  lia.
Qed.

Lemma iter_pos_nat {A} (f : A -> A) (p : positive) :
  forall x, iter_pos f p x = Nat.iter (Pos.to_nat p) f x.
Proof.
  induction p as [p IH|p IH|]; intros x; cbn [iter_pos].
  - rewrite !IH, Pos2Nat.inj_xI, <- Nat.iter_add, <- Nat.iter_succ_r.
    f_equal. lia.
  - rewrite !IH, Pos2Nat.inj_xO, <- Nat.iter_add. f_equal. lia.
  - reflexivity.
Qed.

Lemma shr_1_spec (r : shr_record) :
  0 <= shr_m r ->
  shr_m (shr_1 r) = shr_m r / 2 /\ shr_r (shr_1 r) = Z.odd (shr_m r).
Proof.
  destruct r as [m r s]. cbn [shr_m]. intros Hm.
  destruct m as [|p|p]; [now cbn| |lia].
  destruct p as [p|p|]; cbn [shr_1 shr_m shr_r].
  - split; [|reflexivity].
    rewrite Pos2Z.inj_xI. apply (Z.div_unique _ _ _ 1); lia.
  - split; [|reflexivity].
    rewrite Pos2Z.inj_xO. apply (Z.div_unique _ _ _ 0); lia.
  - now split.
Qed.

Lemma shr_iter_spec (k : nat) (r : shr_record) :
  0 <= shr_m r ->
  shr_m (Nat.iter (S k) shr_1 r) = shr_m r / 2 ^ Z.of_nat (S k)
  /\ shr_r (Nat.iter (S k) shr_1 r) = Z.odd (shr_m r / 2 ^ Z.of_nat k).
Proof.
  intros Hm. induction k as [|k [IH1 IH2]].
  - change (Nat.iter 1 shr_1 r) with (shr_1 r). destruct (shr_1_spec r Hm) as [E1 E2].
    rewrite E1, E2. change (2 ^ Z.of_nat 1) with 2. change (2 ^ Z.of_nat 0) with 1.
    now rewrite Z.div_1_r.
  - change (Nat.iter (S (S k)) shr_1 r) with (shr_1 (Nat.iter (S k) shr_1 r)).
    assert (H0 : 0 <= shr_m (Nat.iter (S k) shr_1 r)).
    { rewrite IH1. apply Z.div_pos; lia. }
    destruct (shr_1_spec _ H0) as [E1 E2]. rewrite E1, E2, IH1. split; [|reflexivity].
    rewrite Z.div_div by lia. f_equal.
    rewrite (Nat2Z.inj_succ (S k)), Z.pow_succ_r by lia. lia.
Qed.

Lemma round_nearest_even_cases (r : shr_record) :
  round_nearest_even (shr_m r) (loc_of_shr_record r) = shr_m r
  \/ (round_nearest_even (shr_m r) (loc_of_shr_record r) = shr_m r + 1
      /\ shr_r r = true).
Proof.
  destruct r as [m [|] [|]]; cbn; auto.
  destruct (Z.even m); auto.
Qed.

(** Rounding a mantissa of [D > 53] bits to 53 bits: the low [D - 53] bits
    are dropped, and the result is bumped by one only if the highest dropped
    bit is set. *)
Lemma binary_round_aux_wide (M : positive) (e D : Z) :
  Zpos (digits2_pos M) = D -> 53 < D -> -1074 <= D + e - 53 -> D + e - 53 <= 971 ->
  exists m',
    (m' = Zpos M / 2 ^ (D - 53)
     \/ (m' = Zpos M / 2 ^ (D - 53) + 1 /\ Z.odd (Zpos M / 2 ^ (D - 53 - 1)) = true))
    /\ (m' < 2 ^ 53 ->
        binary_round_aux prec emax false (Zpos M) e loc_Exact
        = S754_finite false (Z.to_pos m') (D + e - 53)).
Proof.
  intros HD Hwide Hlo Hhi.
  unfold binary_round_aux.
  assert (Hshift : shr_fexp prec emax (Zpos M) e loc_Exact
            = (iter_pos shr_1 (Z.to_pos (D - 53))
                 {| shr_m := Zpos M; shr_r := false; shr_s := false |}, D + e - 53)).
  { unfold shr_fexp, shr_record_of_loc, Zdigits2, fexp, SpecFloat.emin, prec, emax.
    rewrite HD. rewrite Z.max_l by lia.
    replace (D + e - 53 - e) with (D - 53) by lia.
    unfold shr. destruct (D - 53) as [|q|q] eqn:Eq; try lia.
    f_equal. lia. }
  rewrite Hshift, iter_pos_nat.
  destruct (Pos.to_nat (Z.to_pos (D - 53))) as [|k] eqn:Ek; [lia|].
  assert (Hk : Z.of_nat (S k) = D - 53) by lia.
  set (r0 := {| shr_m := Zpos M; shr_r := false; shr_s := false |}).
  destruct (shr_iter_spec k r0) as [E1 E2]; [cbn; lia|].
  change (shr_m r0) with (Zpos M) in E1, E2.
  rewrite Hk in E1. replace (Z.of_nat k) with (D - 53 - 1) in E2 by lia.
  set (r := Nat.iter (S k) shr_1 r0) in *.
  exists (round_nearest_even (shr_m r) (loc_of_shr_record r)). split.
  - destruct (round_nearest_even_cases r) as [E|[E Er]]; rewrite E, E1; auto.
    right. split; auto. now rewrite <- E2.
  - set (m' := round_nearest_even (shr_m r) (loc_of_shr_record r)). intros Hm'.
    assert (Hm1 : 2 ^ 52 <= shr_m r).
    { rewrite E1. pose proof (digits2_pos_bounds M) as [Hb _]. rewrite HD in Hb.
      apply Z.div_le_lower_bound; [apply Z.pow_pos_nonneg; lia|].
      rewrite <- Z.pow_add_r by lia. replace (D - 53 + 52) with (D - 1) by lia. exact Hb. }
    assert (Hge : shr_m r <= m').
    { unfold m'. destruct (round_nearest_even_cases r) as [E|[E _]]; rewrite E; lia. }
    assert (Hpos : 0 < m') by lia.
    destruct m' as [|pm|pm] eqn:Em; try lia.
    assert (Hdig : Zpos (digits2_pos pm) = 53).
    { apply digits2_pos_unique. change (53 - 1) with 52. lia. }
    unfold shr_fexp, shr_record_of_loc, Zdigits2, fexp, SpecFloat.emin, prec, emax.
    rewrite Hdig. rewrite Z.max_l by lia.
    replace (53 + (D + e - 53) - 53 - (D + e - 53)) with 0 by lia.
    cbn [shr shr_m].
    destruct (D + e - 53 <=? 1024 - 53) eqn:El; [reflexivity|].
    apply Z.leb_gt in El. lia.
Qed.

Lemma binary_round_aux_53 (M : positive) (e : Z) :
  Zpos (digits2_pos M) = 53 -> -1074 <= e <= 971 ->
  binary_round_aux prec emax false (Zpos M) e loc_Exact = S754_finite false M e.
Proof.
  intros HD He. unfold binary_round_aux.
  assert (Hshift : shr_fexp prec emax (Zpos M) e loc_Exact
            = ({| shr_m := Zpos M; shr_r := false; shr_s := false |}, e)).
  { unfold shr_fexp, shr_record_of_loc, Zdigits2, fexp, SpecFloat.emin, prec, emax.
    rewrite HD. rewrite Z.max_l by lia.
    replace (53 + e - 53 - e) with 0 by lia. reflexivity. }
  rewrite Hshift. cbn [shr_m loc_of_shr_record round_nearest_even].
  rewrite Hshift. cbn [shr_m].
  unfold prec, emax. destruct (e <=? 1024 - 53) eqn:El; [reflexivity|].
  apply Z.leb_gt in El. lia.
Qed.

(** The double of a positive int below [2^53] is the int itself, its
    mantissa shifted up to 53 bits. *)
Lemma binary_normalize_exact (p : positive) :
  Zpos p < 2 ^ 53 ->
  let d := Zpos (digits2_pos p) in
  exists mz, Zpos mz = Zpos p * 2 ^ (53 - d)
    /\ Zpos (digits2_pos mz) = 53
    /\ binary_normalize prec emax (Zpos p) 0 false = S754_finite false mz (d - 53).
Proof.
  intros Hp d. pose proof (digits2_pos_bounds p) as [Hb1 Hb2]. fold d in Hb1, Hb2.
  assert (Hd : 1 <= d <= 53).
  { split; [unfold d; lia|apply digits2_pos_le; lia]. }
  cbn [binary_normalize]. unfold binary_round.
  unfold fexp, SpecFloat.emin, prec, emax. fold d.
  rewrite Z.max_l by lia. rewrite Z.add_0_r.
  unfold shl_align. rewrite Z.sub_0_r.
  assert (Hmz : forall mz, Zpos mz = Zpos p * 2 ^ (53 - d) -> Zpos (digits2_pos mz) = 53).
  { intros mz E. apply digits2_pos_unique. rewrite E. change (53 - 1) with 52.
    replace (2 ^ 52) with (2 ^ (d - 1) * 2 ^ (53 - d))
      by (rewrite <- Z.pow_add_r by lia; f_equal; lia).
    replace (2 ^ 53) with (2 ^ d * 2 ^ (53 - d))
      by (rewrite <- Z.pow_add_r by lia; f_equal; lia).
    assert (0 < 2 ^ (53 - d)) by (apply Z.pow_pos_nonneg; lia).
    split; [apply Z.mul_le_mono_nonneg_r|apply Z.mul_lt_mono_pos_r]; lia. }
  destruct (d - 53) as [|q|q] eqn:Eq; try lia.
  - exists p. assert (E : Zpos p = Zpos p * 2 ^ (53 - d)).
    { replace (53 - d) with 0 by lia. lia. }
    split; [exact E|]. split; [auto|].
    apply binary_round_aux_53; [auto|lia].
  - exists (Pos.iter xO p q).
    assert (E : Zpos (Pos.iter xO p q) = Zpos p * 2 ^ (53 - d)).
    { fold (shift_pos q p). rewrite shift_pos_correct.
      replace (53 - d) with (Zpos q) by lia.
      change (2 ^ Zpos q) with (Z.pow_pos 2 q). lia. }
    split; [exact E|]. split; [auto|].
    apply binary_round_aux_53; [auto|lia].
Qed.

Lemma odd_half (M h : Z) :
  0 <= M -> 0 < h -> Z.odd (M / h) = true -> 2 * h * (M / (2 * h)) + h <= M.
Proof.
  intros HM Hh Ho.
  assert (E : M / (2 * h) = M / h / 2) by (rewrite Z.div_div by lia; f_equal; lia).
  rewrite E.
  pose proof (Z.div_mod (M / h) 2 ltac:(lia)) as Hdm.
  rewrite Zmod_odd, Ho in Hdm.
  pose proof (Z.mul_div_le M h Hh). nia.
Qed.

(** The arithmetic of the split: [N * S] is the 53-bit mantissa of [N],
    [T] the weight of the bits the product drops, [K] the weight of one
    unit in the rounded mantissa.  Dropping the low bits of [N * 0.9] and
    rounding to nearest cannot reach the next integer while half of [T] is
    small against the distance of [N * S] to [2^53]. *)
Lemma split_arith (N S T K J m1 m' q : Z) :
  1 <= N -> 2 <= S -> 2 ^ 52 <= N * S < P53 ->
  10 * T < 2 * P53 * S - 4 * (N * S) ->
  0 < T <= P53 -> 0 < K -> 0 < J -> T * K = P53 * S -> K * J = P53 ->
  T * m1 <= N * S * C09 < T * m1 + T -> m1 < P53 ->
  (m' = m1 \/ (m' = m1 + 1 /\ T * (2 * m1 + 1) <= 2 * (N * S * C09))) ->
  10 * q <= 9 * N <= 10 * q + 9 ->
  m' < P53 /\ K * q <= m' < K * (q + 1).
Proof.
  unfold C09, P53. intros HN HS HX Hgap HT HK HJ HTK HKJ Hm1 Hm1P Hm' Hq.
  set (X := N * S) in *.
  assert (HTqK : forall z, T * (K * z) = 9007199254740992 * S * z).
  { intros z. rewrite Z.mul_assoc, HTK. reflexivity. }
  assert (Hlow : K * q <= m1).
  { destruct (Z_le_gt_dec (K * q) m1); auto. exfalso.
    assert (T * (m1 + 1) <= T * (K * q)) by (apply Z.mul_le_mono_nonneg_l; lia).
    rewrite HTqK in H.
    assert (10 * q * (9007199254740992 * S) <= 9 * N * (9007199254740992 * S))
      by (apply Z.mul_le_mono_nonneg_r; lia).
    unfold X in *. nia. }
  assert (Hup : m' < K * (q + 1)).
  { destruct (Z_lt_le_dec m' (K * (q + 1))); auto. exfalso.
    assert ((9 * N + 1) * (9007199254740992 * S) <= (10 * (q + 1)) * (9007199254740992 * S))
      by (apply Z.mul_le_mono_nonneg_r; lia).
    destruct Hm' as [->|[-> Hr]].
    - assert (T * (K * (q + 1)) <= T * m1) by (apply Z.mul_le_mono_nonneg_l; lia).
      rewrite HTqK in H0. unfold X in *. nia.
    - assert (T * (2 * (K * (q + 1)) - 1) <= T * (2 * m1 + 1))
        by (apply Z.mul_le_mono_nonneg_l; lia).
      replace (T * (2 * (K * (q + 1)) - 1)) with (2 * (T * (K * (q + 1))) - T) in H0 by ring.
      rewrite HTqK in H0. unfold X in *. nia. }
  split; [|lia].
  assert (q < J).
  { destruct (Z_lt_le_dec q J); auto. exfalso.
    assert (K * J <= K * q) by (apply Z.mul_le_mono_nonneg_l; lia). lia. }
  assert (K * (q + 1) <= K * J) by (apply Z.mul_le_mono_nonneg_l; lia). lia.
Qed.

Lemma Prim2SF_nine_tenths : Prim2SF nine_tenths = S754_finite false 8106479329266893 (-53).
Proof. reflexivity. Qed.

Lemma float_of_int_pos (p : positive) :
  Zpos p < 2 ^ 53 ->
  exists nf mz,
    float_of_int (Zpos p) = Ok nf
    /\ Zpos mz = Zpos p * 2 ^ (53 - Zpos (digits2_pos p))
    /\ Zpos (digits2_pos mz) = 53
    /\ Prim2SF nf = S754_finite false mz (Zpos (digits2_pos p) - 53).
Proof.
  intros Hp. destruct (binary_normalize_exact p Hp) as (mz & E & Hd & Hn).
  exists (SF2Prim (S754_finite false mz (Zpos (digits2_pos p) - 53))), mz.
  unfold float_of_int. rewrite Hn. repeat split; auto.
  apply Prim2SF_SF2Prim.
  pose proof (digits2_pos_bounds p) as [Hb1 Hb2].
  assert (Zpos (digits2_pos p) <= 53) by (apply digits2_pos_le; lia).
  unfold valid_binary, bounded, canonical_mantissa, fexp, SpecFloat.emin, prec, emax.
  rewrite Hd. apply andb_true_iff. split.
  - apply Z.eqb_eq. lia.
  - apply Z.leb_le. lia.
Qed.

(** Up to the size at which the product [N * 0.9] first needs 106 bits, the
    training length the script computes is the floor of nine tenths. *)
Lemma train_length_narrow (n : Z) :
  0 <= n <= 1250999896491804 -> train_length_of n = Ok (9 * n / 10).
Proof.
  intros [Hn0 Hn]. unfold train_length_of, int_mul_float.
  destruct n as [|p|p]; [reflexivity| |lia].
  destruct (float_of_int_pos p) as (nf & mz & Ef & Emz & Dmz & Enf); [lia|].
  rewrite Ef. cbn [rbind]. unfold int_of_float.
  rewrite FloatAxioms.mul_spec, Enf, Prim2SF_nine_tenths.
  unfold SF64mul, SFmul. cbn [xorb].
  set (d := Zpos (digits2_pos p)) in *.
  assert (Hd : 1 <= d <= 51).
  { split; [unfold d; lia|apply digits2_pos_le; lia]. }
  pose proof (digits2_pos_bounds mz) as [Hz1 Hz2]. rewrite Dmz in Hz1, Hz2.
  change (53 - 1) with 52 in Hz1.
  set (M := (mz * 8106479329266893)%positive).
  assert (HM : Zpos M = Zpos p * 2 ^ (53 - d) * C09).
  { unfold M, C09. rewrite Pos2Z.inj_mul, Emz. reflexivity. }
  set (D := Zpos (digits2_pos M)).
  pose proof (digits2_pos_bounds M) as [HD1 HD2]. fold D in HD1, HD2.
  assert (HMb : 2 ^ 104 <= Zpos M < 2 ^ 106).
  { unfold M. rewrite Pos2Z.inj_mul. change (2 ^ 104) with (2 ^ 52 * 2 ^ 52).
    change (2 ^ 106) with (2 ^ 53 * 2 ^ 53). change (2 ^ 52) with 4503599627370496 in *.
    change (2 ^ 53) with 9007199254740992 in *. nia. }
  assert (HD : 105 <= D <= 106).
  { pose proof (digits2_pos_gt M 104 (proj1 HMb)) as Hlo.
    pose proof (digits2_pos_le M 106 ltac:(lia) (proj2 HMb)) as Hhi.
    fold D in Hlo, Hhi. lia. }
  destruct (binary_round_aux_wide M (d - 53 + -53) D eq_refl) as (m' & Hcase & Hres);
    try lia.
  set (S := 2 ^ (53 - d)) in *.
  set (T := 2 ^ (D - 53)) in *.
  set (K := 2 ^ (159 - D - d)).
  set (J := 2 ^ (D + d - 106)).
  set (m1 := Zpos M / T) in *.
  set (q := 9 * Zpos p / 10).
  assert (HS : 4 <= S).
  { change 4 with (2 ^ 2). apply Z.pow_le_mono_r; lia. }
  assert (HT : 0 < T <= P53).
  { split; [apply Z.pow_pos_nonneg; lia|].
    change P53 with (2 ^ 53). apply Z.pow_le_mono_r; lia. }
  assert (HK : 0 < K) by (apply Z.pow_pos_nonneg; lia).
  assert (HJ : 0 < J) by (apply Z.pow_pos_nonneg; lia).
  assert (HTK : T * K = P53 * S).
  { unfold T, K, S. change P53 with (2 ^ 53). rewrite <- !Z.pow_add_r by lia.
    f_equal. lia. }
  assert (HKJ : K * J = P53).
  { unfold K, J. change P53 with (2 ^ 53). rewrite <- !Z.pow_add_r by lia.
    f_equal. lia. }
  assert (Hm1 : T * m1 <= Zpos M < T * m1 + T).
  { unfold m1. pose proof (Z.mul_div_le (Zpos M) T ltac:(lia)).
    pose proof (Z.mul_succ_div_gt (Zpos M) T ltac:(lia)). lia. }
  assert (Hm1P : m1 < P53).
  { unfold m1. apply Z.div_lt_upper_bound; [lia|].
    unfold T. change P53 with (2 ^ 53). rewrite <- Z.pow_add_r by lia.
    replace (D - 53 + 53) with D by lia. exact HD2. }
  assert (Hround : m' = m1 \/ (m' = m1 + 1 /\ T * (2 * m1 + 1) <= 2 * Zpos M)).
  { destruct Hcase as [E|[E Ho]]; [left; exact E|right]. split; [exact E|].
    pose proof (odd_half (Zpos M) (2 ^ (D - 53 - 1)) ltac:(lia)
                  ltac:(apply Z.pow_pos_nonneg; lia) Ho) as Hh.
    assert (ET : 2 * 2 ^ (D - 53 - 1) = T).
    { unfold T. rewrite <- Z.pow_succ_r by lia. f_equal. lia. }
    rewrite ET in Hh. fold m1 in Hh. lia. }
  assert (Hq : 10 * q <= 9 * Zpos p <= 10 * q + 9).
  { unfold q. pose proof (Z.div_mod (9 * Zpos p) 10 ltac:(lia)).
    pose proof (Z.mod_pos_bound (9 * Zpos p) 10 ltac:(lia)). lia. }
  assert (HX : 2 ^ 52 <= Zpos p * S < P53).
  { rewrite <- Emz. change P53 with (2 ^ 53). lia. }
  assert (Hgap : 10 * T < 2 * P53 * S - 4 * (Zpos p * S)).
  { destruct (Z_le_gt_dec d 50) as [Hsmall|Hbig].
    - (* at most 50 bits: the mantissa was shifted by three bits or more *)
      assert (8 <= S) by (change 8 with (2 ^ 3); apply Z.pow_le_mono_r; lia).
      unfold P53 in *. lia.
    - (* 51 bits: the product still has 105 bits *)
      assert (E51 : d = 51) by lia.
      assert (ES : S = 4) by (unfold S; rewrite E51; reflexivity).
      assert (HD105 : D = 105).
      { assert (D <= 105); [|lia]. apply digits2_pos_le; [lia|].
        rewrite HM. fold S. rewrite ES. unfold C09.
        change (2 ^ 105) with 40564819207303340847894502572032. lia. }
      assert (ET : T = 4503599627370496) by (unfold T; rewrite HD105; reflexivity).
      rewrite ES, ET. unfold P53. lia. }
  rewrite HM in Hm1, Hround.
  destruct (split_arith (Zpos p) S T K J m1 m' q) as (Hlt & Hlo & Hhi); auto; try lia.
  rewrite Hres by exact Hlt.
  cbn [cond_Zopp]. f_equal.
  assert (Hpos : 0 < m').
  { destruct Hround as [->|[-> _]]; assert (0 <= m1) by (apply Z.div_pos; lia);
      [|lia].
    assert (2 ^ 52 <= m1); [|lia].
    unfold m1. apply Z.div_le_lower_bound; [lia|].
    unfold T. rewrite <- Z.pow_add_r by lia. replace (D - 53 + 52) with (D - 1) by lia.
    exact HD1. }
  rewrite Z2Pos.id by exact Hpos.
  rewrite Z.shiftl_div_pow2 by lia.
  replace (- (D + (d - 53 + -53) - 53)) with (159 - D - d) by lia. fold K.
  symmetry. apply (Z.div_unique m' K q (m' - K * q)); lia.
Qed.

(** Below [first_miss] examples, the training length the script computes
    is the exact floor of nine tenths of the size: the sizes the argument
    above does not reach are six, and are computed. *)
Lemma train_length_exact (n : Z) :
  0 <= n < first_miss -> train_length_of n = Ok (9 * n / 10).
Proof.
  unfold first_miss. intros [Hn0 Hn].
  destruct (Z_le_gt_dec n 1250999896491804) as [Hle|Hgt];
    [apply train_length_narrow; lia|].
  assert (Hsix : n = 1250999896491805 \/ n = 1250999896491806 \/ n = 1250999896491807
                 \/ n = 1250999896491808 \/ n = 1250999896491809
                 \/ n = 1250999896491810) by lia.
  destruct Hsix as [->|[->|[->|[->|[->| ->]]]]]; vm_compute; reflexivity.
Qed.

End Rounding.

(** ** The passes and the epoch loop *)

Section Passes.

Context {B : Backend}.

Lemma install_install (l1 l2 : learner) (t1 t2 : bool) (es1 es2 : list event) (m : machine) :
  install l2 t2 es2 (install l1 t1 es1 m) = install l2 t2 (es1 ++ es2) m.
Proof. unfold install; simpl. now rewrite app_assoc. Qed.

Lemma install_same (m : machine) :
  install (learner_of m) (training m) [] m = m.
Proof. destruct m; unfold install, learner_of, weights_of; simpl. now rewrite app_nil_r. Qed.

Lemma learner_of_install l t es m : learner_of (install l t es m) = l.
Proof. now destruct l as [[w g] o]. Qed.

Lemma extend_nil (acc : collected) : extend acc [] [] = acc.
Proof. destruct acc; unfold extend; simpl. now rewrite !app_nil_r. Qed.

Lemma extend_extend (acc : collected) t1 y1 t2 y2 :
  extend (extend acc t1 y1) t2 y2 = extend acc (t1 ++ t2) (y1 ++ y2).
Proof. unfold extend; simpl. now rewrite !app_assoc. Qed.

(** One batch of [train] is one [learn]. *)
Lemma train_batch_spec (b : batch) (acc : collected) (m : machine) :
  training m = true ->
  train_batch b acc m =
  (Ok (extend acc (snd b) (forward true (weights_of (learner_of m)) (fst b))),
   install (learn (learner_of m) b) true
     [Forward (fst b); Loss (forward true (weights_of (learner_of m)) (fst b)) (snd b);
      ZeroGrad; Backward; Step] m).
Proof.
  intros Ht. destruct m as [w g o t d lg]. cbn [training] in Ht. subst t.
  cbv [train_batch bind model_call criterion model_zero_grad loss_backward
    optimizer_step_call act ret install learn learner_of weights_of extend
    emit set_optimised set_grads fst snd params grads opt_state training storage log].
  rewrite <- !app_assoc. reflexivity.
Qed.

Lemma for_each_train (dl : list batch) : forall (acc : collected) (m : machine),
  training m = true ->
  for_each dl train_batch acc m =
  (Ok (extend acc (targets dl) (fit_predictions dl (learner_of m))),
   install (fit dl (learner_of m)) true (fit_events dl (learner_of m)) m).
Proof.
  induction dl as [|b dl IH]; intros acc m Ht.
  - simpl. unfold ret. rewrite extend_nil. rewrite <- Ht at 1. now rewrite install_same.
  - cbn [for_each]. unfold bind at 1. rewrite train_batch_spec by assumption.
    rewrite IH by reflexivity.
    rewrite learner_of_install, install_install, extend_extend. reflexivity.
Qed.

Theorem train_spec (dl : list batch) (m : machine) :
  train dl m =
  (score (targets dl) (fit_predictions dl (learner_of m)),
   install (fit dl (learner_of m)) true (ModeTrain :: fit_events dl (learner_of m)) m).
Proof.
  unfold train, bind at 1, model_train, act.
  set (m1 := emit ModeTrain (set_training true m)).
  assert (E1 : m1 = install (learner_of m) true [ModeTrain] m) by reflexivity.
  unfold bind. rewrite for_each_train by reflexivity.
  rewrite E1, learner_of_install, install_install. reflexivity.
Qed.

Lemma test_batch_spec (b : batch) (acc : collected) (m : machine) :
  training m = false ->
  test_batch b acc m =
  (Ok (extend acc (snd b) (forward false (params m) (fst b))),
   install (learner_of m) false [Forward (fst b)] m).
Proof.
  intros Ht. destruct m as [w g o t d lg]. simpl in Ht. subst t.
  unfold test_batch, bind, model_call, ret, install, emit; simpl. reflexivity.
Qed.

Lemma for_each_test (dl : list batch) : forall (acc : collected) (m : machine),
  training m = false ->
  for_each dl test_batch acc m =
  (Ok (extend acc (targets dl) (predictions (params m) dl)),
   install (learner_of m) false (map (fun b => Forward (fst b)) dl) m).
Proof.
  induction dl as [|b dl IH]; intros acc m Ht.
  - simpl. unfold ret. rewrite extend_nil. rewrite <- Ht at 1. now rewrite install_same.
  - cbn [for_each]. unfold bind at 1. rewrite test_batch_spec by assumption.
    rewrite IH by reflexivity.
    rewrite learner_of_install, install_install, extend_extend.
    destruct m; reflexivity.
Qed.

Theorem test_spec (dl : list batch) (m : machine) :
  test dl m =
  (evaluate (params m) dl,
   install (learner_of m) false (ModeEval :: map (fun b => Forward (fst b)) dl) m).
Proof.
  unfold test, bind at 1, model_eval, act.
  set (m1 := emit ModeEval (set_training false m)).
  assert (E1 : m1 = install (learner_of m) false [ModeEval] m) by reflexivity.
  unfold bind. rewrite for_each_test by reflexivity.
  rewrite E1, learner_of_install, install_install.
  destruct m; reflexivity.
Qed.


Lemma observe_spec (i : Z) (tr va te : evaluation) (v : locals) (m : machine) :
  observe i tr va te v m =
  if (mae_of va <? best v)%float
  then (Ok (true, new_best i tr va te v),
        emit Save (set_storage {| checkpoint := Some (params m);
                                  tables := tables (storage m) |} m))
  else (Ok (false, v), m).
Proof.
  unfold observe. destruct (mae_of va <? best v)%float; reflexivity.
Qed.

Lemma saves_app (es1 es2 : list event) : saves (es1 ++ es2) = (saves es1 + saves es2)%nat.
Proof. unfold saves. now rewrite filter_app, length_app. Qed.

Lemma saves_cons (e : event) (es : list event) :
  saves (e :: es) = ((if is_save e then 1 else 0) + saves es)%nat.
Proof. unfold saves; simpl. now destruct (is_save e). Qed.

Lemma saves_fit_events (dl : list batch) : forall l, saves (fit_events dl l) = 0%nat.
Proof.
  induction dl as [|b dl IH]; intros l; [reflexivity|].
  cbn [fit_events]. rewrite saves_app, IH. reflexivity.
Qed.

Lemma saves_forwards (dl : list batch) :
  saves (map (fun b => Forward (fst b)) dl) = 0%nat.
Proof.
  induction dl as [|b dl IH]; [reflexivity|].
  cbn [map]. now rewrite saves_cons, IH.
Qed.

Lemma saves_pass_events dl_tr dl_va dl_te l : saves (pass_events dl_tr dl_va dl_te l) = 0%nat.
Proof.
  unfold pass_events.
  now rewrite !saves_app, !saves_cons, saves_fit_events, !saves_forwards.
Qed.

Lemma params_install l t es m : params (install l t es m) = weights_of l.
Proof. reflexivity. Qed.

Lemma storage_install l t es m : storage (install l t es m) = storage m.
Proof. reflexivity. Qed.

Lemma log_install l t es m : log (install l t es m) = log m ++ es.
Proof. reflexivity. Qed.

Lemma firstn_exact {A} (l1 l2 : list A) : firstn (List.length l1) (l1 ++ l2) = l1.
Proof.
  rewrite <- (Nat.add_0_r (List.length l1)).
  now rewrite firstn_app_2, firstn_O, app_nil_r.
Qed.

(** One epoch as a function of the learner it starts from. *)
Lemma epoch_body_eq (dl_tr dl_va dl_te : list batch) (i : Z) (v : locals) (m : machine) :
  let l := learner_of m in
  let w := weights_of (fit dl_tr l) in
  let ev := pass_events dl_tr dl_va dl_te l in
  epoch_body dl_tr dl_va dl_te i v m =
  match score (targets dl_tr) (fit_predictions dl_tr l) with
  | Raise e => (Raise e, install (fit dl_tr l) true (firstn (1 + List.length (fit_events dl_tr l)) ev) m)
  | Ok _ =>
    match evaluate w dl_tr with
    | Raise e => (Raise e, install (fit dl_tr l) false
                    (firstn (2 + List.length (fit_events dl_tr l) + List.length dl_tr) ev) m)
    | Ok tr =>
      match evaluate w dl_va with
      | Raise e => (Raise e, install (fit dl_tr l) false
             (firstn (3 + List.length (fit_events dl_tr l) + List.length dl_tr
                      + List.length dl_va) ev) m)
      | Ok va =>
        match evaluate w dl_te with
        | Raise e => (Raise e, after_passes dl_tr dl_va dl_te m)
        | Ok te =>
            if (mae_of va <? best v)%float
            then (Ok (new_best i tr va te (record_epoch i tr va te v)),
                  emit Save (set_storage {| checkpoint := Some w;
                                            tables := tables (storage m) |}
                               (after_passes dl_tr dl_va dl_te m)))
            else (Ok (record_epoch i tr va te v), after_passes dl_tr dl_va dl_te m)
        end
      end
    end
  end.
Proof.
  intros l w ev. unfold epoch_body.
  unfold bind at 1. rewrite train_spec. fold l.
  assert (P1 : firstn (1 + List.length (fit_events dl_tr l)) ev
               = ModeTrain :: fit_events dl_tr l).
  { unfold ev, pass_events.
    change (1 + List.length (fit_events dl_tr l))%nat
      with (List.length (ModeTrain :: fit_events dl_tr l)).
    now rewrite firstn_exact. }
  destruct (score (targets dl_tr) (fit_predictions dl_tr l)) as [e0|e].
  2:{ now rewrite P1. }
  unfold bind at 1. rewrite test_spec, params_install, learner_of_install, install_install.
  fold w.
  set (F := fun dl : list batch => ModeEval :: map (fun b => Forward (fst b)) dl).
  assert (LF : forall dl, List.length (F dl) = S (List.length dl)).
  { intros dl. unfold F. simpl. now rewrite length_map. }
  assert (P2 : firstn (2 + List.length (fit_events dl_tr l) + List.length dl_tr) ev
               = (ModeTrain :: fit_events dl_tr l) ++ F dl_tr).
  { unfold ev, pass_events. fold (F dl_tr) (F dl_va) (F dl_te).
    rewrite app_assoc.
    replace (2 + List.length (fit_events dl_tr l) + List.length dl_tr)%nat
      with (List.length ((ModeTrain :: fit_events dl_tr l) ++ F dl_tr))
      by (rewrite length_app, LF; simpl; lia).
    now rewrite firstn_exact. }
  destruct (evaluate w dl_tr) as [tr|e].
  2:{ now rewrite P2. }
  unfold bind at 1. rewrite test_spec, params_install, learner_of_install, install_install.
  fold w.
  assert (P3 : firstn (3 + List.length (fit_events dl_tr l) + List.length dl_tr
                       + List.length dl_va) ev
               = ((ModeTrain :: fit_events dl_tr l) ++ F dl_tr) ++ F dl_va).
  { unfold ev, pass_events. fold (F dl_tr) (F dl_va) (F dl_te).
    rewrite (app_assoc _ (F dl_tr)), (app_assoc _ (F dl_va)).
    replace (3 + List.length (fit_events dl_tr l) + List.length dl_tr
             + List.length dl_va)%nat
      with (List.length (((ModeTrain :: fit_events dl_tr l) ++ F dl_tr) ++ F dl_va))
      by (rewrite !length_app, !LF; simpl; lia).
    now rewrite firstn_exact. }
  destruct (evaluate w dl_va) as [va|e].
  2:{ now rewrite P3. }
  unfold bind at 1. rewrite test_spec, params_install, learner_of_install, install_install.
  fold w.
  assert (P4 : install (fit dl_tr l) false
                 ((((ModeTrain :: fit_events dl_tr l) ++ F dl_tr) ++ F dl_va) ++ F dl_te) m
               = after_passes dl_tr dl_va dl_te m).
  { unfold after_passes, pass_events. fold l (F dl_tr) (F dl_va) (F dl_te).
    now rewrite <- !app_assoc. }
  fold (F dl_tr) (F dl_va) (F dl_te). rewrite P4.
  destruct (evaluate w dl_te) as [te|e]; [|reflexivity].
  unfold bind. rewrite observe_spec.
  change (best (record_epoch i tr va te v)) with (best v).
  change (params (after_passes dl_tr dl_va dl_te m)) with w.
  change (storage (after_passes dl_tr dl_va dl_te m)) with (storage m).
  destruct (mae_of va <? best v)%float; reflexivity.
Qed.

Lemma for_each_rule {A S} (body : A -> S -> prog S) (l : list A) :
  forall (Inv : nat -> S -> machine -> Prop) (Q : machine -> Prop),
  (forall i x acc m, nth_error l i = Some x -> Inv i acc m ->
     match body x acc m with
     | (Ok acc', m') => Inv (Datatypes.S i) acc' m'
     | (Raise _, m') => Q m'
     end) ->
  forall acc m, Inv O acc m ->
     match for_each l body acc m with
     | (Ok acc', m') => Inv (List.length l) acc' m'
     | (Raise _, m') => Q m'
     end.
Proof.
  induction l as [|a l IH]; intros Inv Q Hstep acc m H0.
  - exact H0.
  - cbn [for_each]. unfold bind.
    pose proof (Hstep O a acc m eq_refl H0) as H1.
    destruct (body a acc m) as [[acc'|e] m']; [|exact H1].
    apply (IH (fun i => Inv (Datatypes.S i)) Q); [|exact H1].
    intros i x acc1 m1 Hx. apply (Hstep (Datatypes.S i)). exact Hx.
Qed.

Lemma nth_error_range (n : Z) (i : nat) (x : Z) :
  nth_error (range n) i = Some x -> x = Z.of_nat i /\ (i < Z.to_nat n)%nat.
Proof.
  unfold range. intros H.
  assert (Hi : (i < Z.to_nat n)%nat).
  { assert (H0 : nth_error (map Z.of_nat (seq 0 (Z.to_nat n))) i <> None) by congruence.
    apply nth_error_Some in H0. now rewrite length_map, length_seq in H0. }
  split; [|exact Hi].
  rewrite nth_error_map, nth_error_seq in H.
  destruct (i <? Z.to_nat n)%nat eqn:E.
  - simpl in H. congruence.
  - apply Nat.ltb_ge in E. lia.
Qed.

Lemma length_range (n : Z) : List.length (range n) = Z.to_nat n.
Proof. unfold range. now rewrite length_map, length_seq. Qed.

Lemma score_ok (t p : list float) (e : evaluation) :
  score t p = Ok e ->
  targets_of e = t /\ predicts_of e = p /\ List.length t = List.length p
  /\ t <> [] /\ mae_of e = mae_value t p /\ r2_of e = r2_value t p
  /\ mse_of e = mse_value t p.
Proof.
  unfold score, np_hstack, mean_absolute_error, r2_score, mean_squared_error,
    check_reg_targets.
  destruct t as [|t0 t]; [discriminate|].
  destruct p as [|p0 p]; [discriminate|]. cbn [rbind].
  destruct (negb (List.length (t0 :: t) =? List.length (p0 :: p))%nat) eqn:El;
    [discriminate|].
  destruct (List.length (t0 :: t) =? 0)%nat; [discriminate|].
  destruct (negb (forallb _ _ && _)); [discriminate|]. cbn [rbind].
  intros E. inversion E; subst; clear E. cbn.
  apply negb_false_iff, Nat.eqb_eq in El.
  repeat split; auto. discriminate.
Qed.


Variables (s : setup) (d : disk).

Lemma not_below_trans (a x b : float) :
  (a <? b)%float = false -> (x <? b)%float = true -> (a <? x)%float = false.
Proof.
  intros H1 H2. destruct (a <? x)%float eqn:E; [|reflexivity].
  now rewrite (ltb_trans _ _ _ E H2) in H1.
Qed.

Lemma not_above_trans (a x b : float) :
  (a <? b)%float = false -> (x <? b)%float = true -> (a <=? x)%float = false.
Proof.
  intros H1 H2. destruct (a <=? x)%float eqn:E; [|reflexivity].
  now rewrite (leb_ltb_trans _ _ _ E H2) in H1.
Qed.

Lemma loop_inv_start : loop_inv s d O initial_locals (boot s d).
Proof.
  unfold loop_inv, logged, tracked; simpl. repeat split; auto; intros; lia.
Qed.

Lemma logged_step (i : nat) (v : locals) (tr va te : evaluation) :
  logged s i v -> evaluations s i = Ok (tr, va, te) ->
  logged s (S i) (record_epoch (Z.of_nat i) tr va te v).
Proof.
  intros [Hl Hr] He. split.
  - simpl. rewrite length_app. simpl. lia.
  - intros j Hj. destruct (Nat.eq_dec j i) as [->|Hne].
    + exists tr, va, te. split; [exact He|]. simpl.
      rewrite nth_error_app2 by lia. rewrite Hl, Nat.sub_diag. reflexivity.
    + destruct (Hr j) as (tr' & va' & te' & E1 & E2); [lia|].
      exists tr', va', te'. split; [exact E1|]. simpl.
      rewrite nth_error_app1 by lia. exact E2.
Qed.

Lemma loop_inv_step (i : nat) (v v' : locals) (m m' : machine) :
  loop_inv s d i v m ->
  epoch_body (train_data_loader s) (valid_data_loader s) (test_data_loader s)
    (Z.of_nat i) v m = (Ok v', m') ->
  loop_inv s d (S i) v' m'.
Proof.
  intros (HL & HT & Hlog & Htt & Htr) Hrun.
  rewrite epoch_body_eq in Hrun. cbv zeta in Hrun. rewrite HL in Hrun.
  change (fit (train_data_loader s) (trained s i)) with (trained s (S i)) in Hrun.
  fold (model_at s i) in Hrun.
  destruct (score _ _) as [_e|]; [|discriminate].
  destruct (evaluate (model_at s i) (train_data_loader s)) as [tr|] eqn:E1; [|discriminate].
  destruct (evaluate (model_at s i) (valid_data_loader s)) as [va|] eqn:E2; [|discriminate].
  destruct (evaluate (model_at s i) (test_data_loader s)) as [te|] eqn:E3; [|discriminate].
  assert (Hev : evaluations s i = Ok (tr, va, te)).
  { unfold evaluations. now rewrite E1, E2, E3. }
  assert (Hval : mae_val s i = mae_of va).
  { unfold mae_val. now rewrite E2. }
  pose proof (logged_step i v tr va te Hlog Hev) as Hlog'.
  destruct (score_ok _ _ _ E3) as (Ht3 & Hp3 & _).
  assert (HLa : learner_of (after_passes (train_data_loader s) (valid_data_loader s)
                              (test_data_loader s) m) = trained s (S i)).
  { unfold after_passes. rewrite learner_of_install, HL. reflexivity. }
  destruct (mae_of va <? best v)%float eqn:Eb; inversion Hrun; subst v' m'; clear Hrun.
  - (* a new best *)
    split; [exact HLa|]. split; [exact HT|]. split; [exact Hlog'|].
    split; [intros _; simpl; now rewrite Ht3|].
    unfold tracked in *. cbn [best_epoch new_best].
    exists i. rewrite Hval.
    assert (Hs : (mae_of va <? sentinel)%float = true
                 /\ (forall j, (j < i)%nat -> (mae_val s j <? best v)%float = false)).
    { destruct (best_epoch v) as [k|].
      - destruct Htr as (kn & _ & _ & Hb & Hks & _ & _ & Hall & _).
        rewrite Hb in *. split; [eapply ltb_trans; eauto|exact Hall].
      - destruct Htr as (Hb & _ & _ & _ & Hall).
        rewrite Hb in *. split; [exact Eb|exact Hall]. }
    destruct Hs as [Hs Hall].
    repeat split; auto.
    + cbn. now rewrite Hp3.
    + intros j Hj. destruct (Nat.eq_dec j i) as [->|Hne].
      * rewrite Hval. apply ltb_irrefl.
      * eapply not_below_trans; [apply Hall; lia|exact Eb].
    + intros j Hj. eapply not_above_trans; [apply Hall; lia|exact Eb].
  - (* no improvement *)
    split; [exact HLa|]. split; [exact HT|]. split; [exact Hlog'|].
    split; [intros _; simpl; now rewrite Ht3|].
    unfold tracked in *. cbn [best_epoch record_epoch best best_test].
    destruct (best_epoch v) as [k|].
    + destruct Htr as (kn & Hk & Hlt & Hb & Hks & Hbt & Hck & Hall & Hbefore).
      exists kn. repeat split; auto.
      intros j Hj. destruct (Nat.eq_dec j i) as [->|Hne].
      * rewrite Hval, <- Hb. exact Eb.
      * apply Hall. lia.
    + destruct Htr as (Hb & Hbt & Hck & Hsv & Hall).
      repeat split; auto.
      * unfold after_passes. rewrite log_install, saves_app, saves_pass_events. lia.
      * intros j Hj. destruct (Nat.eq_dec j i) as [->|Hne].
        -- rewrite Hval, <- Hb. exact Eb.
        -- apply Hall. lia.
Qed.

End Passes.

(** The projections of an installed machine, for [autorewrite]. *)
Create Rewrite HintDb machine.
#[export] Hint Rewrite @learner_of_install @params_install @storage_install
  @log_install @install_install : machine.

(** ** Loaders, the split and the reports *)

Section Reports.

Context {B : Backend}.

Lemma batch_sampler_concat {A} (size : nat) (l : list A) :
  forall cur, List.concat (batch_sampler size l cur) = (cur ++ l)%list.
Proof.
  induction l as [|x l IH]; intros cur; cbn [batch_sampler].
  - destruct cur; cbn; now rewrite ?app_nil_r.
  - destruct (List.length (cur ++ [x]) =? size)%nat.
    + cbn [List.concat]. rewrite IH, <- app_assoc. reflexivity.
    + rewrite IH, <- app_assoc. reflexivity.
Qed.

(** A loader yields every example of its dataset once, in order. *)
Lemma DataLoader_covers (ds : list example) (size : Z) (dl : list batch) :
  DataLoader ds size = Ok dl ->
  0 < size /\ targets dl = map snd ds /\ flat_map fst dl = map fst ds.
Proof.
  unfold DataLoader. destruct (size <=? 0) eqn:E; [discriminate|].
  intros H. inversion H; subst dl; clear H. apply Z.leb_gt in E.
  split; [exact E|].
  unfold targets. rewrite !flat_map_concat_map, !map_map. unfold collate. cbn [fst snd].
  rewrite <- !concat_map, batch_sampler_concat. auto.
Qed.

Lemma subset_app {A} (ds : list A) (i1 i2 : list nat) :
  subset ds (i1 ++ i2) = (subset ds i1 ++ subset ds i2)%list.
Proof. unfold subset. apply flat_map_app. Qed.

Lemma subset_seq {A} (l : list A) :
  forall pre, subset (pre ++ l) (seq (List.length pre) (List.length l)) = l.
Proof.
  induction l as [|x l IH]; intros pre; [reflexivity|].
  cbn [List.length seq]. unfold subset. cbn [flat_map].
  rewrite nth_error_app2 by lia. rewrite Nat.sub_diag. cbn [nth_error app].
  f_equal. specialize (IH (pre ++ [x])%list).
  rewrite <- app_assoc, length_app in IH. cbn in IH.
  rewrite Nat.add_1_r in IH. exact IH.
Qed.

Lemma subset_length {A} (ds : list A) (idx : list nat) :
  Forall (fun i => (i < List.length ds)%nat) idx ->
  List.length (subset ds idx) = List.length idx.
Proof.
  induction 1 as [|i idx Hi _ IH]; [reflexivity|].
  unfold subset in *. cbn [flat_map]. rewrite length_app, IH.
  destruct (nth_error ds i) eqn:E; [reflexivity|].
  apply nth_error_None in E. lia.
Qed.

(** A split by a permutation of the indices is a partition of the dataset
    into parts of the two requested lengths. *)
Lemma random_split_partition {A} (ds : list A) (l1 l2 : Z) (parts : list A * list A) :
  Permutation (randperm (List.length ds)) (seq 0 (List.length ds)) ->
  0 <= l1 -> 0 <= l2 ->
  random_split ds l1 l2 = Ok parts ->
  len (fst parts) = l1 /\ len (snd parts) = l2
  /\ Permutation (fst parts ++ snd parts) ds.
Proof.
  intros Hperm H1 H2. unfold random_split.
  destruct (l1 + l2 =? len ds) eqn:E; [|discriminate]. cbn [negb].
  apply Z.eqb_eq in E. unfold len in E.
  replace (Z.to_nat (l1 + l2)) with (List.length ds) by lia.
  set (idx := randperm (List.length ds)) in *.
  intros H. inversion H; subst parts; clear H. cbn [fst snd].
  assert (Hlen : List.length idx = List.length ds).
  { rewrite (Permutation_length Hperm). apply length_seq. }
  assert (Hin : Forall (fun i => (i < List.length ds)%nat) idx).
  { apply Forall_forall. intros i Hi.
    apply (Permutation_in _ Hperm), in_seq in Hi. lia. }
  assert (Hrest : firstn (Z.to_nat l2) (skipn (Z.to_nat l1) idx) = skipn (Z.to_nat l1) idx).
  { apply firstn_all2. rewrite length_skipn. lia. }
  rewrite Hrest. unfold len. repeat split.
  - rewrite subset_length.
    + rewrite length_firstn. lia.
    + rewrite <- (firstn_skipn (Z.to_nat l1) idx) in Hin.
      apply Forall_app in Hin. tauto.
  - rewrite subset_length.
    + rewrite length_skipn. lia.
    + rewrite <- (firstn_skipn (Z.to_nat l1) idx) in Hin.
      apply Forall_app in Hin. tauto.
  - rewrite <- subset_app, firstn_skipn.
    transitivity (subset ds (seq 0 (List.length ds))).
    + unfold subset. apply Permutation_flat_map. exact Hperm.
    + pose proof (subset_seq ds []) as E0. cbn [app List.length] in E0.
      rewrite E0. reflexivity.
Qed.

Lemma mapM_ok {A C} (f : A -> result C) (l : list A) :
  forall l', mapM f l = Ok l' ->
  List.length l' = List.length l
  /\ forall j a, nth_error l j = Some a ->
       exists c, f a = Ok c /\ nth_error l' j = Some c.
Proof.
  induction l as [|x l IH]; intros l' H; cbn [mapM] in H.
  - inversion H; subst. split; [reflexivity|]. intros [|j] a; discriminate.
  - destruct (f x) as [y|] eqn:Ey; [|discriminate]. cbn [rbind] in H.
    destruct (mapM f l) as [ys|] eqn:Eys; [|discriminate]. cbn [rbind] in H.
    inversion H; subst l'; clear H. destruct (IH ys eq_refl) as [Hl Hn].
    split; [cbn; now rewrite Hl|].
    intros [|j] a Ha; cbn [nth_error] in *.
    + inversion Ha; subst. eauto.
    + eauto.
Qed.

(** The prediction table: when the column is as long as the frame, the
    alignment on row labels pairs the values position by position. *)
Lemma set_column_rows (t p : list float) :
  List.length t = List.length p ->
  body (set_column (DataFrame_1d t) p) = map (fun tp => [fst tp; snd tp]) (combine t p).
Proof.
  unfold set_column, DataFrame_1d. cbn [body]. rewrite length_map.
  assert (G : forall (t p pre : list float),
             List.length t = List.length p ->
             map (fun ir : nat * list float =>
                    (snd ir ++ [nth (fst ir) (pre ++ p) nan])%list)
               (combine (seq (List.length pre) (List.length t)) (map (fun x => [x]) t))
             = map (fun tp => [fst tp; snd tp]) (combine t p)).
  { clear t p. induction t as [|x t IH]; intros p pre Hl; [reflexivity|].
    destruct p as [|y p]; [discriminate|]. cbn [List.length seq map combine fst snd app].
    f_equal.
    - rewrite app_nth2 by lia. now rewrite Nat.sub_diag.
    - specialize (IH p (pre ++ [y])%list). rewrite <- app_assoc, length_app in IH.
      cbn in IH. rewrite Nat.add_1_r in IH. apply IH. cbn in Hl. lia. }
  intros Hl. exact (G t p [] Hl).
Qed.

Lemma set_column_length (t p : list float) :
  List.length (body (set_column (DataFrame_1d t) p)) = List.length t.
Proof.
  unfold set_column, DataFrame_1d. cbn [body].
  now rewrite length_map, length_combine, length_seq, !length_map, Nat.min_id.
Qed.

(** The statements after the loop, case by case. *)
Lemma write_reports_eq (path : string) (v : locals) (m : machine) :
  write_reports path v m =
  match targets_test v with
  | None => (Raise (NameError "targets_test"), m)
  | Some t =>
    match best_test v with
    | Zero => (Raise (ValueError "DataFrame constructor not properly called!"), m)
    | Predictions p =>
      match best_epoch v with
      | None => (Raise (NameError "best_epoch"), m)
      | Some k =>
        let predictions_csv :=
          {| csv_header := prediction_header; csv_index := None;
             csv_rows := body (set_column (DataFrame_1d t) p) |} in
        let d1 := {| checkpoint := checkpoint (storage m);
                     tables := (prediction_path path k, predictions_csv)
                               :: tables (storage m) |} in
        match np_array (mae v) with
        | Raise e => (Raise e, set_storage d1 m)
        | Ok table =>
          if negb (List.length epoch_header =? width (DataFrame_2d table))%nat
          then (Raise (ValueError "Writing cols but got aliases"), set_storage d1 m)
          else (Ok tt,
                set_storage
                  {| checkpoint := checkpoint (storage m);
                     tables := (epoch_path path,
                                {| csv_header := epoch_header; csv_index := None;
                                   csv_rows := table |}) :: tables d1 |}
                  (set_storage d1 m))
        end
      end
    end
  end.
Proof.
  unfold write_reports, bind, lift, name_lookup.
  destruct (targets_test v) as [t|]; [|reflexivity].
  destruct (best_test v) as [|p]; [reflexivity|]. cbn [DataFrame_best].
  destruct (best_epoch v) as [k|]; [|reflexivity].
  unfold to_csv. cbn [width set_column DataFrame_1d prediction_header List.length
                       Nat.eqb negb].
  destruct (np_array (mae v)) as [table|e]; [|reflexivity].
  cbn [body DataFrame_2d].
  destruct (negb _); reflexivity.
Qed.

End Reports.

(** ** Whole runs of [main] *)

Section Runs.

Context {B : Backend}.

(** What a successful [prepare] went through. *)
Lemma prepare_ok (fd : option Z) (a : args) (s : setup) :
  prepare fd a = Ok s ->
  torch_device (device a) = true
  /\ exists ds_train ds_test train_length parts,
       get_dataset (dataset_name a) (dataset_path_train a) = Ok ds_train
       /\ get_dataset (dataset_name a) (dataset_path_test a) = Ok ds_test
       /\ train_length_of (len (examples ds_train)) = Ok train_length
       /\ random_split (examples ds_train) train_length
            (len (examples ds_train) - train_length) = Ok parts
       /\ DataLoader (fst parts) (batch_size a) = Ok (train_data_loader s)
       /\ DataLoader (snd parts) (batch_size a) = Ok (valid_data_loader s)
       /\ DataLoader (examples ds_test) (batch_size a) = Ok (test_data_loader s)
       /\ get_model fd (model_name a) ds_train = Ok (model s)
       /\ optimizer s = Adam (model s) (learning_rate a) (weight_decay a).
Proof.
  unfold prepare. destruct (torch_device (device a)); [|discriminate]. cbn [negb].
  destruct (get_dataset (dataset_name a) (dataset_path_train a)) as [ds1|] eqn:E1;
    [|discriminate].
  destruct (get_dataset (dataset_name a) (dataset_path_test a)) as [ds2|] eqn:E2;
    [|discriminate].
  cbn [rbind].
  destruct (train_length_of (len (examples ds1))) as [tl|] eqn:E3; [|discriminate].
  cbn [rbind].
  destruct (random_split (examples ds1) tl (len (examples ds1) - tl)) as [parts|] eqn:E4;
    [|discriminate]. cbn [rbind].
  destruct (DataLoader (fst parts) (batch_size a)) as [dl1|] eqn:E5; [|discriminate].
  destruct (DataLoader (snd parts) (batch_size a)) as [dl2|] eqn:E6; [|discriminate].
  destruct (DataLoader (examples ds2) (batch_size a)) as [dl3|] eqn:E7; [|discriminate].
  cbn [rbind].
  destruct (get_model fd (model_name a) ds1) as [w|] eqn:E8; [|discriminate].
  cbn [rbind].
  intros H. inversion H; subst s; clear H. cbn.
  split; [reflexivity|]. exists ds1, ds2, tl, parts. repeat split; assumption.
Qed.

(** Once [prepare] has returned, [main] is the loop and the reports on the
    machine it booted: the loaders are those of the setup in every epoch. *)
Lemma main_run (fd : option Z) (a : args) (d : disk) (s : setup) :
  prepare fd a = Ok s ->
  main fd a d =
  {| returned := fst (run s a (boot s d));
     disk_after := storage (snd (run s a (boot s d)));
     events := log (snd (run s a (boot s d))) |}.
Proof. intros H. unfold main. now rewrite H. Qed.

Lemma main_raise (fd : option Z) (a : args) (d : disk) (e : exn) :
  prepare fd a = Raise e ->
  main fd a d = {| returned := Raise e; disk_after := d; events := [] |}.
Proof. intros H. unfold main. now rewrite H. Qed.

Variables (s : setup) (d : disk).

(** A loop that completes leaves the invariant of all its epochs. *)
Lemma epoch_loop_ok (n : Z) (v : locals) (m : machine) :
  loop_of s n (boot s d) = (Ok v, m) -> loop_inv s d (Z.to_nat n) v m.
Proof.
  intros H. unfold loop_of, epoch_loop in H.
  pose proof (for_each_rule
    (epoch_body (train_data_loader s) (valid_data_loader s) (test_data_loader s))
    (range n) (loop_inv s d) (fun _ => True)) as R.
  rewrite length_range in R.
  specialize (R ltac:(
    intros i x acc m0 Hx Hinv; apply nth_error_range in Hx; destruct Hx as [-> _];
    destruct (epoch_body _ _ _ (Z.of_nat i) acc m0) as [[acc'|e] m'] eqn:E;
    [eapply loop_inv_step; eauto|exact I]) initial_locals (boot s d) (loop_inv_start s d)).
  rewrite H in R. exact R.
Qed.

Lemma saves_firstn (k : nat) (es : list event) :
  saves es = O -> saves (firstn k es) = O.
Proof.
  revert k. induction es as [|e es IH]; intros k H; destruct k; try reflexivity.
  cbn [firstn]. rewrite saves_cons in *. destruct (is_save e); [discriminate|].
  cbn in *. auto.
Qed.

(** When no validation MAE of the run is below the sentinel, the loop never
    saves, whether it completes or raises. *)
Lemma epoch_loop_sentinel (n : Z) :
  (forall j va, (j < Z.to_nat n)%nat ->
     evaluate (model_at s j) (valid_data_loader s) = Ok va ->
     (sentinel <=? mae_of va)%float = true) ->
  match loop_of s n (boot s d) with
  | (Ok v, m) => storage m = d /\ saves (log m) = O
                 /\ best_epoch v = None /\ best_test v = Zero
  | (Raise _, m) => storage m = d /\ saves (log m) = O
  end.
Proof.
  intros Hval. unfold loop_of, epoch_loop.
  set (Inv := fun (i : nat) (v : locals) (m : machine) =>
    learner_of m = trained s i /\ storage m = d /\ saves (log m) = O
    /\ best v = sentinel /\ best_epoch v = None /\ best_test v = Zero).
  pose proof (for_each_rule
    (epoch_body (train_data_loader s) (valid_data_loader s) (test_data_loader s))
    (range n) Inv (fun m => storage m = d /\ saves (log m) = O)) as R.
  assert (Hstep : forall i x acc m, nth_error (range n) i = Some x -> Inv i acc m ->
     match epoch_body (train_data_loader s) (valid_data_loader s) (test_data_loader s)
             x acc m with
     | (Ok acc', m') => Inv (S i) acc' m'
     | (Raise _, m') => storage m' = d /\ saves (log m') = O
     end).
  { intros i x acc m Hx (HL & Hst & Hsv & Hb & Hbe & Hbt).
    apply nth_error_range in Hx. destruct Hx as [-> Hi].
    rewrite epoch_body_eq. cbv zeta. rewrite HL.
    change (fit (train_data_loader s) (trained s i)) with (trained s (S i)).
    fold (model_at s i).
    pose proof (saves_pass_events (train_data_loader s) (valid_data_loader s)
                  (test_data_loader s) (trained s i)) as Hp.
    assert (Hf : forall k t, storage (install (trained s (S i)) t
                     (firstn k (pass_events (train_data_loader s) (valid_data_loader s)
                        (test_data_loader s) (trained s i))) m) = d
                 /\ saves (log (install (trained s (S i)) t
                     (firstn k (pass_events (train_data_loader s) (valid_data_loader s)
                        (test_data_loader s) (trained s i))) m)) = O).
    { intros k t. autorewrite with machine. rewrite saves_app, Hsv.
      rewrite saves_firstn by exact Hp. auto. }
    assert (Ha : storage (after_passes (train_data_loader s) (valid_data_loader s)
                            (test_data_loader s) m) = d
                 /\ saves (log (after_passes (train_data_loader s) (valid_data_loader s)
                            (test_data_loader s) m)) = O).
    { unfold after_passes. autorewrite with machine. rewrite saves_app, Hsv, HL, Hp.
      auto. }
    destruct (score _ _); [|apply Hf].
    destruct (evaluate (model_at s i) (train_data_loader s)) as [tr|]; [|apply Hf].
    destruct (evaluate (model_at s i) (valid_data_loader s)) as [va|] eqn:E2; [|apply Hf].
    destruct (evaluate (model_at s i) (test_data_loader s)) as [te|]; [|exact Ha].
    rewrite Hb. rewrite (leb_not_ltb _ _ (Hval i va Hi E2)).
    unfold Inv. destruct Ha as [Ha1 Ha2]. repeat split; auto.
    unfold after_passes. autorewrite with machine. now rewrite HL. }
  specialize (R Hstep initial_locals (boot s d)).
  assert (H0 : Inv O initial_locals (boot s d)) by (unfold Inv; repeat split).
  specialize (R H0). unfold Inv in R.
  destruct (for_each _ _ _ _) as [[v|e] m]; tauto.
Qed.

End Runs.

(** ** The claims about single passes and the tracker *)

Section PassClaims.

Context {B : Backend}.

(** C7: in training mode the pass handles the batches in stream order, and
    for each batch it calls, in this order, the model, the loss, the
    clearing of the gradients, the backward pass and one optimiser step;
    the parameters change exactly once per batch, by that step, which uses
    the gradient of this batch alone. *)
Theorem train_steps_in_order (dl : list batch) (m : machine) :
  let l := learner_of m in
  log (snd (train dl m)) = (log m ++ ModeTrain :: fit_events dl l)%list
  /\ learner_of (snd (train dl m)) = fit dl l
  /\ storage (snd (train dl m)) = storage m
  /\ List.length (filter is_step (fit_events dl l)) = List.length dl
  /\ (forall b rest l0,
        fit_events (b :: rest) l0 =
        ([Forward (fst b); Loss (forward true (weights_of l0) (fst b)) (snd b);
          ZeroGrad; Backward; Step] ++ fit_events rest (learn l0 b))%list
        /\ fit (b :: rest) l0 = fit rest (learn l0 b)
        /\ weights_of (learn l0 b) =
           snd (optimizer_step (snd l0) (weights_of l0)
                  (backward (weights_of l0) (fst b) (snd b) (zero_grad (snd (fst l0)))))).
Proof.
  intros l. rewrite train_spec. cbn [snd].
  autorewrite with machine. fold l.
  repeat split; try reflexivity.
  generalize l. induction dl as [|b dl IH]; intros l0; [reflexivity|].
  cbn [fit_events app filter is_step List.length]. now rewrite IH.
Qed.

(** C8: the evaluation pass leaves the parameters, the gradients, the
    optimiser and the disk as they were, and running it again, directly or
    after an evaluation of another split, returns the same targets and
    predictions: its result is a function of the parameters and the loader. *)
Theorem test_is_idempotent (dl : list batch) (m : machine) :
  fst (test dl (snd (test dl m))) = fst (test dl m)
  /\ snd (test dl (snd (test dl m)))
     = install (learner_of m) false
         (ModeEval :: map (fun b => Forward (fst b)) dl) (snd (test dl m))
  /\ learner_of (snd (test dl m)) = learner_of m
  /\ storage (snd (test dl m)) = storage m
  /\ fst (test dl m) = evaluate (params m) dl
  /\ (forall other, fst (test dl (snd (test other m))) = fst (test dl m)).
Proof.
  assert (Hany : forall other, fst (test dl (snd (test other m))) = evaluate (params m) dl).
  { intros other. rewrite (test_spec other m). cbn [snd]. rewrite test_spec. cbn [fst].
    rewrite params_install. destruct m; reflexivity. }
  split; [rewrite Hany, test_spec; reflexivity|].
  split; [rewrite (test_spec dl (snd (test dl m))), test_spec; cbn [snd];
          now rewrite learner_of_install|].
  rewrite test_spec. cbn [fst snd]. autorewrite with machine.
  repeat split; try reflexivity. exact Hany.
Qed.

(** C1: the [if mae_val<best:] block updates the tracker exactly when the
    validation MAE of the epoch is strictly below [best]: it then sets
    [best], writes the current model over the checkpoint and records
    [best_epoch], [best_test], [best_mae] and [best_train_mae]; otherwise
    it changes neither the variables nor the machine.  Fed the validation
    MAEs 5, 3, 4, 2 from epoch 0 on, it answers true, true, false, true and
    ends with [best_epoch = 3].  In a run, [best] is thereby the lowest
    validation MAE seen so far, capped by the 1000 it starts from: no epoch
    of a completed loop is below it, and it is 1000 or the validation MAE
    of one of the epochs. *)
Theorem best_model_tracking :
  (forall (i : Z) (tr va te : evaluation) (v : locals) (m : machine),
     observe i tr va te v m =
     if (mae_of va <? best v)%float
     then (Ok (true,
               {| mae := mae v; best := mae_of va;
                  best_test := Predictions (predicts_of te);
                  best_mae := mae_of te; best_train_mae := Some (mae_of tr);
                  best_epoch := Some i; targets_test := targets_test v |}),
           {| params := params m; grads := grads m; opt_state := opt_state m;
              training := training m;
              storage := {| checkpoint := Some (params m);
                            tables := tables (storage m) |};
              log := (log m ++ [Save])%list |})
     else (Ok (false, v), m))
  /\ (forall (e0 e1 e2 e3 e4 e5 e6 e7 e8 e9 e10 e11 : evaluation) (m : machine),
        let run := observe_all 0
                     [(e0, with_mae 5 e1, e2); (e3, with_mae 3 e4, e5);
                      (e6, with_mae 4 e7, e8); (e9, with_mae 2 e10, e11)]
                     initial_locals m in
        exists v, fst run = Ok ([true; true; false; true], v)
                  /\ best_epoch v = Some 3 /\ best v = 2%float
                  /\ checkpoint (storage (snd run)) = Some (params m))
  /\ (forall (s : setup) (d : disk) (n : Z) (v : locals) (m : machine),
        loop_of s n (boot s d) = (Ok v, m) ->
        (forall j, (j < Z.to_nat n)%nat -> (mae_val s j <? best v)%float = false)
        /\ (best v = sentinel
            \/ exists k, (k < Z.to_nat n)%nat /\ best v = mae_val s k)).
Proof.
  split; [|split].
  - intros. rewrite observe_spec. reflexivity.
  - intros. eexists. cbv. repeat split.
  - intros s d n v m Hl. apply epoch_loop_ok in Hl.
    destruct Hl as (_ & _ & _ & _ & Ht). unfold tracked in Ht.
    destruct (best_epoch v) as [k|].
    + destruct Ht as (kn & _ & Hk & Hb & _ & _ & _ & Hall & _).
      rewrite Hb. split; [exact Hall|]. right. exists kn. auto.
    + destruct Ht as (Hb & _ & _ & _ & Hall).
      rewrite Hb. split; [exact Hall|]. now left.
Qed.

End PassClaims.

(** ** The claims about failing runs *)

Section FailureClaims.

Context {B : Backend}.

Lemma get_dataset_unknown (name path : string) :
  known dataset_names name = false ->
  get_dataset name path = Raise (ValueError ("unknown dataset name: " ++ name)%string).
Proof.
  unfold known, dataset_names. cbn [existsb]. intros H.
  repeat (apply orb_false_iff in H; destruct H as [? H]).
  unfold get_dataset.
  repeat match goal with E : (name =? _)%string = false |- _ => rewrite E; clear E end.
  reflexivity.
Qed.

Lemma get_model_unknown (fd : option Z) (name : string) (ds : dataset) :
  known model_names name = false ->
  get_model fd name ds = Raise (ValueError ("unknown model name: " ++ name)%string).
Proof.
  unfold known, model_names. cbn [existsb]. intros H.
  repeat (apply orb_false_iff in H; destruct H as [? H]).
  unfold get_model.
  repeat match goal with E : (name =? _)%string = false |- _ => rewrite E; clear E end.
  reflexivity.
Qed.

(** C9: with a dataset name or a model name that has no branch in the
    lookup, [main] raises before the loop starts: the disk is as it was and
    no collaborator of the training was called.  The lookups raise the
    [ValueError] that names the unknown name, and that is the error of the
    run when the statements before the lookup succeed: a valid device for
    the dataset name; a valid device, readable datasets, a training length
    and a positive batch size for the model name. *)
Theorem unknown_name_fails_fast (fd : option Z) (a : args) (d : disk) :
  known dataset_names (dataset_name a) = false
  \/ known model_names (model_name a) = false ->
  (exists e, main fd a d = {| returned := Raise e; disk_after := d; events := [] |})
  /\ (known dataset_names (dataset_name a) = false ->
      (forall path, get_dataset (dataset_name a) path
                    = Raise (ValueError ("unknown dataset name: " ++ dataset_name a)%string))
      /\ (torch_device (device a) = true ->
          returned (main fd a d)
          = Raise (ValueError ("unknown dataset name: " ++ dataset_name a)%string)))
  /\ (known model_names (model_name a) = false ->
      (forall ds, get_model fd (model_name a) ds
                  = Raise (ValueError ("unknown model name: " ++ model_name a)%string))
      /\ (forall ds_train ds_test train_length,
            torch_device (device a) = true ->
            get_dataset (dataset_name a) (dataset_path_train a) = Ok ds_train ->
            get_dataset (dataset_name a) (dataset_path_test a) = Ok ds_test ->
            train_length_of (len (examples ds_train)) = Ok train_length ->
            0 < batch_size a ->
            returned (main fd a d)
            = Raise (ValueError ("unknown model name: " ++ model_name a)%string))).
Proof.
  intros H. split; [|split].
  - destruct (prepare fd a) as [s|e] eqn:E.
    + exfalso. apply prepare_ok in E.
      destruct E as (_ & ds1 & ds2 & tl & parts & E1 & _ & _ & _ & _ & _ & _ & E8 & _).
      destruct H as [H|H].
      * rewrite get_dataset_unknown in E1 by exact H. discriminate.
      * rewrite get_model_unknown in E8 by exact H. discriminate.
    + exists e. now apply main_raise.
  - intros Hd. split; [intros path; now apply get_dataset_unknown|].
    intros Hdev. unfold main, prepare. rewrite Hdev. cbn [negb].
    rewrite get_dataset_unknown by exact Hd. reflexivity.
  - intros Hm. split; [intros ds; now apply get_model_unknown|].
    intros ds1 ds2 tl Hdev E1 E2 E3 Hbs. unfold main, prepare.
    rewrite Hdev, E1, E2. cbn [negb rbind]. rewrite E3. cbn [rbind].
    unfold random_split.
    replace (tl + (len (examples ds1) - tl) =? len (examples ds1)) with true
      by (symmetry; apply Z.eqb_eq; lia).
    cbn [negb rbind fst snd]. unfold DataLoader.
    replace (batch_size a <=? 0) with false by (symmetry; apply Z.leb_gt; lia).
    cbn [rbind]. rewrite get_model_unknown by exact Hm. reflexivity.
Qed.

Lemma evaluate_empty (w : weights) :
  evaluate w [] = Raise (ValueError "need at least one array to concatenate").
Proof. reflexivity. Qed.

(** Closes a goal asking for the error and the machine of a raising run. *)
Ltac raised := eexists; eexists; split; reflexivity.

Lemma range_pos (n : Z) : 0 < n -> exists rest, range n = 0 :: rest.
Proof.
  intros H. unfold range. destruct (Z.to_nat n) as [|k] eqn:E; [lia|].
  cbn [seq map]. eauto.
Qed.

Lemma range_nonpos (n : Z) : n <= 0 -> range n = [].
Proof.
  intros H. unfold range. destruct (Z.to_nat n) as [|k] eqn:E; [reflexivity|lia].
Qed.

(** C5: on an empty input the metrics raise, and so does the evaluation
    pass over a loader that yields no batch; a run whose test split has no
    example raises and writes no report. *)
Theorem empty_test_split_raises (fd : option Z) (a : args) (d : disk) (s : setup)
  (ds_test : dataset) :
  prepare fd a = Ok s ->
  get_dataset (dataset_name a) (dataset_path_test a) = Ok ds_test ->
  examples ds_test = [] ->
  test_data_loader s = []
  /\ (forall m, fst (test (test_data_loader s) m)
                = Raise (ValueError "need at least one array to concatenate"))
  /\ score [] [] = Raise (ValueError "need at least one array to concatenate")
  /\ mean_absolute_error [] []
     = Raise (ValueError "Found array with 0 sample(s) while a minimum of 1 is required")
  /\ r2_score [] []
     = Raise (ValueError "Found array with 0 sample(s) while a minimum of 1 is required")
  /\ mean_squared_error [] []
     = Raise (ValueError "Found array with 0 sample(s) while a minimum of 1 is required")
  /\ (exists e, returned (main fd a d) = Raise e)
  /\ tables (disk_after (main fd a d)) = tables d.
Proof.
  intros Hp Hds Hex.
  assert (Hdl : test_data_loader s = []).
  { destruct (prepare_ok _ _ _ Hp) as (_ & ds1 & ds2 & tl & parts & _ & E2 & _ & _ & _ & _
                                         & E7 & _).
    rewrite Hds in E2. inversion E2; subst ds2. rewrite Hex in E7.
    unfold DataLoader in E7. destruct (batch_size a <=? 0); [discriminate|].
    cbn in E7. now inversion E7. }
  split; [exact Hdl|].
  split; [intros m; rewrite Hdl, test_spec; reflexivity|].
  do 4 (split; [reflexivity|]).
  rewrite (main_run _ _ _ _ Hp). cbn [returned disk_after].
  assert (Hrun : exists e m', run s a (boot s d) = (Raise e, m')
                              /\ tables (storage m') = tables d).
  { unfold run, epoch_loop.
    destruct (Z_le_gt_dec (epoch a) 0) as [Hn|Hn].
    - rewrite range_nonpos by exact Hn. cbn [for_each]. unfold bind, ret.
      rewrite write_reports_eq. cbn [targets_test initial_locals].
      raised.
    - destruct (range_pos (epoch a)) as [rest Hr]; [lia|].
      rewrite Hr. cbn [for_each]. unfold bind.
      rewrite epoch_body_eq. cbv zeta. rewrite Hdl, evaluate_empty.
      destruct (score _ _); [|raised].
      destruct (evaluate _ (train_data_loader s)); [|raised].
      destruct (evaluate _ (valid_data_loader s)); raised. }
  destruct Hrun as (e & m' & Er & Et). rewrite Er. cbn [fst snd]. eauto.
Qed.

(** C10: when every validation MAE of the run is at least the sentinel
    1000, no epoch becomes the best one: the checkpoint is never written,
    the run raises after the loop, when it reads the best predictions that
    were never assigned, and the disk is left as it was, so that no report
    exists. *)
Theorem no_best_at_sentinel (fd : option Z) (a : args) (d : disk) (s : setup) :
  prepare fd a = Ok s ->
  (forall j va, (j < Z.to_nat (epoch a))%nat ->
     evaluate (model_at s j) (valid_data_loader s) = Ok va ->
     (sentinel <=? mae_of va)%float = true) ->
  (exists e, returned (main fd a d) = Raise e)
  /\ disk_after (main fd a d) = d
  /\ saves (events (main fd a d)) = O
  /\ (forall v m, loop_of s (epoch a) (boot s d) = (Ok v, m) ->
        best_epoch v = None /\ best_test v = Zero
        /\ (0 < epoch a ->
            returned (main fd a d)
            = Raise (ValueError "DataFrame constructor not properly called!"))).
Proof.
  intros Hp Hval. rewrite (main_run _ _ _ _ Hp). cbn [returned disk_after events].
  pose proof (epoch_loop_sentinel s d (epoch a) Hval) as Hl.
  unfold run, bind. fold (loop_of s (epoch a)).
  destruct (loop_of s (epoch a) (boot s d)) as [[v|e] m] eqn:El.
  - destruct Hl as (Hst & Hsv & Hbe & Hbt).
    rewrite write_reports_eq, Hbt.
    split; [destruct (targets_test v); cbn; eauto|].
    split; [destruct (targets_test v); cbn; auto|].
    split; [destruct (targets_test v); cbn; auto|].
    intros v' m' E. inversion E; subst v' m'. repeat split; auto.
    intros Hn. apply epoch_loop_ok in El.
    destruct El as (_ & _ & _ & Ht & _). rewrite Ht by lia. reflexivity.
  - destruct Hl as (Hst & Hsv). cbn [fst snd].
    split; [eauto|]. split; [exact Hst|]. split; [exact Hsv|].
    intros v' m' E; discriminate.
Qed.

End FailureClaims.

(** ** The claims about completed runs *)

Section SuccessClaims.

Context {B : Backend}.

(** An int below [2^53] survives the conversion to a double and back. *)
Lemma float_of_int_roundtrip (z : Z) (x : float) :
  0 <= z < 2 ^ 53 -> float_of_int z = Ok x -> int_of_float x = Ok z.
Proof.
  intros [H0 H1] E. destruct z as [|p|p]; [|clear H0|lia].
  - inversion E; subst x. reflexivity.
  - destruct (float_of_int_pos p H1) as (nf & mz & Ef & Emz & _ & Enf).
    rewrite Ef in E. inversion E; subst x. unfold int_of_float. rewrite Enf.
    cbn [cond_Zopp]. f_equal.
    assert (Zpos (digits2_pos p) <= 53) by (apply digits2_pos_le; lia).
    rewrite Z.shiftl_div_pow2 by lia. rewrite Emz.
    replace (- (Zpos (digits2_pos p) - 53)) with (53 - Zpos (digits2_pos p)) by lia.
    apply Z.div_mul. apply Z.pow_nonzero; lia.
Qed.

(** What a returning [main] wrote. *)
Lemma main_ok (fd : option Z) (a : args) (d : disk) (s : setup) :
  prepare fd a = Ok s ->
  returned (main fd a d) = Ok tt ->
  exists v m t p k table,
    loop_of s (epoch a) (boot s d) = (Ok v, m)
    /\ targets_test v = Some t /\ best_test v = Predictions p /\ best_epoch v = Some k
    /\ np_array (mae v) = Ok table
    /\ width (DataFrame_2d table) = 10%nat
    /\ disk_after (main fd a d) =
       {| checkpoint := checkpoint (storage m);
          tables := (epoch_path (dataset_path_train a),
                     {| csv_header := epoch_header; csv_index := None;
                        csv_rows := table |})
                    :: (prediction_path (dataset_path_train a) k,
                        {| csv_header := prediction_header; csv_index := None;
                           csv_rows := body (set_column (DataFrame_1d t) p) |})
                    :: tables (storage m) |}.
Proof.
  intros Hp. rewrite (main_run _ _ _ _ Hp). cbn [returned disk_after].
  unfold run, bind. fold (loop_of s (epoch a)).
  destruct (loop_of s (epoch a) (boot s d)) as [[v|e] m] eqn:El; [|discriminate].
  rewrite write_reports_eq.
  destruct (targets_test v) as [t|] eqn:Et; [|discriminate].
  destruct (best_test v) as [|p] eqn:Ep; [discriminate|].
  destruct (best_epoch v) as [k|] eqn:Ek; [|discriminate]. cbv zeta.
  destruct (np_array (mae v)) as [table|] eqn:En; [|discriminate].
  destruct (negb (List.length epoch_header =? width (DataFrame_2d table))%nat) eqn:Ew;
    [discriminate|].
  intros _. exists v, m, t, p, k, table.
  apply negb_false_iff, Nat.eqb_eq in Ew.
  do 5 (split; [assumption || reflexivity|]). split; [symmetry; exact Ew|reflexivity].
Qed.

(** C2, amended: when the loop completes and some epoch has a validation
    MAE below the sentinel 1000 that initialises [best], the checkpoint
    holds exactly the model of the best epoch, and the best epoch is the
    first one with the least validation MAE: no epoch is strictly below it
    and no earlier epoch is as low. *)
Theorem checkpoint_is_first_minimum (s : setup) (d : disk) (n : Z) (v : locals)
  (m : machine) :
  loop_of s n (boot s d) = (Ok v, m) ->
  (exists j, (j < Z.to_nat n)%nat /\ (mae_val s j <? sentinel)%float = true) ->
  best initial_locals = 1000%float
  /\ exists k, (k < Z.to_nat n)%nat
       /\ best_epoch v = Some (Z.of_nat k)
       /\ checkpoint (storage m) = Some (model_at s k)
       /\ best v = mae_val s k
       /\ (mae_val s k <? sentinel)%float = true
       /\ (forall j, (j < Z.to_nat n)%nat -> (mae_val s j <? mae_val s k)%float = false)
       /\ (forall j, (j < k)%nat -> (mae_val s j <=? mae_val s k)%float = false).
Proof.
  intros Hl (j & Hj & Hlow). split; [reflexivity|].
  apply epoch_loop_ok in Hl. destruct Hl as (_ & _ & _ & _ & Ht).
  unfold tracked in Ht. destruct (best_epoch v) as [k|].
  - destruct Ht as (kn & -> & Hk & Hb & Hs & _ & Hc & Hall & Hbefore).
    exists kn. repeat split; auto.
  - destruct Ht as (_ & _ & _ & _ & Hall). rewrite (Hall j Hj) in Hlow. discriminate.
Qed.

(** C3: a run that returns has written the epoch table with the ten named
    columns and no index column, one row per epoch of the budget, in epoch
    order; row [j] starts with the epoch index [j] and then holds the MAE,
    R2 and the square root of the MSE of the train, validation and test
    evaluations of epoch [j]. *)
Theorem epoch_report_rows (fd : option Z) (a : args) (d : disk) (s : setup) :
  prepare fd a = Ok s ->
  returned (main fd a d) = Ok tt ->
  exists file : csv,
    hd_error (tables (disk_after (main fd a d)))
    = Some (epoch_path (dataset_path_train a), file)
    /\ csv_header file = ["epoch"; "mae_train"; "mae_val"; "mae_test"; "r2_train";
                          "r2_val"; "r2_test"; "rmse_train"; "rmse_val";
                          "rmse_test"]%string
    /\ csv_index file = None
    /\ 0 < epoch a
    /\ List.length (csv_rows file) = Z.to_nat (epoch a)
    /\ forall j, (j < Z.to_nat (epoch a))%nat ->
         exists x tr va te,
           evaluations s j = Ok (tr, va, te)
           /\ float_of_int (Z.of_nat j) = Ok x
           /\ (Z.of_nat j < 2 ^ 53 -> int_of_float x = Ok (Z.of_nat j))
           /\ nth_error (csv_rows file) j
              = Some [x; mae_of tr; mae_of va; mae_of te;
                      r2_of tr; r2_of va; r2_of te;
                      PrimFloat.sqrt (mse_of tr); PrimFloat.sqrt (mse_of va);
                      PrimFloat.sqrt (mse_of te)]
           /\ mse_of tr = mse_value (targets (train_data_loader s))
                            (predictions (model_at s j) (train_data_loader s))
           /\ mse_of va = mse_value (targets (valid_data_loader s))
                            (predictions (model_at s j) (valid_data_loader s))
           /\ mse_of te = mse_value (targets (test_data_loader s))
                            (predictions (model_at s j) (test_data_loader s)).
Proof.
  intros Hp Hr.
  destruct (main_ok _ _ _ _ Hp Hr) as (v & m & t & p & k & table & Hl & _ & _ & _
                                        & Hnp & Hw & Hd).
  apply epoch_loop_ok in Hl. destruct Hl as (_ & _ & (Hlen & Hrows) & _ & _).
  destruct (mapM_ok _ _ _ Hnp) as [Htl Htn].
  exists {| csv_header := epoch_header; csv_index := None; csv_rows := table |}.
  rewrite Hd. cbn [tables hd_error csv_header csv_index csv_rows].
  split; [reflexivity|]. split; [reflexivity|]. split; [reflexivity|].
  assert (Hpos : 0 < epoch a).
  { destruct table as [|r0 table]; [discriminate|].
    cbn [List.length] in Htl. lia. }
  split; [exact Hpos|]. split; [lia|].
  intros j Hj. destruct (Hrows j Hj) as (tr & va & te & He & Hn).
  destruct (Htn j _ Hn) as (c & Hc & Hnc).
  cbn [mapM epoch_row num_to_float rbind] in Hc.
  destruct (float_of_int (Z.of_nat j)) as [x|] eqn:Ex; [|discriminate].
  cbn [rbind] in Hc. inversion Hc; subst c; clear Hc.
  exists x, tr, va, te. split; [exact He|]. split; [reflexivity|].
  split; [intros Hb; apply float_of_int_roundtrip; [lia|exact Ex]|].
  split; [exact Hnc|].
  unfold evaluations in He.
  destruct (evaluate (model_at s j) (train_data_loader s)) as [tr'|] eqn:E1;
    [|discriminate].
  destruct (evaluate (model_at s j) (valid_data_loader s)) as [va'|] eqn:E2;
    [|discriminate].
  destruct (evaluate (model_at s j) (test_data_loader s)) as [te'|] eqn:E3;
    [|discriminate].
  cbn [rbind] in He. inversion He; subst tr' va' te'.
  apply score_ok in E1, E2, E3. intuition.
Qed.

(** C4: a run that returns has written the prediction table with the two
    named columns and no index column; it has one row per example of the
    test dataset, the same number in every epoch, and pairs each target
    with the prediction the model of the best epoch made for it. *)
Theorem prediction_report_rows (fd : option Z) (a : args) (d : disk) (s : setup)
  (ds_test : dataset) :
  prepare fd a = Ok s ->
  get_dataset (dataset_name a) (dataset_path_test a) = Ok ds_test ->
  returned (main fd a d) = Ok tt ->
  exists (k : nat) (file : csv),
    nth_error (tables (disk_after (main fd a d))) 1
    = Some (prediction_path (dataset_path_train a) (Z.of_nat k), file)
    /\ csv_header file = ["ground_truth"; "prediction"]%string
    /\ csv_index file = None
    /\ List.length (csv_rows file) = List.length (examples ds_test)
    /\ csv_rows file
       = map (fun tp => [fst tp; snd tp])
           (combine (map snd (examples ds_test))
                    (predictions (model_at s k) (test_data_loader s)))
    /\ (k < Z.to_nat (epoch a))%nat
    /\ (forall j, (j < Z.to_nat (epoch a))%nat ->
          (mae_val s j <? mae_val s k)%float = false)
    /\ (forall j, (j < k)%nat -> (mae_val s j <=? mae_val s k)%float = false)
    /\ (forall j, (j < Z.to_nat (epoch a))%nat ->
          List.length (predictions (model_at s j) (test_data_loader s))
          = List.length (examples ds_test)).
Proof.
  intros Hp Hds Hr.
  destruct (main_ok _ _ _ _ Hp Hr) as (v & m & t & p & k & table & Hl & Ht & Hbt & Hbe
                                        & Hnp & Hw & Hd).
  apply epoch_loop_ok in Hl. destruct Hl as (_ & _ & (Hlen & Hrows) & Htt & Htr).
  destruct (prepare_ok _ _ _ Hp) as (_ & ds1 & ds2 & tl & parts & _ & E2 & _ & _ & _ & _
                                       & E7 & _).
  rewrite Hds in E2. inversion E2; subst ds2; clear E2.
  destruct (DataLoader_covers _ _ _ E7) as (_ & Htargets & _).
  assert (Hcount : forall j, (j < Z.to_nat (epoch a))%nat ->
            List.length (predictions (model_at s j) (test_data_loader s))
            = List.length (examples ds_test)).
  { intros j Hj. destruct (Hrows j Hj) as (tr & va & te & He & _).
    unfold evaluations in He.
    destruct (evaluate (model_at s j) (train_data_loader s)); [|discriminate].
    destruct (evaluate (model_at s j) (valid_data_loader s)); [|discriminate].
    destruct (evaluate (model_at s j) (test_data_loader s)) as [te'|] eqn:E3;
      [|discriminate].
    apply score_ok in E3. destruct E3 as (_ & _ & Hlen3 & _).
    rewrite <- Hlen3, Htargets. apply length_map. }
  unfold tracked in Htr. rewrite Hbe in Htr.
  destruct Htr as (kn & -> & Hk & _ & _ & Hp' & _ & Hall & Hbefore).
  rewrite Hbt in Hp'. inversion Hp'; subst p; clear Hp'.
  assert (Hn : (0 < Z.to_nat (epoch a))%nat) by lia.
  rewrite (Htt Hn) in Ht. inversion Ht; subst t; clear Ht.
  exists kn. eexists. rewrite Hd. cbn [tables nth_error].
  split; [reflexivity|]. cbn [csv_header csv_index csv_rows].
  split; [reflexivity|]. split; [reflexivity|].
  split; [rewrite set_column_length, Htargets; apply length_map|].
  split.
  { rewrite set_column_rows.
    - now rewrite Htargets.
    - rewrite (Hcount kn Hk), Htargets. apply length_map. }
  auto.
Qed.

(** C6, amended: for a training dataset of fewer than 1250999896491811
    examples (the least size at which the double product [N * 0.9] rounds
    up to the next integer), the
    split, made once by [prepare] before the loop, gives the training part
    [floor(0.9 * N)] examples and the validation part the other
    [N - floor(0.9 * N)], the two parts holding the examples of the dataset
    between them; the loaders of every epoch are those of the two parts. *)
Theorem split_ninety_ten (fd : option Z) (a : args) (s : setup) (ds : dataset) :
  (forall n, Permutation (randperm n) (seq 0 n)) ->
  prepare fd a = Ok s ->
  get_dataset (dataset_name a) (dataset_path_train a) = Ok ds ->
  len (examples ds) < first_miss ->
  train_length_of (len (examples ds)) = Ok (9 * len (examples ds) / 10)
  /\ exists train_part valid_part : list example,
       len train_part = 9 * len (examples ds) / 10
       /\ len valid_part = len (examples ds) - 9 * len (examples ds) / 10
       /\ Permutation (train_part ++ valid_part) (examples ds)
       /\ targets (train_data_loader s) = map snd train_part
       /\ flat_map fst (train_data_loader s) = map fst train_part
       /\ targets (valid_data_loader s) = map snd valid_part
       /\ flat_map fst (valid_data_loader s) = map fst valid_part
       /\ forall d, main fd a d =
            {| returned := fst (run s a (boot s d));
               disk_after := storage (snd (run s a (boot s d)));
               events := log (snd (run s a (boot s d))) |}.
Proof.
  intros Hperm Hp Hds Hsize.
  assert (Hlen : train_length_of (len (examples ds)) = Ok (9 * len (examples ds) / 10)).
  { apply train_length_exact. unfold len in *. lia. }
  split; [exact Hlen|].
  destruct (prepare_ok _ _ _ Hp) as (_ & ds1 & ds2 & tl & parts & E1 & _ & E3 & E4 & E5
                                       & E6 & _).
  rewrite Hds in E1. inversion E1; subst ds1; clear E1.
  rewrite Hlen in E3. inversion E3; subst tl; clear E3.
  assert (Hq : 0 <= 9 * len (examples ds) / 10 <= len (examples ds)).
  { unfold len. split; [apply Z.div_pos; lia|].
    apply Z.div_le_upper_bound; lia. }
  assert (Hrest : 0 <= len (examples ds) - 9 * len (examples ds) / 10) by lia.
  destruct (random_split_partition (examples ds) _ _ parts (Hperm _) (proj1 Hq) Hrest E4)
    as (L1 & L2 & HP).
  destruct (DataLoader_covers _ _ _ E5) as (_ & T1 & F1).
  destruct (DataLoader_covers _ _ _ E6) as (_ & T2 & F2).
  exists (fst parts), (snd parts). repeat split; auto.
  intros d. now apply main_run.
Qed.

End SuccessClaims.

(** ** The theorems at work on the small backend *)

Section Examples.

Import Toy.

(** C2, as stated, fails: a run of two epochs with validation MAEs 2000
    and 1500 completes its loop and leaves no checkpoint. *)
Lemma checkpoint_missing_above_sentinel :
  is_ok (fst (@loop_of poor_backend poor_setup 2 (boot poor_setup empty_disk))) = true
  /\ @mae_val poor_backend poor_setup 0 = 2000%float
  /\ @mae_val poor_backend poor_setup 1 = 1500%float
  /\ checkpoint (storage (snd (@loop_of poor_backend poor_setup 2
                                 (boot poor_setup empty_disk)))) = None
  /\ saves (log (snd (@loop_of poor_backend poor_setup 2
                        (boot poor_setup empty_disk)))) = O.
Proof. repeat split; vm_compute; reflexivity. Qed.

(** C6, as stated, fails: for 1250999896491811 examples the double product
    rounds up to the next integer, one more than the floor of nine tenths. *)
Lemma train_length_above_floor :
  train_length_of first_miss = Ok 1125899906842630
  /\ 9 * first_miss / 10 = 1125899906842629.
Proof. split; vm_compute; reflexivity. Qed.

(** The run of four epochs with validation MAEs 5, 3, 4, 2 completes and
    its checkpoint is the model of the first epoch with the least of them. *)
Lemma checkpoint_is_first_minimum_witness :
  exists v m,
    @loop_of falling_backend falling_setup 4 (boot falling_setup empty_disk) = (Ok v, m)
    /\ (exists j, (j < Z.to_nat 4)%nat
                  /\ (@mae_val falling_backend falling_setup j <? sentinel)%float = true)
    /\ best initial_locals = 1000%float
    /\ exists k, (k < Z.to_nat 4)%nat
         /\ best_epoch v = Some (Z.of_nat k)
         /\ checkpoint (storage m) = Some (@model_at falling_backend falling_setup k)
         /\ best v = @mae_val falling_backend falling_setup k
         /\ (@mae_val falling_backend falling_setup k <? sentinel)%float = true
         /\ (forall j, (j < Z.to_nat 4)%nat ->
               (@mae_val falling_backend falling_setup j
                <? @mae_val falling_backend falling_setup k)%float = false)
         /\ (forall j, (j < k)%nat ->
               (@mae_val falling_backend falling_setup j
                <=? @mae_val falling_backend falling_setup k)%float = false).
Proof.
  assert (H2 : exists j, (j < Z.to_nat 4)%nat
                 /\ (@mae_val falling_backend falling_setup j <? sentinel)%float = true).
  { exists O. split; [vm_compute; lia|vm_compute; reflexivity]. }
  destruct (@loop_of falling_backend falling_setup 4 (boot falling_setup empty_disk))
    as [[v|e] m] eqn:E.
  - exists v, m. split; [reflexivity|]. split; [exact H2|].
    exact (@checkpoint_is_first_minimum falling_backend _ _ _ _ _ E H2).
  - exfalso.
    assert (H : is_ok (fst (@loop_of falling_backend falling_setup 4
                              (boot falling_setup empty_disk))) = true)
      by (vm_compute; reflexivity).
    rewrite E in H. discriminate.
Defined.

(** The run of four epochs returns and its epoch table has four rows. *)
Lemma epoch_report_rows_witness :
  @prepare falling_backend feature_dim four_epochs = Ok falling_setup
  /\ returned (@main falling_backend feature_dim four_epochs empty_disk) = Ok tt
  /\ exists file : csv,
       hd_error (tables (disk_after
                           (@main falling_backend feature_dim four_epochs empty_disk)))
       = Some (epoch_path "train.csv", file)
       /\ csv_header file = epoch_header
       /\ csv_index file = None
       /\ List.length (csv_rows file) = 4%nat.
Proof.
  assert (H1 : @prepare falling_backend feature_dim four_epochs = Ok falling_setup)
    by reflexivity.
  assert (H2 : returned (@main falling_backend feature_dim four_epochs empty_disk)
               = Ok tt) by (vm_compute; reflexivity).
  split; [exact H1|]. split; [exact H2|].
  destruct (@epoch_report_rows falling_backend _ _ empty_disk _ H1 H2)
    as (file & F1 & F2 & F3 & _ & F5 & _).
  exists file. repeat split; assumption.
Defined.

(** The same run has a prediction table of three rows, one per example of
    its test file. *)
Lemma prediction_report_rows_witness :
  @prepare falling_backend feature_dim four_epochs = Ok falling_setup
  /\ @get_dataset falling_backend "fuxtower" "test.csv" = Ok (@file_of falling_backend (rows 11 3))
  /\ returned (@main falling_backend feature_dim four_epochs empty_disk) = Ok tt
  /\ exists (k : nat) (file : csv),
       nth_error (tables (disk_after
                            (@main falling_backend feature_dim four_epochs empty_disk))) 1
       = Some (prediction_path "train.csv" (Z.of_nat k), file)
       /\ csv_header file = prediction_header
       /\ csv_index file = None
       /\ List.length (csv_rows file) = 3%nat.
Proof.
  assert (H1 : @prepare falling_backend feature_dim four_epochs = Ok falling_setup)
    by reflexivity.
  assert (H2 : @get_dataset falling_backend "fuxtower" "test.csv"
               = Ok (@file_of falling_backend (rows 11 3))) by reflexivity.
  assert (H3 : returned (@main falling_backend feature_dim four_epochs empty_disk)
               = Ok tt) by (vm_compute; reflexivity).
  split; [exact H1|]. split; [exact H2|]. split; [exact H3|].
  destruct (@prediction_report_rows falling_backend _ _ empty_disk _ _ H1 H2 H3)
    as (k & file & F1 & F2 & F3 & F4 & _).
  exists k, file. repeat split; assumption.
Defined.

(** A run on a test file without examples raises and writes no table. *)
Lemma empty_test_split_raises_witness :
  @prepare falling_backend feature_dim no_test_data = Ok untested_setup
  /\ @get_dataset falling_backend "fuxtower" "empty.csv" = Ok (@file_of falling_backend [])
  /\ examples (@file_of falling_backend []) = []
  /\ (exists e,
        returned (@main falling_backend feature_dim no_test_data empty_disk) = Raise e)
  /\ tables (disk_after (@main falling_backend feature_dim no_test_data empty_disk))
     = [].
Proof.
  assert (H1 : @prepare falling_backend feature_dim no_test_data = Ok untested_setup)
    by reflexivity.
  assert (H2 : @get_dataset falling_backend "fuxtower" "empty.csv" = Ok (@file_of falling_backend []))
    by reflexivity.
  split; [exact H1|]. split; [exact H2|]. split; [reflexivity|].
  destruct (@empty_test_split_raises falling_backend _ _ empty_disk _ _ H1 H2 eq_refl)
    as (_ & _ & _ & _ & _ & _ & F1 & F2).
  split; assumption.
Defined.

(** The ten training examples of the small backend are split nine to one. *)
Lemma split_ninety_ten_witness :
  (forall n, Permutation (@randperm falling_backend n) (seq 0 n))
  /\ @prepare falling_backend feature_dim four_epochs = Ok falling_setup
  /\ @get_dataset falling_backend "fuxtower" "train.csv" = Ok (@file_of falling_backend (rows 1 10))
  /\ len (rows 1 10) < first_miss
  /\ train_length_of 10 = Ok 9
  /\ exists train_part valid_part : list (float * float),
       len train_part = 9 /\ len valid_part = 1
       /\ Permutation (train_part ++ valid_part) (rows 1 10).
Proof.
  assert (H0 : forall n, Permutation (@randperm falling_backend n) (seq 0 n)).
  { intros n. apply Permutation_sym, Permutation_rev. }
  assert (H1 : @prepare falling_backend feature_dim four_epochs = Ok falling_setup)
    by reflexivity.
  assert (H2 : @get_dataset falling_backend "fuxtower" "train.csv"
               = Ok (@file_of falling_backend (rows 1 10))) by reflexivity.
  assert (H3 : len (rows 1 10) < first_miss) by (vm_compute; reflexivity).
  split; [exact H0|]. split; [exact H1|]. split; [exact H2|]. split; [exact H3|].
  destruct (@split_ninety_ten falling_backend _ _ _ _ H0 H1 H2 H3)
    as (F1 & tr & va & F2 & F3 & F4 & _).
  split; [exact F1|]. exists tr, va. repeat split; assumption.
Defined.

(** A run asked for the dataset ["cifar"] raises and leaves the disk alone. *)
Lemma unknown_name_fails_fast_witness :
  (known dataset_names (dataset_name misnamed) = false
   \/ known model_names (model_name misnamed) = false)
  /\ exists e, @main falling_backend feature_dim misnamed empty_disk
               = {| returned := Raise e; disk_after := empty_disk; events := [] |}.
Proof.
  assert (H : known dataset_names (dataset_name misnamed) = false
              \/ known model_names (model_name misnamed) = false)
    by (left; reflexivity).
  split; [exact H|].
  exact (proj1 (@unknown_name_fails_fast falling_backend feature_dim misnamed
                  empty_disk H)).
Defined.

(** The run of two epochs with validation MAEs 2000 and 1500 raises, saves
    nothing and leaves the disk empty. *)
Lemma no_best_at_sentinel_witness :
  @prepare poor_backend feature_dim two_epochs = Ok poor_setup
  /\ (forall j va, (j < Z.to_nat (epoch two_epochs))%nat ->
        @evaluate poor_backend (model_at poor_setup j) (valid_data_loader poor_setup)
        = Ok va ->
        (sentinel <=? mae_of va)%float = true)
  /\ (exists e, returned (@main poor_backend feature_dim two_epochs empty_disk) = Raise e)
  /\ disk_after (@main poor_backend feature_dim two_epochs empty_disk) = empty_disk
  /\ saves (events (@main poor_backend feature_dim two_epochs empty_disk)) = O.
Proof.
  assert (H1 : @prepare poor_backend feature_dim two_epochs = Ok poor_setup)
    by reflexivity.
  assert (H2 : forall j va, (j < Z.to_nat (epoch two_epochs))%nat ->
            @evaluate poor_backend (model_at poor_setup j) (valid_data_loader poor_setup)
            = Ok va ->
            (sentinel <=? mae_of va)%float = true).
  { intros j va Hj E. destruct j as [|[|j]]; [| |vm_compute in Hj; lia].
    - vm_compute in E. inversion E. reflexivity.
    - vm_compute in E. inversion E. reflexivity. }
  split; [exact H1|]. split; [exact H2|].
  destruct (@no_best_at_sentinel poor_backend _ _ empty_disk _ H1 H2)
    as (F1 & F2 & F3 & _).
  repeat split; assumption.
Defined.

End Examples.

(** ** More on the two lookups *)

Section Lookups.

Context {B : Backend}.

(** Splits on the next comparison of [name] with a literal; in the branch
    where it holds, [name] is replaced by the literal. *)
Ltac next_name name :=
  match goal with
  | |- context [(name =? ?s)%string] =>
      let E := fresh "E" in
      destruct (name =? s)%string eqn:E;
      [apply String.eqb_eq in E; subst name|]
  end.

(** X1: [get_model] returns a model exactly when the name has a branch,
    the global [feature_dim] is bound if the name is ['rnn'], and the
    dataset is a MovieLens one if the name is ['ncf']; the model it returns
    is built from the [field_dims] of the dataset it was given. *)
Theorem get_model_succeeds_iff (fd : option Z) (name : string) (ds : dataset) :
  (is_ok (get_model fd name ds) = true <->
   known model_names name = true
   /\ (name = "rnn"%string -> fd <> None)
   /\ (name = "ncf"%string -> is_movielens (ds_class ds) = true))
  /\ (forall w, get_model fd name ds = Ok w ->
        exists c, w = construct c (field_dims ds)).
Proof.
  split.
  - unfold get_model, known, model_names. cbn [existsb].
    repeat next_name name;
      try (cbn; split;
           [intros _; repeat split; intros; try discriminate; congruence
           |intros _; reflexivity]).
    + (* rnn *)
      destruct fd as [x|]; cbn; split; try discriminate.
      * intros _. repeat split; intros; discriminate.
      * intros _. reflexivity.
      * intros (_ & H & _). now destruct (H eq_refl).
    + (* ncf *)
      destruct (is_movielens (ds_class ds)) eqn:Em; cbn; split; try discriminate.
      * intros _. repeat split; intros; try discriminate; congruence.
      * intros _. reflexivity.
      * intros (_ & _ & H). discriminate (H eq_refl).
    + (* no branch *)
      cbn. split; [discriminate|]. intros (H & _). discriminate.
  - intros w. unfold get_model.
    repeat next_name name; try (intros H; inversion H; eauto; fail).
    + destruct fd; intros H; inversion H; eauto.
    + destruct (is_movielens (ds_class ds)); intros H; inversion H; eauto.
Qed.

(** X2: only the ['rnn'] branch reads the global [feature_dim]: for any
    other name the result of [get_model] is the same whatever the global
    is, bound or not; for ['rnn'] an unbound global is a [NameError], and
    a bound one is passed to the model as [feature_dims]. *)
Theorem feature_dim_is_read_by_rnn_only (ds : dataset) :
  (forall fd fd' name, name <> "rnn"%string ->
     get_model fd name ds = get_model fd' name ds)
  /\ get_model None "rnn" ds = Raise (NameError "feature_dim")
  /\ (forall x, get_model (Some x) "rnn" ds
                = Ok (construct (RecurrentNeuralNetwork x) (field_dims ds))).
Proof.
  split; [|split; reflexivity].
  intros fd fd' name Hn. unfold get_model.
  destruct (name =? "dnn")%string; [reflexivity|].
  destruct (name =? "rnn")%string eqn:E; [|reflexivity].
  apply String.eqb_eq in E. contradiction.
Qed.

(** X3: the dataset [get_dataset] returns for a name makes the ['ncf']
    branch of [get_model] pass its assertion exactly when the name is one
    of the two MovieLens names; for the three other dataset names, the
    script's default ['fuxtower'] among them, ['ncf'] is an
    [AssertionError] (assertions being enabled, as they are by default). *)
Theorem ncf_needs_movielens (fd : option Z) (name path : string) (ds : dataset) :
  get_dataset name path = Ok ds ->
  get_model fd "ncf" ds =
  if ((name =? "movielens1M") || (name =? "movielens20M"))%string
  then Ok (construct NeuralCollaborativeFiltering (field_dims ds))
  else Raise AssertionError.
Proof.
  unfold get_dataset, open_dataset.
  repeat next_name name; cbn [orb String.eqb Ascii.eqb Bool.eqb andb];
    try discriminate;
    (destruct (read_dataset _ path) as [r|e]; [|discriminate];
     cbn [rbind]; intros H; inversion H; subst ds; reflexivity).
Qed.

(** X4: a dataset [get_dataset] returns is what the reader of its class
    read at the path, unchanged; the class depends on the name alone, so
    that the two datasets [main] opens under one name are of one class; and
    when the name has a branch, an error is the reader's own. *)
Theorem get_dataset_passes_the_reader (name path : string) :
  (forall ds, get_dataset name path = Ok ds ->
     known dataset_names name = true
     /\ read_dataset (ds_class ds) path = Ok (field_dims ds, examples ds)
     /\ forall path' ds', get_dataset name path' = Ok ds' -> ds_class ds' = ds_class ds)
  /\ (forall e, known dataset_names name = true -> get_dataset name path = Raise e ->
        exists c, read_dataset c path = Raise e).
Proof.
  unfold get_dataset, open_dataset, known, dataset_names. cbn [existsb]. split.
  - intros ds.
    repeat next_name name; try discriminate;
      (destruct (read_dataset _ path) as [[fdims ex]|e] eqn:Er; [|discriminate];
       cbn [rbind fst snd]; intros H; inversion H; subst ds; clear H;
       cbn [ds_class field_dims examples];
       split; [reflexivity|]; split; [exact Er|];
       intros path' ds'; cbn;
       destruct (read_dataset _ path') as [r'|e']; [|discriminate];
       cbn [rbind]; intros H'; inversion H'; reflexivity).
  - intros e.
    repeat next_name name; try (cbn; discriminate);
      (intros _; destruct (read_dataset _ path) as [r|e0] eqn:Er; [discriminate|];
       cbn [rbind]; intros H; inversion H; subst; eauto).
Qed.

End Lookups.

(** ** [EarlyStopper] in use *)

Section Stopper.

Context {B : Backend}.

(** A [nan] is below nothing. *)
Lemma nan_is_not_below (x y : float) : is_nan x = true -> (x <? y)%float = false.
Proof.
  unfold is_nan.
  rewrite FloatAxioms.eqb_spec, FloatAxioms.ltb_spec. unfold SFeqb, SFltb.
  rewrite !SFcompare_key.
  destruct (key (Prim2SF x)) as [a|]; [|reflexivity].
  assert (E : lex a a = Eq) by now apply lex_Eq.
  rewrite E. discriminate.
Qed.

Lemma ltb_asym (x y : float) : (x <? y)%float = true -> (y <? x)%float = false.
Proof.
  intros H. destruct (y <? x)%float eqn:E; [|reflexivity].
  pose proof (ltb_trans _ _ _ H E) as C. now rewrite ltb_irrefl in C.
Qed.

(** Values that do not improve on the best one, fed to a stopper whose
    counter is [c]: the call number [j] is answered by [c + j + 1 < n]. *)
Lemma patience_from (rs : list float) : forall (self : EarlyStopper) (m : machine),
  Forall (fun r => (r <? best_rmse self)%float = false) rs ->
  is_continuable_all rs self m =
  (Ok (map (fun j => trial_counter self + Z.of_nat j + 1 <? num_trials self)
         (seq 0 (List.length rs)),
       {| num_trials := num_trials self;
          trial_counter :=
            Z.max (trial_counter self)
              (Z.min (trial_counter self + Z.of_nat (List.length rs))
                 (num_trials self - 1));
          best_rmse := best_rmse self |}),
   m).
Proof.
  induction rs as [|r rs IH]; intros [n c b] m H.
  - cbn. unfold ret. do 3 f_equal. f_equal. lia.
  - inversion H as [|? ? Hr Hrs]; subst. cbn [best_rmse] in Hr, Hrs.
    cbn [is_continuable_all]. unfold bind at 1, is_continuable.
    cbn [best_rmse trial_counter num_trials]. rewrite Hr.
    cbn [List.length seq map]. rewrite <- seq_shift, map_map.
    destruct (c + 1 <? n) eqn:E.
    + unfold ret at 1. cbn [snd fst]. unfold bind. rewrite IH by exact Hrs.
      unfold ret. cbn [fst snd num_trials trial_counter best_rmse].
      apply Z.ltb_lt in E.
      replace (c + Z.of_nat 0 + 1 <? n) with true by (symmetry; apply Z.ltb_lt; lia).
      f_equal. f_equal. f_equal.
      * f_equal. apply map_ext. intros j. f_equal. lia.
      * f_equal. lia.
    + unfold ret at 1. cbn [snd fst]. unfold bind. rewrite IH by exact Hrs.
      unfold ret. cbn [fst snd num_trials trial_counter best_rmse].
      apply Z.ltb_ge in E.
      replace (c + Z.of_nat 0 + 1 <? n) with false by (symmetry; apply Z.ltb_ge; lia).
      f_equal. f_equal. f_equal.
      * f_equal. apply map_ext. intros j.
        transitivity false; [apply Z.ltb_ge; lia|symmetry; apply Z.ltb_ge; lia].
      * f_equal. lia.
Qed.

(** X5: the patience of the stopper.  From a stopper whose counter is 0,
    as it is when constructed and after every improvement, values that do
    not improve on [best_rmse] are answered [True] for the first
    [num_trials - 1] of them and [False] from then on; none of these calls
    saves the model or changes [best_rmse], and the counter stops at
    [num_trials - 1].  With [num_trials] at most 1 the very first such
    value is answered [False]. *)
Theorem early_stopper_patience (self : EarlyStopper) (rs : list float) (m : machine) :
  trial_counter self = 0 ->
  Forall (fun r => (r <? best_rmse self)%float = false) rs ->
  is_continuable_all rs self m =
  (Ok (map (fun j => Z.of_nat j + 1 <? num_trials self) (seq 0 (List.length rs)),
       {| num_trials := num_trials self;
          trial_counter :=
            Z.max 0 (Z.min (Z.of_nat (List.length rs)) (num_trials self - 1));
          best_rmse := best_rmse self |}),
   m)
  /\ (num_trials self <= 1 ->
      fst (is_continuable_all rs self m)
      = Ok (repeat false (List.length rs), self)).
Proof.
  intros Hc Hrs. rewrite (patience_from rs self m Hrs), Hc. split.
  - reflexivity.
  - intros Hn. cbn [fst]. f_equal. f_equal.
    + generalize 0%nat. induction (List.length rs) as [|k IH]; intros s0; [reflexivity|].
      cbn [seq map repeat]. f_equal; [apply Z.ltb_ge; lia|apply IH].
    + destruct self as [n c b]. cbn in *. subst c. f_equal. lia.
Qed.

(** The values a stopper has seen are not below the [best_rmse] it keeps,
    which is either the one it started with, and then nothing was saved, or
    one of the values, below the one it started with, and then the
    checkpoint was written. *)
Lemma lowest_is_kept (rs : list float) : forall (self : EarlyStopper) (m : machine),
  exists answers self' m',
    is_continuable_all rs self m = (Ok (answers, self'), m')
    /\ List.length answers = List.length rs
    /\ num_trials self' = num_trials self
    /\ Forall (fun x => (x <? best_rmse self')%float = false) rs
    /\ tables (storage m') = tables (storage m)
    /\ learner_of m' = learner_of m
    /\ ((best_rmse self' = best_rmse self /\ m' = m)
        \/ (In (best_rmse self') rs
            /\ (best_rmse self' <? best_rmse self)%float = true
            /\ checkpoint (storage m') = Some (params m))).
Proof.
  induction rs as [|r rs IH]; intros self m.
  - exists [], self, m. cbn. unfold ret. repeat split; auto.
  - cbn [is_continuable_all]. unfold bind at 1, is_continuable.
    destruct (r <? best_rmse self)%float eqn:Er.
    + (* an improvement *)
      set (self1 := {| num_trials := num_trials self; trial_counter := 0;
                       best_rmse := r |}).
      unfold bind at 1, torch_save, act, ret at 1. cbn [snd fst].
      set (m1 := emit Save _).
      destruct (IH self1 m1) as (an & self' & m' & E & Hl & Hn & Hall & Ht & Hlr & Hb).
      unfold bind. rewrite E. unfold ret. cbn [fst snd].
      exists (true :: an), self', m'.
      assert (Hbest : (best_rmse self' <? best_rmse self)%float = true
                      /\ (r <? best_rmse self')%float = false
                      /\ In (best_rmse self') (r :: rs)
                      /\ checkpoint (storage m') = Some (params m)).
      { destruct Hb as [[Hb1 Hb2]|(Hb1 & Hb2 & Hb3)].
        - rewrite Hb1, Hb2. cbn [best_rmse self1].
          repeat split; auto; [apply ltb_irrefl|now left].
        - cbn [best_rmse self1] in Hb2. repeat split.
          + eapply ltb_trans; eauto.
          + now apply ltb_asym.
          + now right.
          + exact Hb3. }
      destruct Hbest as (B1 & B2 & B3 & B4).
      split; [reflexivity|]. split; [cbn; now rewrite Hl|]. split; [exact Hn|].
      split; [constructor; assumption|]. split; [exact Ht|]. split; [exact Hlr|].
      right. auto.
    + (* no improvement *)
      set (self1 := if trial_counter self + 1 <? num_trials self
                    then {| num_trials := num_trials self;
                            trial_counter := trial_counter self + 1;
                            best_rmse := best_rmse self |}
                    else self).
      assert (H1 : best_rmse self1 = best_rmse self /\ num_trials self1 = num_trials self)
        by (unfold self1; destruct (_ <? _); split; reflexivity).
      destruct H1 as [H1 H2].
      destruct (IH self1 m) as (an & self' & m' & E & Hl & Hn & Hall & Ht & Hlr & Hb).
      exists ((trial_counter self + 1 <? num_trials self) :: an), self', m'.
      assert (Hrun : (let (r0, m'0) :=
                        (if trial_counter self + 1 <? num_trials self
                         then ret (true, {| num_trials := num_trials self;
                                            trial_counter := trial_counter self + 1;
                                            best_rmse := best_rmse self |})
                         else ret (false, self)) m in
                      match r0 with
                      | Ok a => bind (is_continuable_all rs (snd a))
                                  (fun rs0 => ret (fst a :: fst rs0, snd rs0)) m'0
                      | Raise e => (Raise e, m'0)
                      end)
                     = (Ok ((trial_counter self + 1 <? num_trials self) :: an, self'), m')).
      { unfold self1 in E. unfold bind, ret.
        destruct (trial_counter self + 1 <? num_trials self); cbn [fst snd];
          rewrite E; reflexivity. }
      split; [exact Hrun|]. split; [cbn; now rewrite Hl|].
      split; [congruence|].
      rewrite H1 in Hb.
      assert (Hr : (r <? best_rmse self')%float = false).
      { destruct Hb as [[Hb1 _]|(_ & Hb2 & _)].
        - now rewrite Hb1.
        - eapply not_below_trans; eauto. }
      split; [constructor; assumption|]. split; [exact Ht|]. split; [exact Hlr|].
      destruct Hb as [Hb|(Hb1 & Hb2 & Hb3)]; [left; exact Hb|right].
      repeat split; auto. now right.
Qed.

(** X6: whatever values a fresh stopper is shown, the [best_rmse] it ends
    with is a lower bound of all of them (none is strictly below it); it is
    the initial 100, and then no value was below 100 and nothing was
    saved, or it is one of the values, below 100, and then the checkpoint
    holds the model the calls were given.  The calls touch neither the
    model nor the report files, and [num_trials] stays as constructed. *)
Theorem early_stopper_keeps_the_lowest (n : Z) (rs : list float) (m : machine) :
  exists answers self' m',
    is_continuable_all rs (EarlyStopper_init n) m = (Ok (answers, self'), m')
    /\ List.length answers = List.length rs
    /\ num_trials self' = n
    /\ Forall (fun x => (x <? best_rmse self')%float = false) rs
    /\ tables (storage m') = tables (storage m)
    /\ learner_of m' = learner_of m
    /\ ((best_rmse self' = 100%float /\ m' = m
         /\ Forall (fun x => (x <? 100)%float = false) rs)
        \/ (In (best_rmse self') rs
            /\ (best_rmse self' <? 100)%float = true
            /\ checkpoint (storage m') = Some (params m))).
Proof.
  destruct (lowest_is_kept rs (EarlyStopper_init n) m)
    as (an & self' & m' & E & Hl & Hn & Hall & Ht & Hlr & Hb).
  exists an, self', m'. repeat split; auto.
  destruct Hb as [[Hb1 Hb2]|Hb]; [left|right; exact Hb].
  repeat split; auto. cbn [best_rmse EarlyStopper_init] in Hb1. now rewrite <- Hb1.
Qed.

(** X7: a score that is [nan] is never taken for an improvement: the
    tracker of [main] leaves its variables and the checkpoint as they are,
    and the stopper counts the call as a failed trial, without saving. *)
Theorem nan_is_never_the_best (x : float) :
  is_nan x = true ->
  (forall i tr va te v m,
     mae_of va = x -> observe i tr va te v m = (Ok (false, v), m))
  /\ (forall self m,
        is_continuable self x m =
        (Ok (if trial_counter self + 1 <? num_trials self
             then (true, {| num_trials := num_trials self;
                            trial_counter := trial_counter self + 1;
                            best_rmse := best_rmse self |})
             else (false, self)),
         m)).
Proof.
  intros Hx. split.
  - intros i tr va te v m E. rewrite observe_spec, E.
    now rewrite (nan_is_not_below x (best v) Hx).
  - intros self m. unfold is_continuable.
    rewrite (nan_is_not_below x (best_rmse self) Hx).
    destruct (trial_counter self + 1 <? num_trials self); reflexivity.
Qed.

End Stopper.

(** ** More on the passes and the loaders *)

Section MorePasses.

Context {B : Backend}.

(** X8: the metrics [train] returns are those of the predictions made
    while training: every batch is predicted in training mode by the model
    the batches before it left, before its own update.  The pass leaves the
    model in training mode, and over a loader that yields no batch it
    raises, having only switched the mode. *)
Theorem train_scores_before_updates (dl : list batch) (m : machine) :
  fst (train dl m) = score (targets dl) (fit_predictions dl (learner_of m))
  /\ (forall b rest l,
        fit_predictions (b :: rest) l
        = (forward true (weights_of l) (fst b) ++ fit_predictions rest (learn l b))%list)
  /\ training (snd (train dl m)) = true
  /\ train [] m = (Raise (ValueError "need at least one array to concatenate"),
                   install (learner_of m) true [ModeTrain] m).
Proof.
  rewrite !train_spec. repeat split.
Qed.

(** The checks of [score], as one condition. *)
Lemma score_is_ok (t p : list float) :
  is_ok (score t p) = true <->
  t <> [] /\ List.length p = List.length t
  /\ forallb is_finite t = true /\ forallb is_finite p = true.
Proof.
  unfold score, np_hstack, mean_absolute_error, r2_score, mean_squared_error,
    check_reg_targets.
  destruct t as [|t0 t].
  { cbn. split; [discriminate|]. intros (H & _). now destruct H. }
  destruct p as [|p0 p].
  { cbn. split; [discriminate|]. intros (_ & H & _). discriminate. }
  cbn [rbind].
  destruct (List.length (t0 :: t) =? List.length (p0 :: p))%nat eqn:El; cbn [negb].
  - apply Nat.eqb_eq in El.
    replace (List.length (t0 :: t) =? 0)%nat with false by reflexivity.
    destruct (forallb is_finite (t0 :: t)) eqn:Ft;
      destruct (forallb is_finite (p0 :: p)) eqn:Fp; cbn;
      (split; [try discriminate; intros _; repeat split; auto; discriminate
              |intros (_ & _ & H1 & H2); congruence]).
  - apply Nat.eqb_neq in El. cbn. split; [discriminate|].
    intros (_ & H & _). cbn in H, El. congruence.
Qed.

(** X9: [test] returns exactly when the loader yields at least one target,
    the model gave as many predictions as there are targets, and every
    target and every prediction is a finite number; a model that predicts
    [nan] or an infinity makes the pass raise.  What it returns then are
    the targets in loader order, the predictions of the model in evaluation
    mode, and the three metrics of the two. *)
Theorem test_returns_iff (dl : list batch) (m : machine) :
  (is_ok (fst (test dl m)) = true <->
   targets dl <> []
   /\ List.length (predictions (params m) dl) = List.length (targets dl)
   /\ forallb is_finite (targets dl) = true
   /\ forallb is_finite (predictions (params m) dl) = true)
  /\ (forall e, fst (test dl m) = Ok e ->
        targets_of e = targets dl
        /\ predicts_of e = predictions (params m) dl
        /\ mae_of e = mae_value (targets dl) (predictions (params m) dl)
        /\ r2_of e = r2_value (targets dl) (predictions (params m) dl)
        /\ mse_of e = mse_value (targets dl) (predictions (params m) dl)).
Proof.
  rewrite test_spec. cbn [fst]. unfold evaluate. split.
  - apply score_is_ok.
  - intros e E. apply score_ok in E. tauto.
Qed.

(** The sampler with a batch under way, unfolded by one batch. *)
Lemma batch_sampler_cur {A} (size : nat) (l : list A) : forall cur,
  (List.length cur < size)%nat ->
  batch_sampler size l cur =
  if (List.length cur + List.length l <? size)%nat
  then match (cur ++ l)%list with [] => [] | _ => [(cur ++ l)%list] end
  else (cur ++ firstn (size - List.length cur) l)%list
       :: batch_sampler size (skipn (size - List.length cur) l) [].
Proof.
  induction l as [|x l IH]; intros cur Hc.
  - cbn [batch_sampler List.length]. rewrite Nat.add_0_r, app_nil_r.
    apply Nat.ltb_lt in Hc. now rewrite Hc.
  - cbn [batch_sampler]. rewrite length_app. cbn [List.length].
    destruct (List.length cur + 1 =? size)%nat eqn:E.
    + apply Nat.eqb_eq in E.
      replace (List.length cur + S (List.length l) <? size)%nat with false
        by (symmetry; apply Nat.ltb_ge; lia).
      replace (size - List.length cur)%nat with 1%nat by lia. reflexivity.
    + apply Nat.eqb_neq in E. rewrite IH by (rewrite length_app; cbn; lia).
      rewrite length_app. cbn [List.length].
      replace (List.length cur + 1 + List.length l)%nat
        with (List.length cur + S (List.length l))%nat by lia.
      replace (size - List.length cur)%nat with (S (size - (List.length cur + 1)))%nat
        by lia.
      cbn [firstn skipn]. rewrite <- !app_assoc. reflexivity.
Qed.

(** Batch [i] of the sampler is the [i]-th window of the list. *)
Lemma batch_sampler_nth {A} (size : nat) : (0 < size)%nat ->
  forall (i : nat) (l : list A),
  nth_error (batch_sampler size l []) i =
  if (i * size <? List.length l)%nat then Some (window size i l) else None.
Proof.
  intros Hs. induction i as [|i IH]; intros l.
  - rewrite batch_sampler_cur by exact Hs. cbn [List.length Nat.add Nat.mul app].
    rewrite Nat.sub_0_r. unfold window. cbn [Nat.mul skipn].
    destruct (List.length l <? size)%nat eqn:E.
    + destruct l as [|x l]; [reflexivity|]. cbn [nth_error].
      apply Nat.ltb_lt in E. rewrite firstn_all2 by lia. reflexivity.
    + apply Nat.ltb_ge in E. cbn [nth_error].
      replace (0 <? List.length l)%nat with true by (symmetry; apply Nat.ltb_lt; lia).
      reflexivity.
  - rewrite batch_sampler_cur by exact Hs. cbn [List.length Nat.add app].
    rewrite Nat.sub_0_r.
    destruct (List.length l <? size)%nat eqn:E.
    + apply Nat.ltb_lt in E.
      replace (S i * size <? List.length l)%nat with false
        by (symmetry; apply Nat.ltb_ge; nia).
      destruct l as [|x l]; [reflexivity|]. cbn [nth_error]. now destruct i.
    + apply Nat.ltb_ge in E. cbn [nth_error]. rewrite IH, length_skipn.
      unfold window. rewrite skipn_skipn.
      replace (i * size + size)%nat with (S i * size)%nat by lia.
      destruct (S i * size <? List.length l)%nat eqn:E2.
      * apply Nat.ltb_lt in E2.
        replace (i * size <? List.length l - size)%nat with true
          by (symmetry; apply Nat.ltb_lt; lia).
        reflexivity.
      * apply Nat.ltb_ge in E2.
        replace (i * size <? List.length l - size)%nat with false
          by (symmetry; apply Nat.ltb_ge; lia).
        reflexivity.
Qed.

Lemma window_length {A} (size i : nat) (l : list A) :
  List.length (window size i l) = Nat.min size (List.length l - i * size).
Proof. unfold window. now rewrite length_firstn, length_skipn. Qed.

(** The number of batches is the number of examples over the batch size,
    rounded up. *)
Lemma batch_sampler_length {A} (size : nat) (l : list A) : (0 < size)%nat ->
  List.length (batch_sampler size l []) = ((List.length l + size - 1) / size)%nat.
Proof.
  intros Hs. set (n := ((List.length l + size - 1) / size)%nat).
  assert (Hn : (n * size <= List.length l + size - 1 < (n + 1) * size)%nat).
  { pose proof (Nat.div_mod_eq (List.length l + size - 1) size) as Hd.
    pose proof (Nat.mod_upper_bound (List.length l + size - 1) size ltac:(lia)) as Hm.
    fold n in Hd. nia. }
  assert (Hup : (List.length (batch_sampler size l []) <= n)%nat).
  { apply nth_error_None. rewrite batch_sampler_nth by exact Hs.
    replace (n * size <? List.length l)%nat with false
      by (symmetry; apply Nat.ltb_ge; lia).
    reflexivity. }
  destruct n as [|k]; [lia|].
  assert (Hlow : (k < List.length (batch_sampler size l []))%nat).
  { apply nth_error_Some. rewrite batch_sampler_nth by exact Hs.
    replace (k * size <? List.length l)%nat with true
      by (symmetry; apply Nat.ltb_lt; lia).
    discriminate. }
  lia.
Qed.

(** X10: with a positive batch size a loader over [n] examples yields
    [n / batch_size] batches, rounded up; batch [i] holds the examples
    [i * batch_size] up to [(i + 1) * batch_size], in order, so that no
    batch is empty, none is longer than [batch_size], and all but the last
    are full: the short last batch is kept, not dropped. *)
Theorem DataLoader_batches (ds : list example) (batch_size : Z) :
  0 < batch_size ->
  exists dl,
    DataLoader ds batch_size = Ok dl
    /\ len dl = (len ds + batch_size - 1) / batch_size
    /\ (forall i, nth_error dl i =
          if (i * Z.to_nat batch_size <? List.length ds)%nat
          then Some (collate (window (Z.to_nat batch_size) i ds))
          else None)
    /\ Forall (fun b => 0 < len (fst b) <= batch_size /\ len (snd b) = len (fst b)) dl
    /\ (forall i b, nth_error dl i = Some b -> (S i < List.length dl)%nat ->
          len (fst b) = batch_size).
Proof.
  intros Hb. unfold DataLoader.
  replace (batch_size <=? 0) with false by (symmetry; apply Z.leb_gt; lia).
  set (size := Z.to_nat batch_size).
  assert (Hs : (0 < size)%nat) by (unfold size; lia).
  eexists. split; [reflexivity|].
  assert (Hnth : forall i,
            nth_error (map collate (batch_sampler size ds [])) i =
            if (i * size <? List.length ds)%nat
            then Some (collate (window size i ds)) else None).
  { intros i. rewrite nth_error_map, batch_sampler_nth by exact Hs.
    now destruct (i * size <? List.length ds)%nat. }
  assert (Hone : forall i b, nth_error (map collate (batch_sampler size ds [])) i = Some b ->
            (i * size < List.length ds)%nat
            /\ List.length (fst b) = Nat.min size (List.length ds - i * size)
            /\ List.length (snd b) = List.length (fst b)).
  { intros i b. rewrite Hnth.
    destruct (i * size <? List.length ds)%nat eqn:E; [|discriminate].
    apply Nat.ltb_lt in E. intros H. inversion H; subst b; clear H.
    unfold collate. cbn [fst snd]. rewrite !length_map, window_length. auto. }
  split; [|split; [exact Hnth|split]].
  - unfold len. rewrite length_map, batch_sampler_length by exact Hs.
    rewrite Nat2Z.inj_div. f_equal; unfold size; lia.
  - apply Forall_forall. intros b Hin. apply In_nth_error in Hin.
    destruct Hin as [i Hi]. destruct (Hone i b Hi) as (H1 & H2 & H3).
    unfold len. rewrite H3, H2. unfold size in *. lia.
  - intros i b Hi Hlast.
    destruct (Hone i b Hi) as (H1 & H2 & _).
    assert (Hnext : nth_error (map collate (batch_sampler size ds [])) (S i) <> None)
      by now apply nth_error_Some.
    rewrite Hnth in Hnext.
    destruct (S i * size <? List.length ds)%nat eqn:E; [|congruence].
    apply Nat.ltb_lt in E. unfold len. rewrite H2. unfold size in *. lia.
Qed.

End MorePasses.

(** ** More on whole runs *)

Section MoreRuns.

Context {B : Backend}.

Lemma steps_app (es1 es2 : list event) : steps (es1 ++ es2) = (steps es1 + steps es2)%nat.
Proof. unfold steps. now rewrite filter_app, length_app. Qed.

Lemma steps_fit_events (dl : list batch) : forall l,
  steps (fit_events dl l) = List.length dl.
Proof.
  induction dl as [|b dl IH]; intros l; [reflexivity|].
  cbn [fit_events]. rewrite steps_app, IH. reflexivity.
Qed.

Lemma steps_forwards (dl : list batch) :
  steps (ModeEval :: map (fun b => Forward (fst b)) dl) = 0%nat.
Proof.
  unfold steps. cbn [filter is_step].
  induction dl as [|b dl IH]; [reflexivity|exact IH].
Qed.

Lemma steps_pass_events dl_tr dl_va dl_te l :
  steps (pass_events dl_tr dl_va dl_te l) = List.length dl_tr.
Proof.
  unfold pass_events. rewrite !steps_app, !steps_forwards.
  change (ModeTrain :: fit_events dl_tr l) with ([ModeTrain] ++ fit_events dl_tr l)%list.
  rewrite steps_app, steps_fit_events. cbn. lia.
Qed.

Lemma log_after_passes dl_tr dl_va dl_te (m : machine) :
  log (after_passes dl_tr dl_va dl_te m)
  = (log m ++ pass_events dl_tr dl_va dl_te (learner_of m))%list.
Proof. reflexivity. Qed.

Lemma log_saved (D : disk) (m : machine) :
  log (emit Save (set_storage D m)) = (log m ++ [Save])%list.
Proof. reflexivity. Qed.

(** The statements after the loop call no collaborator of the training. *)
Lemma write_reports_log (path : string) (v : locals) (m : machine) :
  log (snd (write_reports path v m)) = log m.
Proof.
  rewrite write_reports_eq.
  destruct (targets_test v); [|reflexivity].
  destruct (best_test v); [reflexivity|].
  destruct (best_epoch v); [|reflexivity]. cbv zeta.
  destruct (np_array (mae v)); [|reflexivity].
  destruct (negb _); reflexivity.
Qed.

Lemma mapM_total {A C} (f : A -> result C) (l : list A) :
  (forall a, In a l -> exists c, f a = Ok c) -> exists l', mapM f l = Ok l'.
Proof.
  induction l as [|x l IH]; intros H; [now exists []|].
  destruct (H x (or_introl eq_refl)) as [c Ec].
  destruct IH as [l' El]; [intros a Ha; apply H; now right|].
  exists (c :: l'). cbn [mapM]. now rewrite Ec, El.
Qed.

Lemma float_of_int_small (j : nat) :
  Z.of_nat j < 2 ^ 53 -> exists x, float_of_int (Z.of_nat j) = Ok x.
Proof.
  intros H. destruct (Z.of_nat j) as [|p|p] eqn:E; [now eexists| |lia].
  destruct (float_of_int_pos p H) as (nf & _ & Ef & _). eauto.
Qed.

(** The table of a loop of at most [2^53] epochs converts to doubles, and
    has ten columns when it has a row. *)
Lemma np_array_logged (s : setup) (i : nat) (v : locals) :
  logged s i v -> Z.of_nat i <= 2 ^ 53 ->
  exists table, np_array (mae v) = Ok table
                /\ ((0 < i)%nat -> width (DataFrame_2d table) = 10%nat).
Proof.
  intros [Hl Hr] Hi.
  assert (Hrows : forall row, In row (mae v) ->
            exists c, mapM num_to_float row = Ok c /\ List.length c = 10%nat).
  { intros row Hin. apply In_nth_error in Hin. destruct Hin as [j Hj].
    assert (Hji : (j < i)%nat).
    { rewrite <- Hl. apply nth_error_Some. congruence. }
    destruct (Hr j Hji) as (tr & va & te & _ & E). rewrite E in Hj.
    inversion Hj; subst row; clear Hj.
    destruct (float_of_int_small j) as [x Ex]; [lia|].
    unfold epoch_row. cbn [mapM num_to_float]. rewrite Ex. cbn [rbind].
    eexists. split; reflexivity. }
  destruct (mapM_total (mapM num_to_float) (mae v)) as [table Et].
  { intros row Hin. destruct (Hrows row Hin) as (c & Ec & _). eauto. }
  exists table. split; [exact Et|].
  intros Hpos. destruct (mapM_ok _ _ _ Et) as [Hlen Hnth].
  destruct (mae v) as [|row0 rest] eqn:Em; [cbn in Hl; lia|].
  destruct (Hnth O row0 eq_refl) as (c & Ec & Hc).
  destruct (Hrows row0 (or_introl eq_refl)) as (c' & Ec' & Hc').
  rewrite Ec in Ec'. inversion Ec'; subst c'.
  destruct table as [|r0 table]; [discriminate|].
  cbn in Hc. inversion Hc; subst r0. exact Hc'.
Qed.

Lemma DataLoader_length (ds : list example) (size : Z) (dl : list batch) :
  DataLoader ds size = Ok dl -> len dl = (len ds + size - 1) / size.
Proof.
  unfold DataLoader. destruct (size <=? 0) eqn:E; [discriminate|].
  apply Z.leb_gt in E. intros H. inversion H; subst dl; clear H.
  unfold len. rewrite length_map, batch_sampler_length by lia.
  rewrite Nat2Z.inj_div. f_equal; lia.
Qed.

Variables (s : setup) (d : disk).

(** The counts of a loop: one optimiser step per training batch and epoch,
    at most one save per epoch and at least one once a best epoch exists;
    the report files are not touched, even by a loop that raises. *)
Lemma epoch_loop_counts (n : Z) :
  match loop_of s n (boot s d) with
  | (Ok v, m) =>
      tables (storage m) = tables d
      /\ steps (log m) = (Z.to_nat n * List.length (train_data_loader s))%nat
      /\ (saves (log m) <= Z.to_nat n)%nat
      /\ (best_epoch v <> None -> (1 <= saves (log m))%nat)
  | (Raise _, m) => tables (storage m) = tables d
  end.
Proof.
  unfold loop_of, epoch_loop.
  set (Inv := fun (i : nat) (v : locals) (m : machine) =>
    tables (storage m) = tables d
    /\ steps (log m) = (i * List.length (train_data_loader s))%nat
    /\ (saves (log m) <= i)%nat
    /\ (best_epoch v <> None -> (1 <= saves (log m))%nat)).
  pose proof (for_each_rule
    (epoch_body (train_data_loader s) (valid_data_loader s) (test_data_loader s))
    (range n) Inv (fun m => tables (storage m) = tables d)) as R.
  rewrite length_range in R.
  assert (Hstep : forall i x acc m, nth_error (range n) i = Some x -> Inv i acc m ->
     match epoch_body (train_data_loader s) (valid_data_loader s) (test_data_loader s)
             x acc m with
     | (Ok acc', m') => Inv (S i) acc' m'
     | (Raise _, m') => tables (storage m') = tables d
     end).
  { intros i x acc m Hx (Ht & Hs & Hsv & Hb).
    apply nth_error_range in Hx. destruct Hx as [-> Hi].
    rewrite epoch_body_eq. cbv zeta.
    destruct (score _ _); [|exact Ht].
    destruct (evaluate _ (train_data_loader s)) as [tr|]; [|exact Ht].
    destruct (evaluate _ (valid_data_loader s)) as [va|]; [|exact Ht].
    destruct (evaluate _ (test_data_loader s)) as [te|]; [|exact Ht].
    destruct (mae_of va <? best acc)%float; unfold Inv.
    - rewrite log_saved, log_after_passes, !steps_app, !saves_app,
        steps_pass_events, saves_pass_events.
      split; [exact Ht|]. cbn. repeat split; lia.
    - rewrite log_after_passes, !steps_app, !saves_app,
        steps_pass_events, saves_pass_events.
      split; [exact Ht|]. cbn. repeat split; try lia.
      intros H. specialize (Hb H). lia. }
  specialize (R Hstep initial_locals (boot s d)).
  assert (H0 : Inv O initial_locals (boot s d)).
  { unfold Inv. cbn. repeat split; try lia. intros H. now destruct H. }
  specialize (R H0). unfold Inv in R.
  destruct (for_each _ _ _ _) as [[v|e] m]; exact R.
Qed.

End MoreRuns.

(** ** Edge cases and counts of [main] *)

Section MainEdges.

Context {B : Backend}.

(** X11: a training file of a single example (or of none) leaves the
    training split empty, since [int(1 * 0.9)] is 0: the run raises, in the
    first call of [train] when there is an epoch to run, without a single
    optimiser step, and the disk is as it was. *)
Theorem lone_example_trains_on_nothing (fd : option Z) (a : args) (d : disk)
  (s : setup) (ds : dataset) :
  prepare fd a = Ok s ->
  get_dataset (dataset_name a) (dataset_path_train a) = Ok ds ->
  len (examples ds) <= 1 ->
  train_length_of (len (examples ds)) = Ok 0
  /\ train_data_loader s = []
  /\ (exists e, returned (main fd a d) = Raise e)
  /\ disk_after (main fd a d) = d
  /\ steps (events (main fd a d)) = O
  /\ (0 < epoch a ->
      returned (main fd a d)
      = Raise (ValueError "need at least one array to concatenate")
      /\ events (main fd a d) = [ModeTrain]).
Proof.
  intros Hp Hds Hlen.
  assert (Htl : train_length_of (len (examples ds)) = Ok 0).
  { assert (Hcase : len (examples ds) = 0 \/ len (examples ds) = 1) by (unfold len in *; lia).
    destruct Hcase as [-> | ->]; reflexivity. }
  assert (Hdl : train_data_loader s = []).
  { destruct (prepare_ok _ _ _ Hp) as (_ & ds1 & ds2 & tl & parts & E1 & _ & E3 & E4 & E5 & _).
    rewrite Hds in E1. inversion E1; subst ds1; clear E1.
    rewrite Htl in E3. inversion E3; subst tl; clear E3.
    unfold random_split in E4. destruct (negb _); [discriminate|].
    inversion E4; subst parts; clear E4. cbn [fst Z.to_nat firstn subset flat_map] in E5.
    unfold DataLoader in E5. destruct (batch_size a <=? 0); [discriminate|].
    cbn in E5. now inversion E5. }
  split; [exact Htl|]. split; [exact Hdl|].
  rewrite (main_run _ _ _ _ Hp). cbn [returned disk_after events].
  unfold run, epoch_loop.
  destruct (Z_le_gt_dec (epoch a) 0) as [Hn|Hn].
  - rewrite range_nonpos by exact Hn. cbn [for_each]. unfold bind, ret.
    rewrite write_reports_eq. cbn [targets_test initial_locals fst snd].
    split; [eauto|]. split; [reflexivity|]. split; [reflexivity|]. intros; lia.
  - destruct (range_pos (epoch a)) as [rest Hr]; [lia|].
    rewrite Hr. cbn [for_each]. unfold bind at 1. unfold bind at 1.
    rewrite epoch_body_eq. cbv zeta. rewrite Hdl.
    cbn [targets fit_predictions flat_map score np_hstack rbind fit_events List.length
         Nat.add firstn pass_events app fit fold_left fst snd].
    split; [eauto|]. split; [reflexivity|]. split; [reflexivity|].
    intros _. split; reflexivity.
Qed.

(** X12: a run that returns has taken one optimiser step per training
    batch in every epoch, that is, for [N] training examples,
    [epoch * ceil(floor(0.9 N) / batch_size)] steps in all; and it has
    written the checkpoint at least once and at most once per epoch. *)
Theorem optimizer_steps_of_a_run (fd : option Z) (a : args) (d : disk) (s : setup)
  (ds : dataset) :
  (forall n, Permutation (randperm n) (seq 0 n)) ->
  prepare fd a = Ok s ->
  get_dataset (dataset_name a) (dataset_path_train a) = Ok ds ->
  len (examples ds) < first_miss ->
  returned (main fd a d) = Ok tt ->
  steps (events (main fd a d))
  = (Z.to_nat (epoch a) * List.length (train_data_loader s))%nat
  /\ len (train_data_loader s)
     = (9 * len (examples ds) / 10 + batch_size a - 1) / batch_size a
  /\ Z.of_nat (steps (events (main fd a d)))
     = epoch a * ((9 * len (examples ds) / 10 + batch_size a - 1) / batch_size a)
  /\ (1 <= saves (events (main fd a d)) <= Z.to_nat (epoch a))%nat.
Proof.
  intros Hperm Hp Hds Hsize Hret.
  destruct (main_ok _ _ _ _ Hp Hret) as (v & m & t & p & k & table & El & _ & _ & Ek & _).
  pose proof (epoch_loop_counts s d (epoch a)) as Hc. rewrite El in Hc.
  destruct Hc as (_ & Hs & Hsv & Hb).
  assert (Hk : best_epoch v <> None) by congruence. specialize (Hb Hk).
  assert (Hev : events (main fd a d) = log m).
  { rewrite (main_run _ _ _ _ Hp). cbn [events]. unfold run, bind.
    fold (loop_of s (epoch a)). rewrite El. apply write_reports_log. }
  rewrite Hev.
  assert (Hlen : len (train_data_loader s)
                 = (9 * len (examples ds) / 10 + batch_size a - 1) / batch_size a).
  { destruct (prepare_ok _ _ _ Hp) as (_ & ds1 & ds2 & tl & parts & E1 & _ & E3 & E4 & E5 & _).
    rewrite Hds in E1. inversion E1; subst ds1; clear E1.
    rewrite train_length_exact in E3 by (unfold len in *; lia).
    inversion E3; subst tl; clear E3.
    assert (Hq : 0 <= 9 * len (examples ds) / 10 <= len (examples ds)).
    { unfold len. split; [apply Z.div_pos; lia|apply Z.div_le_upper_bound; lia]. }
    assert (Hrest : 0 <= len (examples ds) - 9 * len (examples ds) / 10) by lia.
    destruct (random_split_partition (examples ds) _ _ parts (Hperm _) (proj1 Hq)
                Hrest E4) as (L1 & _).
    rewrite (DataLoader_length _ _ _ E5), L1. reflexivity. }
  split; [exact Hs|]. split; [exact Hlen|]. split; [|lia].
  rewrite Hs, <- Hlen. unfold len. rewrite Nat2Z.inj_mul, Z2Nat.id by lia. reflexivity.
Qed.

(** X13: the two report files come together or not at all.  In a run of
    at most [2^53] epochs, whichever statement of [main] raises, no report
    file was written and the earlier files are all there; and a run that
    returns has added exactly two files, the prediction table and then the
    epoch table.  (A failure of the file system while writing is outside
    the model.) *)
Theorem reports_come_together (fd : option Z) (a : args) (d : disk) :
  epoch a <= 2 ^ 53 ->
  (forall e, returned (main fd a d) = Raise e ->
     tables (disk_after (main fd a d)) = tables d)
  /\ (returned (main fd a d) = Ok tt ->
      exists k predictions table,
        tables (disk_after (main fd a d))
        = (epoch_path (dataset_path_train a), table)
          :: (prediction_path (dataset_path_train a) k, predictions)
          :: tables d).
Proof.
  intros Hn.
  destruct (prepare fd a) as [s|e0] eqn:Hp.
  2:{ rewrite (main_raise _ _ _ _ Hp). cbn. split; [reflexivity|discriminate]. }
  split.
  - intros e. rewrite (main_run _ _ _ _ Hp). cbn [returned disk_after].
    unfold run, bind. fold (loop_of s (epoch a)).
    pose proof (epoch_loop_counts s d (epoch a)) as Hc.
    destruct (loop_of s (epoch a) (boot s d)) as [[v|e1] m] eqn:El; [|intros _; exact Hc].
    destruct Hc as (Ht & _).
    pose proof (epoch_loop_ok s d _ _ _ El) as (_ & _ & Hlog & _ & Htr).
    rewrite write_reports_eq.
    destruct (targets_test v); [|intros _; exact Ht].
    destruct (best_test v); [intros _; exact Ht|].
    destruct (best_epoch v) as [k|] eqn:Ek; [|intros _; exact Ht]. cbv zeta.
    destruct (np_array_logged s _ v Hlog) as (table & Et & Hw); [lia|].
    rewrite Et.
    assert (Hpos : (0 < Z.to_nat (epoch a))%nat).
    { unfold tracked in Htr. rewrite Ek in Htr. destruct Htr as (kn & _ & Hkn & _). lia. }
    rewrite (Hw Hpos). cbn. discriminate.
  - intros Hret.
    destruct (main_ok _ _ _ _ Hp Hret) as (v & m & t & p & k & table & El & _ & _ & _ & _ & _ & Hd).
    pose proof (epoch_loop_ok s d _ _ _ El) as (_ & Ht & _).
    rewrite Hd. cbn [tables]. rewrite Ht. eauto.
Qed.

(** X14: with an epoch budget of zero or less the loop body never runs:
    [main] trains nothing, and raises on the first statement after the
    loop, which reads [targets_test], a name only the loop body binds
    (Python's [UnboundLocalError], a [NameError]); the disk is as it
    was. *)
Theorem no_epoch_is_a_name_error (fd : option Z) (a : args) (d : disk) (s : setup) :
  prepare fd a = Ok s ->
  epoch a <= 0 ->
  main fd a d = {| returned := Raise (NameError "targets_test");
                   disk_after := d; events := [] |}.
Proof.
  intros Hp Hn. rewrite (main_run _ _ _ _ Hp).
  unfold run, epoch_loop. rewrite range_nonpos by exact Hn.
  cbn [for_each]. unfold bind, ret. rewrite write_reports_eq. reflexivity.
Qed.

(** X15: a batch size of zero or less never reaches the loop: [main]
    raises while it sets up, with the disk as it was and nothing trained;
    when the device is valid and the two datasets were read, the error is
    the [ValueError] of the first [DataLoader]. *)
Theorem nonpositive_batch_size_raises (fd : option Z) (a : args) (d : disk) :
  batch_size a <= 0 ->
  (exists e, main fd a d = {| returned := Raise e; disk_after := d; events := [] |})
  /\ (forall ds_train ds_test train_length,
        torch_device (device a) = true ->
        get_dataset (dataset_name a) (dataset_path_train a) = Ok ds_train ->
        get_dataset (dataset_name a) (dataset_path_test a) = Ok ds_test ->
        train_length_of (len (examples ds_train)) = Ok train_length ->
        exists msg, returned (main fd a d) = Raise (ValueError msg)).
Proof.
  intros Hb. split.
  - destruct (prepare fd a) as [s|e] eqn:Hp.
    + exfalso. destruct (prepare_ok _ _ _ Hp) as (_ & ds1 & ds2 & tl & parts & _ & _ & _ & _
                                                    & E5 & _).
      apply DataLoader_covers in E5. lia.
    + exists e. now apply main_raise.
  - intros ds1 ds2 tl Hdev E1 E2 E3. unfold main, prepare.
    rewrite Hdev, E1, E2. cbn [negb rbind]. rewrite E3. cbn [rbind].
    unfold random_split.
    replace (tl + (len (examples ds1) - tl) =? len (examples ds1)) with true
      by (symmetry; apply Z.eqb_eq; lia).
    cbn [negb rbind fst snd]. unfold DataLoader.
    replace (batch_size a <=? 0) with true by (symmetry; apply Z.leb_le; lia).
    cbn. eauto.
Qed.


End MainEdges.

(** ** The names of the reports and the script block *)

Section Names.









(** Splits on the next comparison of [year] with a literal. *)
Ltac next_year year :=
  match goal with
  | |- context [year =? ?k] => destruct (Z.eqb_spec year k); [subst year; reflexivity|]
  end.

(** X19: the table of [feature_dim].  For the site CRP-Sw the years 2017,
    2018 and 2019 are listed under 26 and again under 25; the earlier
    branch wins, so that they get 26, and 25 is left to 2010, 2011 and
    2016.  A site the table does not name, AGR-Sw of the list of sites
    among them, and any year outside 2009 to 2020 get the default 27 and
    are never skipped. *)
Theorem feature_dim_table (year : Z) :
  Script.feature_dim "CRP-Sw" year
  = Some (if Script.among year [2012; 2017; 2018; 2019] then 26
          else if Script.among year [2010; 2011; 2016] then 25
          else 27)
  /\ Script.feature_dim "CRP-Sw" 2017 = Some 26
  /\ Script.feature_dim "CRP-Sw" 2018 = Some 26
  /\ Script.feature_dim "CRP-Sw" 2019 = Some 26
  /\ (forall site,
        forallb (fun known_site => negb (site =? known_site)%string)
          ["CRP-Ref"; "CRP-C"; "CRP-Sw"; "AGR-C"; "CRP-Pr"; "AGR-Pr"]%string = true ->
        Script.feature_dim site year = Some 27)
  /\ Script.feature_dim "AGR-Sw" year = Some 27
  /\ (forall site, year < 2009 \/ 2020 < year -> Script.feature_dim site year = Some 27).
Proof.
  split; [|split; [reflexivity|split; [reflexivity|split; [reflexivity|split; [|split]]]]].
  - unfold Script.feature_dim, Script.skipped, Script.among.
    cbn [existsb String.eqb Ascii.eqb Bool.eqb andb orb].
    repeat next_year year. reflexivity.
  - intros site H. cbn [forallb] in H.
    repeat (apply andb_true_iff in H; destruct H as [?E H]).
    repeat match goal with E : negb _ = true |- _ => apply negb_true_iff in E end.
    unfold Script.feature_dim, Script.skipped.
    repeat match goal with E : (site =? _)%string = false |- _ => rewrite E; clear E end.
    reflexivity.
  - reflexivity.
  - intros site Hy. unfold Script.feature_dim, Script.skipped, Script.among.
    cbn [existsb].
    repeat match goal with
           | |- context [year =? ?k] =>
               replace (year =? k) with false by (symmetry; apply Z.eqb_neq; lia)
           end.
    cbn [orb]. rewrite !andb_false_r. reflexivity.
Qed.

End Names.

Section ScriptRun.

Context {B : Backend}.

(** X20: run as a script, the file calls [main] once, whatever options the
    parser accepted: for the site CRP-Ref and the year 2018, with
    [feature_dim] bound to 31, so that the default model ['rnn'] finds its
    global; with no option for it, the training path is the default one of
    that site and year. *)
Theorem script_calls_main_once (cl : Script.command_line) (d : disk) :
  Script.script cl d = [main (Some 31) (Script.parse_args "CRP-Ref" 2018 cl) d]
  /\ (Script.opt_dataset_path_train cl = None ->
      dataset_path_train (Script.parse_args "CRP-Ref" 2018 cl)
      = (Script.data_dir ++ "CRP-Ref-2018-5-day_3-7_grow_train.csv")%string)
  /\ (Script.opt_model_name cl = None ->
      forall ds, get_model (Some 31) (model_name (Script.parse_args "CRP-Ref" 2018 cl)) ds
                 = Ok (construct (RecurrentNeuralNetwork 31) (field_dims ds))).
Proof.
  split; [|split].
  - unfold Script.script, Script.site_name, Script.years.
    change (Script.arange 2018 2019) with [2018]. cbn [list_prod map app Script.calls].
    change (Script.feature_dim "CRP-Ref" 2018) with (Some 31).
    cbv beta iota zeta. f_equal.
    now destruct (returned (main (Some 31) (Script.parse_args "CRP-Ref" 2018 cl) d)).
  - intros H. unfold Script.parse_args. cbn [dataset_path_train]. rewrite H. reflexivity.
  - intros H ds. unfold Script.parse_args. cbn [model_name]. rewrite H. reflexivity.
Qed.

End ScriptRun.

(** ** More on the epoch loop *)

Section MoreLoop.

Context {B : Backend}.

(** A loop that raises does so in the body of one element, after the
    elements before it went through. *)
Lemma for_each_raise {A S} (body : A -> S -> prog S) (l : list A) :
  forall acc m e m', for_each l body acc m = (Raise e, m') ->
  exists l1 x l2 acc1 m1,
    l = (l1 ++ x :: l2)%list
    /\ for_each l1 body acc m = (Ok acc1, m1)
    /\ body x acc1 m1 = (Raise e, m').
Proof.
  induction l as [|a l IH]; intros acc m e m' H; [discriminate|].
  cbn [for_each] in H. unfold bind in H.
  destruct (body a acc m) as [[acc'|e0] m0] eqn:Eb.
  - destruct (IH _ _ _ _ H) as (l1 & x & l2 & acc1 & m1 & -> & E1 & E2).
    exists (a :: l1), x, l2, acc1, m1. split; [reflexivity|]. split; [|exact E2].
    cbn [for_each]. unfold bind. now rewrite Eb.
  - inversion H; subst. exists [], a, l, acc, m. auto.
Qed.

Lemma firstn_seq_le (k : nat) : forall start len,
  (k <= len)%nat -> firstn k (seq start len) = seq start k.
Proof.
  induction k as [|k IH]; intros start len H; [reflexivity|].
  destruct len as [|len]; [lia|]. cbn [seq firstn]. f_equal. apply IH. lia.
Qed.

Lemma range_split (n : Z) (l1 l2 : list Z) (x : Z) :
  range n = (l1 ++ x :: l2)%list ->
  l1 = range (Z.of_nat (List.length l1))
  /\ x = Z.of_nat (List.length l1)
  /\ (List.length l1 < Z.to_nat n)%nat.
Proof.
  intros H.
  assert (Hx : nth_error (range n) (List.length l1) = Some x).
  { rewrite H, nth_error_app2 by lia. now rewrite Nat.sub_diag. }
  apply nth_error_range in Hx. destruct Hx as [Hx Hk].
  split; [|split; assumption].
  transitivity (firstn (List.length l1) (range n)).
  - now rewrite H, firstn_exact.
  - unfold range. rewrite firstn_map, firstn_seq_le, Nat2Z.id by lia. reflexivity.
Qed.

(** Two doubles that are below something are comparable. *)
Lemma not_leb_ltb (a b c1 c2 : float) :
  (a <? c1)%float = true -> (b <? c2)%float = true ->
  (a <=? b)%float = false -> (b <? a)%float = true.
Proof.
  intros Ha Hb Hab.
  apply ltb_below in Ha. destruct Ha as (ka & _ & Ea & _ & _).
  apply ltb_below in Hb. destruct Hb as (kb & _ & Eb & _ & _).
  apply ltb_below. exists kb, ka. repeat split; auto.
  destruct (lex ka kb) eqn:El.
  - apply lex_Eq in El. subst kb.
    assert (C : (a <=? b)%float = true) by (apply leb_below; eauto 6).
    congruence.
  - apply lex_Lt in El.
    assert (C : (a <=? b)%float = true) by (apply leb_below; eauto 6).
    congruence.
  - apply lex_Lt. unfold lex in *.
    destruct ka as [[a1 a2] a3], kb as [[b1 b2] b3]; cbn [fst snd] in *.
    rewrite (Z.compare_antisym a1 b1), (Z.compare_antisym a2 b2),
      (Z.compare_antisym a3 b3).
    destruct (a1 ?= b1); cbn; try congruence.
    destruct (a2 ?= b2); cbn; try congruence.
    destruct (a3 ?= b3); cbn; congruence.
Qed.

(** X21: a loop that raises does so in one epoch, after the epochs before
    it went through, and leaves the disk as those epochs left it: the
    failing epoch saves nothing, later epochs are not run, and [main]
    raises that epoch's error with that disk.  A checkpoint written by an
    earlier epoch stays. *)
Theorem a_failing_epoch_keeps_the_disk (s : setup) (d : disk) (n : Z) (e : exn)
  (m : machine) :
  loop_of s n (boot s d) = (Raise e, m) ->
  exists i v m0,
    (i < Z.to_nat n)%nat
    /\ loop_of s (Z.of_nat i) (boot s d) = (Ok v, m0)
    /\ epoch_body (train_data_loader s) (valid_data_loader s) (test_data_loader s)
         (Z.of_nat i) v m0 = (Raise e, m)
    /\ storage m = storage m0
    /\ saves (log m) = saves (log m0)
    /\ (forall fd a, prepare fd a = Ok s -> epoch a = n ->
          returned (main fd a d) = Raise e
          /\ disk_after (main fd a d) = storage m0).
Proof.
  intros H. unfold loop_of, epoch_loop in H.
  destruct (for_each_raise _ _ _ _ _ _ H) as (l1 & x & l2 & v & m0 & Hl & E1 & E2).
  destruct (range_split _ _ _ _ Hl) as (Hl1 & -> & Hi).
  exists (List.length l1), v, m0.
  split; [exact Hi|]. split; [unfold loop_of, epoch_loop; now rewrite <- Hl1|].
  split; [exact E2|].
  assert (Hst : storage m = storage m0 /\ saves (log m) = saves (log m0)).
  { rewrite epoch_body_eq in E2. cbv zeta in E2.
    pose proof (saves_pass_events (train_data_loader s) (valid_data_loader s)
                  (test_data_loader s) (learner_of m0)) as Hp.
    assert (Hf : forall k t l,
              storage (install l t (firstn k (pass_events (train_data_loader s)
                         (valid_data_loader s) (test_data_loader s) (learner_of m0))) m0)
              = storage m0
              /\ saves (log (install l t (firstn k (pass_events (train_data_loader s)
                         (valid_data_loader s) (test_data_loader s) (learner_of m0))) m0))
                 = saves (log m0)).
    { intros k t l. autorewrite with machine. rewrite saves_app.
      rewrite saves_firstn by exact Hp. split; [reflexivity|lia]. }
    destruct (score _ _);
      [|apply (f_equal snd) in E2; cbn [snd] in E2; subst m; apply Hf].
    destruct (evaluate _ (train_data_loader s));
      [|apply (f_equal snd) in E2; cbn [snd] in E2; subst m; apply Hf].
    destruct (evaluate _ (valid_data_loader s));
      [|apply (f_equal snd) in E2; cbn [snd] in E2; subst m; apply Hf].
    destruct (evaluate _ (test_data_loader s)).
    - destruct (_ <? _)%float; discriminate.
    - apply (f_equal snd) in E2. cbn [snd] in E2. subst m.
      unfold after_passes. autorewrite with machine.
      rewrite saves_app, Hp. split; [reflexivity|lia]. }
  split; [apply Hst|]. split; [apply Hst|].
  intros fd a Hp Hn. rewrite (main_run _ _ _ _ Hp). cbn [returned disk_after].
  unfold run, bind. rewrite Hn. unfold epoch_loop. rewrite H. cbn [fst snd].
  split; [reflexivity|apply Hst].
Qed.

(** X22: the epochs of a completed loop compose: the model, the gradients
    and the optimiser it ends with are those of [epoch] training passes
    over the training loader, one after the other, from the model [main]
    built.  Every epoch trains on from where the one before it stopped; the
    evaluation passes, the tracker and the checkpoint have no part in it. *)
Theorem epochs_train_on_from_the_last (s : setup) (d : disk) (n : Z) (v : locals)
  (m : machine) :
  loop_of s n (boot s d) = (Ok v, m) ->
  learner_of m
  = Nat.iter (Z.to_nat n) (fit (train_data_loader s)) (model s, no_gradients, optimizer s)
  /\ (forall i l, Nat.iter (S i) (fit (train_data_loader s)) l
                  = fold_left learn (train_data_loader s)
                      (Nat.iter i (fit (train_data_loader s)) l))
  /\ List.length (mae v) = Z.to_nat n.
Proof.
  intros H. apply epoch_loop_ok in H. destruct H as (HL & _ & [Hlen _] & _).
  split; [exact HL|]. split; [reflexivity|exact Hlen].
Qed.

(** X23: the test data have no say in which model is kept.  Two runs that
    differ in their test loader alone, and both complete their loop, end
    with the same best epoch, the same best validation MAE, the same
    checkpoint and the same trained model. *)
Theorem selection_ignores_the_test_set (s1 s2 : setup) (d : disk) (n : Z)
  (v1 v2 : locals) (m1 m2 : machine) :
  train_data_loader s1 = train_data_loader s2 ->
  valid_data_loader s1 = valid_data_loader s2 ->
  model s1 = model s2 ->
  optimizer s1 = optimizer s2 ->
  loop_of s1 n (boot s1 d) = (Ok v1, m1) ->
  loop_of s2 n (boot s2 d) = (Ok v2, m2) ->
  best_epoch v1 = best_epoch v2
  /\ best v1 = best v2
  /\ checkpoint (storage m1) = checkpoint (storage m2)
  /\ learner_of m1 = learner_of m2.
Proof.
  intros Ht Hv Hm Ho H1 H2.
  apply epoch_loop_ok in H1. apply epoch_loop_ok in H2.
  destruct H1 as (L1 & _ & _ & _ & T1). destruct H2 as (L2 & _ & _ & _ & T2).
  assert (Etr : forall i, trained s1 i = trained s2 i).
  { intros i. unfold trained. now rewrite Ht, Hm, Ho. }
  assert (Emo : forall j, model_at s1 j = model_at s2 j).
  { intros j. unfold model_at. now rewrite Etr. }
  assert (Eva : forall j, mae_val s1 j = mae_val s2 j).
  { intros j. unfold mae_val. now rewrite Emo, Hv. }
  assert (HL : learner_of m1 = learner_of m2) by now rewrite L1, L2, Etr.
  unfold tracked in T1, T2.
  destruct (best_epoch v1) as [k1|], (best_epoch v2) as [k2|].
  - destruct T1 as (a1 & -> & Hk1 & Hb1 & Hs1 & _ & Hc1 & Hall1 & Hbef1).
    destruct T2 as (a2 & -> & Hk2 & Hb2 & Hs2 & _ & Hc2 & Hall2 & Hbef2).
    assert (Ek : a1 = a2).
    { destruct (Nat.lt_trichotomy a1 a2) as [Hlt|[Heq|Hgt]]; [|exact Heq|].
      - exfalso. pose proof (Hbef2 a1 Hlt) as C1.
        pose proof (Hall1 a2 Hk2) as C2. rewrite <- !Eva in C1.
        rewrite <- Eva in Hs2.
        rewrite (not_leb_ltb _ _ _ _ Hs1 Hs2 C1) in C2. discriminate.
      - exfalso. pose proof (Hbef1 a2 Hgt) as C1.
        pose proof (Hall2 a1 Hk1) as C2. rewrite !Eva in C1.
        rewrite Eva in Hs1.
        rewrite (not_leb_ltb _ _ _ _ Hs2 Hs1 C1) in C2. discriminate. }
    subst a2. rewrite Hb1, Hb2, Hc1, Hc2, Eva, Emo. auto.
  - exfalso. destruct T1 as (a1 & _ & Hk1 & _ & Hs1 & _).
    destruct T2 as (_ & _ & _ & _ & Hall). rewrite Eva, (Hall a1 Hk1) in Hs1. discriminate.
  - exfalso. destruct T2 as (a2 & _ & Hk2 & _ & Hs2 & _).
    destruct T1 as (_ & _ & _ & _ & Hall). rewrite <- Eva, (Hall a2 Hk2) in Hs2.
    discriminate.
  - destruct T1 as (Hb1 & _ & Hc1 & _). destruct T2 as (Hb2 & _ & Hc2 & _).
    rewrite Hb1, Hb2, Hc1, Hc2. auto.
Qed.

End MoreLoop.

(** ** The sizes of the splits and the mode at a save *)

Section Splits.

Context {B : Backend}.

(** X24: from one training example on (and below 1250999896491811), the
    validation split is never empty: it gets a tenth of the examples,
    rounded up; the training split gets the rest and is not empty from two
    examples on.  Neither loader of such a run is empty. *)
Theorem both_splits_are_filled (fd : option Z) (a : args) (s : setup) (ds : dataset) :
  (forall n, Permutation (randperm n) (seq 0 n)) ->
  prepare fd a = Ok s ->
  get_dataset (dataset_name a) (dataset_path_train a) = Ok ds ->
  1 <= len (examples ds) < first_miss ->
  len (targets (valid_data_loader s)) = (len (examples ds) + 9) / 10
  /\ len (targets (train_data_loader s)) = 9 * len (examples ds) / 10
  /\ valid_data_loader s <> []
  /\ (2 <= len (examples ds) -> train_data_loader s <> []).
Proof.
  intros Hperm Hp Hds [H1 Hsize].
  destruct (prepare_ok _ _ _ Hp) as (_ & ds1 & ds2 & tl & parts & E1 & _ & E3 & E4 & E5
                                       & E6 & _).
  rewrite Hds in E1. inversion E1; subst ds1; clear E1.
  rewrite train_length_exact in E3 by lia. inversion E3; subst tl; clear E3.
  assert (Hq : 0 <= 9 * len (examples ds) / 10 <= len (examples ds)).
  { split; [apply Z.div_pos; lia|apply Z.div_le_upper_bound; lia]. }
  assert (Hrest : 0 <= len (examples ds) - 9 * len (examples ds) / 10) by lia.
  destruct (random_split_partition (examples ds) _ _ parts (Hperm _) (proj1 Hq) Hrest E4)
    as (L1 & L2 & _).
  destruct (DataLoader_covers _ _ _ E5) as (_ & T1 & _).
  destruct (DataLoader_covers _ _ _ E6) as (_ & T2 & _).
  assert (V : len (targets (valid_data_loader s)) = (len (examples ds) + 9) / 10).
  { rewrite T2. unfold len in *. rewrite length_map.
    etransitivity; [exact L2|]. clear. Z.div_mod_to_equations. lia. }
  assert (T : len (targets (train_data_loader s)) = 9 * len (examples ds) / 10).
  { rewrite T1. unfold len in *. rewrite length_map. exact L1. }
  split; [exact V|]. split; [exact T|]. split.
  - intros E. rewrite E in V. change (len (targets [])) with 0 in V.
    assert (1 <= (len (examples ds) + 9) / 10) by (apply Z.div_le_lower_bound; lia).
    lia.
  - intros H2 E. rewrite E in T. change (len (targets [])) with 0 in T.
    assert (1 <= 9 * len (examples ds) / 10) by (apply Z.div_le_lower_bound; lia).
    lia.
Qed.

Lemma modes_at_save_app (es1 es2 : list event) : forall mode,
  modes_at_save (es1 ++ es2) mode
  = (modes_at_save es1 mode ++ modes_at_save es2 (mode_after es1 mode))%list.
Proof.
  induction es1 as [|e es1 IH]; intros mode; [reflexivity|].
  destruct e; cbn [app modes_at_save mode_after]; rewrite IH; reflexivity.
Qed.

Lemma mode_after_app (es1 es2 : list event) : forall mode,
  mode_after (es1 ++ es2) mode = mode_after es2 (mode_after es1 mode).
Proof.
  induction es1 as [|e es1 IH]; intros mode; [reflexivity|].
  destruct e; cbn [app mode_after]; apply IH.
Qed.

Lemma modes_without_save (es : list event) : forall mode,
  saves es = O -> modes_at_save es mode = [].
Proof.
  induction es as [|e es IH]; intros mode H; [reflexivity|].
  rewrite saves_cons in H. destruct e; cbn [is_save] in H; try discriminate;
    cbn [modes_at_save]; apply IH; exact H.
Qed.

Lemma mode_after_forwards (dl : list batch) (mode : bool) :
  mode_after (map (fun b => Forward (fst b)) dl) mode = mode.
Proof. induction dl as [|b dl IH]; [reflexivity|exact IH]. Qed.

Lemma mode_after_pass_events dl_tr dl_va dl_te l (mode : bool) :
  mode_after (pass_events dl_tr dl_va dl_te l) mode = false.
Proof.
  unfold pass_events. rewrite !mode_after_app. cbn [mode_after].
  now rewrite mode_after_forwards.
Qed.

(** X25: every [torch.save] of a run happens with the module in
    evaluation mode: it follows, in the same epoch, the [model.eval()] of
    the three evaluation passes, and no [model.train()] comes in between.
    This holds for the events of any call of [main], whether it returns or
    raises. *)
Theorem saves_are_made_in_eval_mode (fd : option Z) (a : args) (d : disk) :
  Forall (fun mode => mode = false) (modes_at_save (events (main fd a d)) true).
Proof.
  destruct (prepare fd a) as [s|e0] eqn:Hp.
  2:{ rewrite (main_raise _ _ _ _ Hp). constructor. }
  rewrite (main_run _ _ _ _ Hp). cbn [events].
  assert (Hloop : match epoch_loop (train_data_loader s) (valid_data_loader s)
                          (test_data_loader s) (epoch a) (boot s d) with
                  | (_, m) => Forall (fun mode => mode = false) (modes_at_save (log m) true)
                  end).
  { unfold epoch_loop.
    pose proof (for_each_rule
      (epoch_body (train_data_loader s) (valid_data_loader s) (test_data_loader s))
      (range (epoch a))
      (fun _ _ m => Forall (fun mode => mode = false) (modes_at_save (log m) true))
      (fun m => Forall (fun mode => mode = false) (modes_at_save (log m) true))) as R.
    assert (Hstep : forall (i : nat) x acc m, nth_error (range (epoch a)) i = Some x ->
       Forall (fun mode => mode = false) (modes_at_save (log m) true) ->
       match epoch_body (train_data_loader s) (valid_data_loader s) (test_data_loader s)
               x acc m with
       | (Ok _, m') => Forall (fun mode => mode = false) (modes_at_save (log m') true)
       | (Raise _, m') => Forall (fun mode => mode = false) (modes_at_save (log m') true)
       end).
    { intros i x acc m _ Hm. rewrite epoch_body_eq. cbv zeta.
      pose proof (saves_pass_events (train_data_loader s) (valid_data_loader s)
                    (test_data_loader s) (learner_of m)) as Hs.
      assert (Hf : forall k t l,
                Forall (fun mode => mode = false)
                  (modes_at_save (log (install l t (firstn k (pass_events
                     (train_data_loader s) (valid_data_loader s) (test_data_loader s)
                     (learner_of m))) m)) true)).
      { intros k t l. rewrite log_install, modes_at_save_app.
        rewrite (modes_without_save (firstn k _)) by (apply saves_firstn; exact Hs).
        now rewrite app_nil_r. }
      assert (Ha : Forall (fun mode => mode = false)
                     (modes_at_save (log (after_passes (train_data_loader s)
                        (valid_data_loader s) (test_data_loader s) m)) true)).
      { rewrite log_after_passes, modes_at_save_app.
        rewrite (modes_without_save (pass_events _ _ _ _)) by exact Hs.
        now rewrite app_nil_r. }
      destruct (score _ _); [|apply Hf].
      destruct (evaluate _ (train_data_loader s)); [|apply Hf].
      destruct (evaluate _ (valid_data_loader s)); [|apply Hf].
      destruct (evaluate _ (test_data_loader s)); [|exact Ha].
      destruct (_ <? _)%float; [|exact Ha].
      rewrite log_saved, modes_at_save_app. apply Forall_app. split; [exact Ha|].
      rewrite log_after_passes, mode_after_app, mode_after_pass_events.
      repeat constructor. }
    specialize (R Hstep initial_locals (boot s d) ltac:(constructor)).
    destruct (for_each _ _ _ _) as [[v|e] m]; exact R. }
  unfold run, bind.
  destruct (epoch_loop _ _ _ _ _) as [[v|e] m]; [|exact Hloop].
  now rewrite write_reports_log.
Qed.

End Splits.

(** ** The further theorems at work on the small backend *)

Section MoreExamples.

(** The training file of the small backend is no MovieLens file: ['ncf']
    fails its assertion on it. *)
Lemma ncf_needs_movielens_witness :
  @get_dataset Toy.falling_backend "fuxtower" "train.csv"
  = Ok (@Toy.file_of Toy.falling_backend (Toy.rows 1 10))
  /\ @get_model Toy.falling_backend None "ncf"
       (@Toy.file_of Toy.falling_backend (Toy.rows 1 10))
     = Raise AssertionError.
Proof.
  assert (H : @get_dataset Toy.falling_backend "fuxtower" "train.csv"
              = Ok (@Toy.file_of Toy.falling_backend (Toy.rows 1 10))) by reflexivity.
  split; [exact H|].
  exact (@ncf_needs_movielens Toy.falling_backend None _ _ _ H).
Defined.

(** A stopper of three trials shown 200, 150, 100 and 120, none below its
    initial 100: two calls are answered [True], the others [False]. *)
Lemma early_stopper_patience_witness :
  trial_counter Cases.three_trials = 0
  /\ Forall (fun r => (r <? best_rmse Cases.three_trials)%float = false)
       [200; 150; 100; 120]%float
  /\ @is_continuable_all Toy.falling_backend [200; 150; 100; 120]%float
       Cases.three_trials (boot Toy.falling_setup Toy.empty_disk)
     = (Ok ([true; true; false; false],
            {| num_trials := 3; trial_counter := 2; best_rmse := 100%float |}),
        boot Toy.falling_setup Toy.empty_disk).
Proof.
  assert (H1 : trial_counter Cases.three_trials = 0) by reflexivity.
  assert (H2 : Forall (fun r => (r <? best_rmse Cases.three_trials)%float = false)
                 [200; 150; 100; 120]%float) by (repeat constructor).
  split; [exact H1|]. split; [exact H2|].
  exact (proj1 (@early_stopper_patience Toy.falling_backend _ _
                  (boot Toy.falling_setup Toy.empty_disk) H1 H2)).
Defined.

(** The tracker of a run and a stopper, both shown [nan]. *)
Lemma nan_is_never_the_best_witness :
  is_nan nan = true
  /\ (forall i tr va te v (m : @machine Toy.falling_backend),
        mae_of va = nan -> observe i tr va te v m = (Ok (false, v), m))
  /\ fst (@is_continuable Toy.falling_backend Cases.three_trials nan
            (boot Toy.falling_setup Toy.empty_disk))
     = Ok (true, {| num_trials := 3; trial_counter := 1; best_rmse := 100%float |}).
Proof.
  assert (H : is_nan nan = true) by reflexivity.
  split; [exact H|].
  destruct (@nan_is_never_the_best Toy.falling_backend nan H) as [F1 F2].
  split; [exact F1|]. rewrite F2. reflexivity.
Defined.

(** Ten examples in batches of four: three batches, the last one short. *)
Lemma DataLoader_batches_witness :
  0 < 4
  /\ exists dl, @DataLoader Toy.falling_backend (Toy.rows 1 10) 4 = Ok dl
                /\ len dl = 3
                /\ Forall (fun b => 0 < len (fst b) <= 4 /\ len (snd b) = len (fst b)) dl.
Proof.
  assert (H : 0 < 4) by lia.
  split; [exact H|].
  destruct (@DataLoader_batches Toy.falling_backend (Toy.rows 1 10) 4 H)
    as (dl & E & L & _ & F & _).
  exists dl. split; [exact E|]. split; [exact L|exact F].
Defined.

(** A run on the training file of one example raises in its first training
    pass. *)
Lemma lone_example_trains_on_nothing_witness :
  @prepare Cases.backend (Some 31) Cases.lone_example = Ok Cases.lone_setup
  /\ @get_dataset Cases.backend "fuxtower" "one.csv"
     = Ok (@Toy.file_of Cases.backend (Toy.rows 1 1))
  /\ len (Toy.rows 1 1) <= 1
  /\ train_data_loader Cases.lone_setup = []
  /\ returned (@main Cases.backend (Some 31) Cases.lone_example Toy.empty_disk)
     = Raise (ValueError "need at least one array to concatenate")
  /\ events (@main Cases.backend (Some 31) Cases.lone_example Toy.empty_disk)
     = [ModeTrain]
  /\ disk_after (@main Cases.backend (Some 31) Cases.lone_example Toy.empty_disk)
     = Toy.empty_disk.
Proof.
  assert (H1 : @prepare Cases.backend (Some 31) Cases.lone_example = Ok Cases.lone_setup)
    by reflexivity.
  assert (H2 : @get_dataset Cases.backend "fuxtower" "one.csv"
               = Ok (@Toy.file_of Cases.backend (Toy.rows 1 1))) by reflexivity.
  assert (H3 : len (Toy.rows 1 1) <= 1) by (vm_compute; discriminate).
  split; [exact H1|]. split; [exact H2|]. split; [exact H3|].
  destruct (@lone_example_trains_on_nothing Cases.backend _ _ Toy.empty_disk _ _ H1 H2 H3)
    as (_ & F1 & _ & F2 & _ & F3).
  assert (H4 : 0 < epoch Cases.lone_example) by reflexivity.
  destruct (F3 H4) as [F4 F5].
  repeat split; assumption.
Defined.

(** The run of four epochs over three training batches takes twelve steps. *)
Lemma optimizer_steps_of_a_run_witness :
  (forall n, Permutation (@randperm Toy.falling_backend n) (seq 0 n))
  /\ @prepare Toy.falling_backend Toy.feature_dim Toy.four_epochs = Ok Toy.falling_setup
  /\ @get_dataset Toy.falling_backend "fuxtower" "train.csv"
     = Ok (@Toy.file_of Toy.falling_backend (Toy.rows 1 10))
  /\ len (Toy.rows 1 10) < first_miss
  /\ returned (@main Toy.falling_backend Toy.feature_dim Toy.four_epochs Toy.empty_disk)
     = Ok tt
  /\ steps (events (@main Toy.falling_backend Toy.feature_dim Toy.four_epochs
                      Toy.empty_disk)) = 12%nat
  /\ (1 <= saves (events (@main Toy.falling_backend Toy.feature_dim Toy.four_epochs
                            Toy.empty_disk)) <= 4)%nat.
Proof.
  assert (H0 : forall n, Permutation (@randperm Toy.falling_backend n) (seq 0 n)).
  { intros n. apply Permutation_sym, Permutation_rev. }
  assert (H1 : @prepare Toy.falling_backend Toy.feature_dim Toy.four_epochs
               = Ok Toy.falling_setup) by reflexivity.
  assert (H2 : @get_dataset Toy.falling_backend "fuxtower" "train.csv"
               = Ok (@Toy.file_of Toy.falling_backend (Toy.rows 1 10))) by reflexivity.
  assert (H3 : len (Toy.rows 1 10) < first_miss) by (vm_compute; reflexivity).
  assert (H4 : returned (@main Toy.falling_backend Toy.feature_dim Toy.four_epochs
                           Toy.empty_disk) = Ok tt) by (vm_compute; reflexivity).
  split; [exact H0|]. split; [exact H1|]. split; [exact H2|]. split; [exact H3|].
  split; [exact H4|].
  destruct (@optimizer_steps_of_a_run Toy.falling_backend _ _ Toy.empty_disk _ _
              H0 H1 H2 H3 H4) as (F1 & _ & _ & F2).
  split; [rewrite F1; reflexivity|exact F2].
Defined.

(** The run with validation MAEs 2000 and 1500 raises and leaves no table. *)
Lemma reports_come_together_witness :
  epoch Toy.two_epochs <= 2 ^ 53
  /\ is_ok (returned (@main Toy.poor_backend Toy.feature_dim Toy.two_epochs
                        Toy.empty_disk)) = false
  /\ tables (disk_after (@main Toy.poor_backend Toy.feature_dim Toy.two_epochs
                           Toy.empty_disk)) = [].
Proof.
  assert (H : epoch Toy.two_epochs <= 2 ^ 53) by (vm_compute; discriminate).
  assert (H1 : is_ok (returned (@main Toy.poor_backend Toy.feature_dim Toy.two_epochs
                                  Toy.empty_disk)) = false) by (vm_compute; reflexivity).
  split; [exact H|]. split; [exact H1|].
  destruct (@reports_come_together Toy.poor_backend Toy.feature_dim Toy.two_epochs
              Toy.empty_disk H) as [F _].
  destruct (returned (@main Toy.poor_backend Toy.feature_dim Toy.two_epochs
                        Toy.empty_disk)) as [u|e] eqn:E.
  - discriminate H1.
  - exact (F e eq_refl).
Defined.

(** The usual files with no epoch to run. *)
Lemma no_epoch_is_a_name_error_witness :
  @prepare Toy.falling_backend Toy.feature_dim Cases.no_epoch = Ok Toy.falling_setup
  /\ epoch Cases.no_epoch <= 0
  /\ @main Toy.falling_backend Toy.feature_dim Cases.no_epoch Toy.empty_disk
     = {| returned := Raise (NameError "targets_test");
          disk_after := Toy.empty_disk; events := [] |}.
Proof.
  assert (H1 : @prepare Toy.falling_backend Toy.feature_dim Cases.no_epoch
               = Ok Toy.falling_setup) by reflexivity.
  assert (H2 : epoch Cases.no_epoch <= 0) by (vm_compute; discriminate).
  split; [exact H1|]. split; [exact H2|].
  exact (@no_epoch_is_a_name_error Toy.falling_backend _ _ Toy.empty_disk _ H1 H2).
Defined.

(** The usual files with a batch size of zero. *)
Lemma nonpositive_batch_size_raises_witness :
  batch_size Cases.no_batch <= 0
  /\ (exists e, @main Toy.falling_backend Toy.feature_dim Cases.no_batch Toy.empty_disk
                = {| returned := Raise e; disk_after := Toy.empty_disk; events := [] |})
  /\ exists msg, returned (@main Toy.falling_backend Toy.feature_dim Cases.no_batch
                             Toy.empty_disk) = Raise (ValueError msg).
Proof.
  assert (H : batch_size Cases.no_batch <= 0) by (vm_compute; discriminate).
  split; [exact H|].
  destruct (@nonpositive_batch_size_raises Toy.falling_backend Toy.feature_dim
              Cases.no_batch Toy.empty_disk H) as [F1 F2].
  split; [exact F1|].
  exact (F2 (@Toy.file_of Toy.falling_backend (Toy.rows 1 10))
            (@Toy.file_of Toy.falling_backend (Toy.rows 11 3)) 9
            eq_refl eq_refl eq_refl eq_refl).
Defined.



(** The run whose model predicts [nan] after its second epoch raises in
    that epoch; the disk is the one the first epoch left. *)
Lemma a_failing_epoch_keeps_the_disk_witness :
  is_ok (fst (@loop_of Cases.diverging_backend Cases.diverging_setup 4
                (boot Cases.diverging_setup Toy.empty_disk))) = false
  /\ exists i v m0,
       (i < Z.to_nat 4)%nat
       /\ @loop_of Cases.diverging_backend Cases.diverging_setup (Z.of_nat i)
            (boot Cases.diverging_setup Toy.empty_disk) = (Ok v, m0)
       /\ storage (snd (@loop_of Cases.diverging_backend Cases.diverging_setup 4
                          (boot Cases.diverging_setup Toy.empty_disk)))
          = storage m0.
Proof.
  assert (H : is_ok (fst (@loop_of Cases.diverging_backend Cases.diverging_setup 4
                            (boot Cases.diverging_setup Toy.empty_disk))) = false)
    by (vm_compute; reflexivity).
  split; [exact H|].
  destruct (@loop_of Cases.diverging_backend Cases.diverging_setup 4
              (boot Cases.diverging_setup Toy.empty_disk)) as [[v|e] m] eqn:E;
    [discriminate H|].
  destruct (@a_failing_epoch_keeps_the_disk Cases.diverging_backend _ _ _ _ _ E)
    as (i & v & m0 & Hi & El & _ & Hst & _).
  exists i, v, m0. auto.
Defined.

(** After the run of four epochs the model has taken the steps of four
    training passes. *)
Lemma epochs_train_on_from_the_last_witness :
  exists v m,
    @loop_of Toy.falling_backend Toy.falling_setup 4
      (boot Toy.falling_setup Toy.empty_disk) = (Ok v, m)
    /\ learner_of m
       = Nat.iter (Z.to_nat 4) (fit (train_data_loader Toy.falling_setup))
           (model Toy.falling_setup, no_gradients, optimizer Toy.falling_setup)
    /\ List.length (mae v) = Z.to_nat 4.
Proof.
  destruct (@loop_of Toy.falling_backend Toy.falling_setup 4
              (boot Toy.falling_setup Toy.empty_disk)) as [[v|e] m] eqn:E.
  - exists v, m. split; [reflexivity|].
    destruct (@epochs_train_on_from_the_last Toy.falling_backend _ _ _ _ _ E)
      as (F1 & _ & F2).
    split; assumption.
  - exfalso.
    assert (H : is_ok (fst (@loop_of Toy.falling_backend Toy.falling_setup 4
                              (boot Toy.falling_setup Toy.empty_disk))) = true)
      by (vm_compute; reflexivity).
    rewrite E in H. discriminate.
Defined.

(** The run of four epochs keeps the same model whether it is tested on
    the test file or on its validation split. *)
Lemma selection_ignores_the_test_set_witness :
  exists v1 m1 v2 m2,
    @loop_of Toy.falling_backend Toy.falling_setup 4
      (boot Toy.falling_setup Toy.empty_disk) = (Ok v1, m1)
    /\ @loop_of Toy.falling_backend Cases.other_test_setup 4
         (boot Cases.other_test_setup Toy.empty_disk) = (Ok v2, m2)
    /\ test_data_loader Toy.falling_setup <> test_data_loader Cases.other_test_setup
    /\ best_epoch v1 = best_epoch v2
    /\ best v1 = best v2
    /\ checkpoint (storage m1) = checkpoint (storage m2)
    /\ learner_of m1 = learner_of m2.
Proof.
  assert (H1 : is_ok (fst (@loop_of Toy.falling_backend Toy.falling_setup 4
                             (boot Toy.falling_setup Toy.empty_disk))) = true)
    by (vm_compute; reflexivity).
  assert (H2 : is_ok (fst (@loop_of Toy.falling_backend Cases.other_test_setup 4
                             (boot Cases.other_test_setup Toy.empty_disk))) = true)
    by (vm_compute; reflexivity).
  destruct (@loop_of Toy.falling_backend Toy.falling_setup 4
              (boot Toy.falling_setup Toy.empty_disk)) as [[v1|e1] m1] eqn:E1;
    [|discriminate H1].
  destruct (@loop_of Toy.falling_backend Cases.other_test_setup 4
              (boot Cases.other_test_setup Toy.empty_disk)) as [[v2|e2] m2] eqn:E2;
    [|discriminate H2].
  exists v1, m1, v2, m2. split; [reflexivity|]. split; [reflexivity|].
  split; [discriminate|].
  exact (@selection_ignores_the_test_set Toy.falling_backend Toy.falling_setup
           Cases.other_test_setup Toy.empty_disk 4 v1 v2 m1 m2
           eq_refl eq_refl eq_refl eq_refl E1 E2).
Defined.

(** The ten training examples of the small backend: nine to train on, one
    to validate, and neither loader empty. *)
Lemma both_splits_are_filled_witness :
  (forall n, Permutation (@randperm Toy.falling_backend n) (seq 0 n))
  /\ @prepare Toy.falling_backend Toy.feature_dim Toy.four_epochs = Ok Toy.falling_setup
  /\ @get_dataset Toy.falling_backend "fuxtower" "train.csv"
     = Ok (@Toy.file_of Toy.falling_backend (Toy.rows 1 10))
  /\ 1 <= len (Toy.rows 1 10) < first_miss
  /\ len (targets (valid_data_loader Toy.falling_setup)) = 1
  /\ len (targets (train_data_loader Toy.falling_setup)) = 9
  /\ valid_data_loader Toy.falling_setup <> []
  /\ train_data_loader Toy.falling_setup <> [].
Proof.
  assert (H0 : forall n, Permutation (@randperm Toy.falling_backend n) (seq 0 n)).
  { intros n. apply Permutation_sym, Permutation_rev. }
  assert (H1 : @prepare Toy.falling_backend Toy.feature_dim Toy.four_epochs
               = Ok Toy.falling_setup) by reflexivity.
  assert (H2 : @get_dataset Toy.falling_backend "fuxtower" "train.csv"
               = Ok (@Toy.file_of Toy.falling_backend (Toy.rows 1 10))) by reflexivity.
  assert (H3 : 1 <= len (Toy.rows 1 10) < first_miss) by (vm_compute; split; congruence).
  split; [exact H0|]. split; [exact H1|]. split; [exact H2|]. split; [exact H3|].
  destruct (@both_splits_are_filled Toy.falling_backend _ _ _ _ H0 H1 H2 H3)
    as (F1 & F2 & F3 & F4).
  split; [exact F1|]. split; [exact F2|]. split; [exact F3|].
  apply F4. vm_compute. discriminate.
Defined.

End MoreExamples.
